(** * SSD1306 OLED driver (STM32, I2C): a shallow embedding of [ssd1306.c]

    The driver keeps a 1024-byte frame buffer ([SSD1306_Buffer]) and a small
    status structure ([SSD1306]) as file-level statics, and talks to the
    panel through the STM32 HAL.  Here both statics and the bus traffic are
    gathered in one record that every function takes and returns. *)

From Stdlib Require Import ZArith List Bool Lia.
From stdpp Require Import base option list list_numbers.
Import ListNotations.

Local Open Scope Z_scope.

(** ** Machine integers

    Values are kept as [Z]; a conversion to a C integer type is written out
    where the source performs one (assignment to a typed variable, argument
    passing). *)

Definition u8 (z : Z) : Z := z mod 2 ^ 8.
Definition u16 (z : Z) : Z := z mod 2 ^ 16.
Definition s16 (z : Z) : Z := (z + 2 ^ 15) mod 2 ^ 16 - 2 ^ 15.

(** ** Constants of [ssd1306.h] *)

Definition SSD1306_I2C_ADDR : Z := 0x78.
Definition SSD1306_WIDTH : Z := 128.
Definition SSD1306_HEIGHT : Z := 64.
Definition SSD1306_I2C_TIMEOUT : Z := 2000.
Definition SSD1306_DEACTIVATE_SCROLL : Z := 0x2E.
Definition SSD1306_NORMALDISPLAY : Z := 0xA6.
Definition SSD1306_INVERTDISPLAY : Z := 0xA7.
Definition SSD1306_I2C_DATATMP_SIZE : Z := 256.

(** [sizeof(SSD1306_Buffer)], that is [SSD1306_WIDTH * SSD1306_HEIGHT / 8]. *)
Definition SSD1306_BUFFER_SIZE : Z := SSD1306_WIDTH * SSD1306_HEIGHT / 8.

(** The status enumeration.  The source returns [LCD_OK] on success. *)
Inductive SSD1306_status_t : Type :=
| LCD_OK
| I2C_ERROR
| INVALID_PARAMS
| NO_INIT.

(** [SSD1306_color_t] is a C enumeration, hence an integer: the [switch]
    statements of the source have a [default] branch for any other value. *)
Definition SSD1306_color_t : Type := Z.
Definition SSD1306_COLOR_BLACK : SSD1306_color_t := 0.
Definition SSD1306_COLOR_WHITE : SSD1306_color_t := 1.

(** C's logical negation [!c]. *)
Definition lnot_c (c : Z) : Z := if c =? 0 then 1 else 0.

(** The result of a HAL call (declared in the STM32 HAL headers). *)
Inductive HAL_StatusTypeDef : Type :=
| HAL_OK
| HAL_ERROR
| HAL_BUSY
| HAL_TIMEOUT.

(** ** Driver state *)

(** What the driver asks of the HAL, in the order of the calls. *)
Inductive bus_event : Type :=
| IsDeviceReady (addr trials timeout : Z)
| Delay (ms : Z)
| MasterTransmit (addr : Z) (payload : list Z) (timeout : Z).

(** [SSD1306_t]; [i2c_ptr] is kept as an opaque handle. *)
Record SSD1306_t : Type := mkSSD1306 {
  i2c_ptr : Z;
  currentX : Z;
  currentY : Z;
  inverted : Z;
  initialized : Z
}.

Record driver : Type := mkDriver {
  SSD1306_Buffer : list Z;
  SSD1306 : SSD1306_t;
  bus : list bus_event
}.

Definition set_buffer (b : list Z) (s : driver) : driver :=
  mkDriver b (SSD1306 s) (bus s).
Definition set_lcd (l : SSD1306_t) (s : driver) : driver :=
  mkDriver (SSD1306_Buffer s) l (bus s).
Definition emit (e : bus_event) (s : driver) : driver :=
  mkDriver (SSD1306_Buffer s) (SSD1306 s) (bus s ++ [e]).

Definition set_i2c_ptr (v : Z) (l : SSD1306_t) : SSD1306_t :=
  mkSSD1306 v (currentX l) (currentY l) (inverted l) (initialized l).
Definition set_currentX (v : Z) (l : SSD1306_t) : SSD1306_t :=
  mkSSD1306 (i2c_ptr l) v (currentY l) (inverted l) (initialized l).
Definition set_currentY (v : Z) (l : SSD1306_t) : SSD1306_t :=
  mkSSD1306 (i2c_ptr l) (currentX l) v (inverted l) (initialized l).
Definition set_inverted (v : Z) (l : SSD1306_t) : SSD1306_t :=
  mkSSD1306 (i2c_ptr l) (currentX l) (currentY l) v (initialized l).
Definition set_initialized (v : Z) (l : SSD1306_t) : SSD1306_t :=
  mkSSD1306 (i2c_ptr l) (currentX l) (currentY l) (inverted l) v.

(** Statics are zero at start-up. *)
Definition power_on : driver :=
  mkDriver (replicate (Z.to_nat SSD1306_BUFFER_SIZE) 0)
           (mkSSD1306 0 0 0 0 0) [].

(** Array access [SSD1306_Buffer[i]]. *)
Definition rd (buf : list Z) (i : Z) : Z := buf !!! Z.to_nat i.
Definition wr (buf : list Z) (i : Z) (v : Z) : list Z := <[Z.to_nat i := v]> buf.

(** A [for (i = lo; i < lo + n; i++)] loop whose body leaves [i] alone. *)
Definition for_range {A : Type} (lo n : Z) (body : Z -> A -> A) (a : A) : A :=
  fold_left (fun acc i => body i acc) (seqZ lo n) a.

(** The same loop with a body that may fail to return. *)
Fixpoint for_each {A : Type} (l : list Z) (body : Z -> A -> option A) (a : A)
  : option A :=
  match l with
  | [] => Some a
  | i :: l' =>
      match body i a with
      | Some a' => for_each l' body a'
      | None => None
      end
  end.

(** ** I2C communication functions *)

(** [SSD1306_I2C_Write]: a two-byte transmission; the HAL result is dropped. *)
Definition SSD1306_I2C_Write (addr reg data : Z) (s : driver) : driver :=
  emit (MasterTransmit addr [reg; data] SSD1306_I2C_TIMEOUT) s.

(** [SSD1306_I2C_WriteMulti]: [data] is the memory from the pointer onwards.
    The function is [void]; a [count] above the capacity returns at once.
    [data_tmp] is write-only staging, so only the payload is kept.  This is
    what the call does for [count < SSD1306_I2C_DATATMP_SIZE], when the frame
    of [count + 1] bytes fits [data_tmp].  At
    [count = SSD1306_I2C_DATATMP_SIZE] the guard lets the call through and
    [memcpy] writes one byte past the end of [data_tmp]: C gives that no
    meaning, and nothing below is proved about it.  The driver itself only
    ever passes [SSD1306_WIDTH]. *)
Definition SSD1306_I2C_WriteMulti (addr reg : Z) (data : list Z) (count : Z)
    (s : driver) : driver :=
  if count >? SSD1306_I2C_DATATMP_SIZE then s
  else emit (MasterTransmit addr (reg :: take (Z.to_nat count) data)
                            SSD1306_I2C_TIMEOUT) s.

Definition SSD1306_WRITECOMMAND (command : Z) (s : driver) : driver :=
  SSD1306_I2C_Write SSD1306_I2C_ADDR 0x00 (u8 command) s.

Definition SSD1306_WRITEDATA (data : Z) (s : driver) : driver :=
  SSD1306_I2C_Write SSD1306_I2C_ADDR 0x40 (u8 data) s.

(** ** Buffer-wide operations *)

Definition SSD1306_fill (color : SSD1306_color_t) (s : driver)
  : SSD1306_status_t * driver :=
  if initialized (SSD1306 s) =? 0 then (NO_INIT, s)
  else if color =? SSD1306_COLOR_BLACK then
    (LCD_OK, set_buffer (replicate (Z.to_nat SSD1306_BUFFER_SIZE) 0x00) s)
  else if color =? SSD1306_COLOR_WHITE then
    (LCD_OK, set_buffer (replicate (Z.to_nat SSD1306_BUFFER_SIZE) 0xFF) s)
  else (INVALID_PARAMS, s).

Definition updateScreen_page (m : Z) (s : driver) : driver :=
  let s := SSD1306_WRITECOMMAND (0xB0 + m) s in
  let s := SSD1306_WRITECOMMAND 0x00 s in
  let s := SSD1306_WRITECOMMAND 0x10 s in
  SSD1306_I2C_WriteMulti SSD1306_I2C_ADDR 0x40
    (drop (Z.to_nat (SSD1306_WIDTH * m)) (SSD1306_Buffer s)) SSD1306_WIDTH s.

Definition SSD1306_updateScreen (s : driver) : SSD1306_status_t * driver :=
  if initialized (SSD1306 s) =? 0 then (NO_INIT, s)
  else (LCD_OK, for_range 0 8 updateScreen_page s).

Definition SSD1306_clear (s : driver) : SSD1306_status_t * driver :=
  if initialized (SSD1306 s) =? 0 then (NO_INIT, s)
  else
    let s := snd (SSD1306_fill SSD1306_COLOR_BLACK s) in
    let s := snd (SSD1306_updateScreen s) in
    (LCD_OK, s).

Definition SSD1306_invertDisplay (is_inverted : Z) (s : driver)
  : SSD1306_status_t * driver :=
  if initialized (SSD1306 s) =? 0 then (NO_INIT, s)
  else if is_inverted =? 0 then
    (LCD_OK, SSD1306_WRITECOMMAND SSD1306_NORMALDISPLAY s)
  else (LCD_OK, SSD1306_WRITECOMMAND SSD1306_INVERTDISPLAY s).

Definition toggle_byte (i : Z) (buf : list Z) : list Z :=
  wr buf i (u8 (Z.lnot (rd buf i))).

Definition SSD1306_toggleInvert (s : driver) : SSD1306_status_t * driver :=
  if initialized (SSD1306 s) =? 0 then (NO_INIT, s)
  else
    let s := set_buffer
               (for_range 0 SSD1306_BUFFER_SIZE toggle_byte (SSD1306_Buffer s)) s in
    let s := set_lcd (set_inverted (lnot_c (inverted (SSD1306 s))) (SSD1306 s)) s in
    (LCD_OK, s).

(** The bring-up command bytes of [SSD1306_init], in order. *)
Definition init_commands : list Z :=
  [0xAE; 0x20; 0x10; 0xB0; 0xC8; 0x00; 0x10; 0x40; 0x81; 0xFF; 0xA1; 0xA6;
   0xA8; 0x3F; 0xA4; 0xD3; 0x00; 0xD5; 0xF0; 0xD9; 0x22; 0xDA; 0x12; 0xDB;
   0x20; 0x8D; 0x14; 0xAF].

(** [SSD1306_init]; [ready] is what [HAL_I2C_IsDeviceReady] answers. *)
Definition SSD1306_init (i2c : Z) (ready : HAL_StatusTypeDef) (s : driver)
  : SSD1306_status_t * driver :=
  let s := set_lcd (set_i2c_ptr i2c (SSD1306 s)) s in
  let s := set_lcd (set_currentX 0 (SSD1306 s)) s in
  let s := set_lcd (set_currentY 0 (SSD1306 s)) s in
  let s := set_lcd (set_initialized 0 (SSD1306 s)) s in
  let s := emit (IsDeviceReady SSD1306_I2C_ADDR 10 SSD1306_I2C_TIMEOUT) s in
  match ready with
  | HAL_OK =>
      let s := emit (Delay 10) s in
      let s := fold_left (fun acc c => SSD1306_WRITECOMMAND c acc) init_commands s in
      let s := SSD1306_WRITECOMMAND SSD1306_DEACTIVATE_SCROLL s in
      let s := snd (SSD1306_clear s) in
      let s := set_lcd (set_initialized 1 (SSD1306 s)) s in
      (LCD_OK, s)
  | _ => (I2C_ERROR, s)
  end.

(** ** Pixels *)

Definition pixel_index (x y : Z) : Z := x + Z.shiftr y 3 * SSD1306_WIDTH.

(** [SSD1306_drawPixel]; [x] and [y] are [uint16_t], callers convert. *)
Definition SSD1306_drawPixel (x y : Z) (color : SSD1306_color_t) (s : driver)
  : SSD1306_status_t * driver :=
  if (x >=? SSD1306_WIDTH) || (y >=? SSD1306_HEIGHT) then (INVALID_PARAMS, s)
  else
    let color := if inverted (SSD1306 s) =? 0 then color else lnot_c color in
    let buf := SSD1306_Buffer s in
    let i := pixel_index x y in
    if color =? SSD1306_COLOR_WHITE then
      (LCD_OK,
       set_buffer (wr buf i (u8 (Z.lor (rd buf i) (Z.shiftl 1 (Z.land y 0x07))))) s)
    else if color =? SSD1306_COLOR_BLACK then
      (LCD_OK,
       set_buffer
         (wr buf i (u8 (Z.land (rd buf i) (Z.lnot (Z.shiftl 1 (Z.land y 0x07)))))) s)
    else (INVALID_PARAMS, s).

Definition SSD1306_gotoXY (x y : Z) (s : driver) : SSD1306_status_t * driver :=
  if (x >=? SSD1306_WIDTH) || (y >=? SSD1306_HEIGHT) then (INVALID_PARAMS, s)
  else
    let s := set_lcd (set_currentX x (SSD1306 s)) s in
    let s := set_lcd (set_currentY y (SSD1306 s)) s in
    (LCD_OK, s).

(** [SSD1306_drawBitmap]; [bitmap] gives the byte at each index of the
    caller's array. *)
Definition drawBitmap_col (x y : Z) (bitmap : Z -> Z) (byteWidth j : Z)
    (color : SSD1306_color_t) (i : Z) (st : Z * driver) : Z * driver :=
  let '(byte, s) := st in
  let byte := if Z.land i 7 =? 0
              then u8 (bitmap (j * byteWidth + Z.quot i 8))
              else u8 (Z.shiftl byte 1) in
  if Z.land byte 0x80 =? 0 then (byte, s)
  else (byte, snd (SSD1306_drawPixel (u16 (x + i)) (u16 y) color s)).

Definition drawBitmap_row (x : Z) (bitmap : Z -> Z) (byteWidth w : Z)
    (color : SSD1306_color_t) (j : Z) (st : Z * Z * driver) : Z * Z * driver :=
  let '(y, byte, s) := st in
  let '(byte, s) :=
    for_range 0 w (drawBitmap_col x y bitmap byteWidth j color) (byte, s) in
  (s16 (y + 1), byte, s).

Definition SSD1306_drawBitmap (x y : Z) (bitmap : Z -> Z) (w h : Z)
    (color : SSD1306_color_t) (s : driver) : SSD1306_status_t * driver :=
  let byteWidth := s16 (Z.shiftr (w + 7) 3) in
  let '(_, _, s) :=
    for_range 0 h (drawBitmap_row x bitmap byteWidth w color) (y, 0, s) in
  (LCD_OK, s).

(** ** Text *)

(** [FontDef_t]; [data] gives the [uint16_t] at each index of the table. *)
Record FontDef_t : Type := mkFont {
  fontWidth : Z;
  fontHeight : Z;
  data : Z -> Z
}.

(** The test [(b << j) & 0x8000] of the inner loop.  [b] is a [uint16_t]
    promoted to [int]: for [j < 16] the shifted value stays below [2 ^ 31]
    and this is the value C gives.  From [j = 16] on the shift can leave
    [int] and from [j = 32] on it always does; C gives such a shift no
    meaning and builds differ.  A glyph row has 16 bits and the fonts of
    [fonts.h] are at most 16 wide: what is proved below about the colour of
    a glyph pixel is proved for [fontWidth <= 16]. *)
Definition glyph_bit (b j : Z) : bool :=
  negb (Z.land (Z.shiftl b j) 0x8000 =? 0).

Definition putc_col (b i : Z) (color : SSD1306_color_t) (j : Z) (s : driver)
  : driver :=
  if glyph_bit b j then
    snd (SSD1306_drawPixel (u16 (currentX (SSD1306 s) + j))
                           (u16 (currentY (SSD1306 s) + i)) color s)
  else
    snd (SSD1306_drawPixel (u16 (currentX (SSD1306 s) + j))
                           (u16 (currentY (SSD1306 s) + i)) (lnot_c color) s).

Definition putc_row (ch : Z) (font : FontDef_t) (color : SSD1306_color_t)
    (i : Z) (s : driver) : driver :=
  let b := u16 (data font ((ch - 32) * fontHeight font + i)) in
  for_range 0 (fontWidth font) (putc_col b i color) s.

Definition SSD1306_putc (ch : Z) (font : FontDef_t) (color : SSD1306_color_t)
    (s : driver) : SSD1306_status_t * driver :=
  if (SSD1306_WIDTH <=? currentX (SSD1306 s) + fontWidth font)
     || (SSD1306_HEIGHT <=? currentY (SSD1306 s) + fontHeight font)
  then (INVALID_PARAMS, s)
  else
    let s := for_range 0 (fontHeight font) (putc_row ch font color) s in
    let s := set_lcd (set_currentX (u16 (currentX (SSD1306 s) + fontWidth font))
                                   (SSD1306 s)) s in
    (LCD_OK, s).

(** [SSD1306_puts]; [str] is the memory at the pointer, read up to the first
    zero byte (the end of the list stands for the terminator too). *)
Fixpoint SSD1306_puts (str : list Z) (font : FontDef_t) (color : SSD1306_color_t)
    (s : driver) : SSD1306_status_t * driver :=
  match str with
  | [] => (LCD_OK, s)
  | ch :: str' =>
      if ch =? 0 then (LCD_OK, s)
      else SSD1306_puts str' font color (snd (SSD1306_putc ch font color s))
  end.

(** ** Lines

    The loops of unknown length ([while (1)], [while (x < y)] and the sweep of
    the filled triangle) take [fuel]: [None] means the loop was still
    running when the fuel ran out.  The counted loops of the axis-aligned
    branches run between clamped bounds (below 128), so their [int16_t]
    counter cannot wrap.  [>>] on a negative [int] is the arithmetic shift
    that GCC performs. *)

Fixpoint drawLine_loop (fuel : nat) (x0 y0 x1 y1 dx dy sx sy err : Z)
    (color : SSD1306_color_t) (s : driver) : option driver :=
  match fuel with
  | O => None
  | S fuel' =>
      let s := snd (SSD1306_drawPixel x0 y0 color s) in
      if (x0 =? x1) && (y0 =? y1) then Some s
      else
        let e2 := err in
        let '(err, x0) :=
          if e2 >? - dx then (s16 (err - dy), u16 (x0 + sx)) else (err, x0) in
        let '(err, y0) :=
          if e2 <? dy then (s16 (err + dx), u16 (y0 + sy)) else (err, y0) in
        drawLine_loop fuel' x0 y0 x1 y1 dx dy sx sy err color s
  end.

Definition SSD1306_drawLine (fuel : nat) (x0 y0 x1 y1 : Z)
    (color : SSD1306_color_t) (s : driver)
  : option (SSD1306_status_t * driver) :=
  let x0 := if x0 >=? SSD1306_WIDTH then SSD1306_WIDTH - 1 else x0 in
  let x1 := if x1 >=? SSD1306_WIDTH then SSD1306_WIDTH - 1 else x1 in
  let y0 := if y0 >=? SSD1306_HEIGHT then SSD1306_HEIGHT - 1 else y0 in
  let y1 := if y1 >=? SSD1306_HEIGHT then SSD1306_HEIGHT - 1 else y1 in
  let dx := s16 (if x0 <? x1 then x1 - x0 else x0 - x1) in
  let dy := s16 (if y0 <? y1 then y1 - y0 else y0 - y1) in
  let sx := if x0 <? x1 then 1 else -1 in
  let sy := if y0 <? y1 then 1 else -1 in
  let err := s16 (Z.shiftr (if dx >? dy then dx else - dy) 1) in
  if dx =? 0 then
    let '(y0, y1) := if y1 <? y0 then (u16 (s16 y1), y0) else (y0, y1) in
    let '(x0, x1) := if x1 <? x0 then (u16 (s16 x1), x0) else (x0, x1) in
    Some (LCD_OK,
          for_range (s16 y0) (y1 - s16 y0 + 1)
            (fun i s => snd (SSD1306_drawPixel x0 (u16 i) color s)) s)
  else if dy =? 0 then
    let '(y0, y1) := if y1 <? y0 then (u16 (s16 y1), y0) else (y0, y1) in
    let '(x0, x1) := if x1 <? x0 then (u16 (s16 x1), x0) else (x0, x1) in
    Some (LCD_OK,
          for_range (s16 x0) (x1 - s16 x0 + 1)
            (fun i s => snd (SSD1306_drawPixel (u16 i) y0 color s)) s)
  else
    s' ← drawLine_loop fuel x0 y0 x1 y1 dx dy sx sy err color s;
    Some (LCD_OK, s').

(** ** Rectangles, triangles *)

Definition SSD1306_drawRectangle (fuel : nat) (x y w h : Z)
    (color : SSD1306_color_t) (s : driver)
  : option (SSD1306_status_t * driver) :=
  if (x >=? SSD1306_WIDTH) || (y >=? SSD1306_HEIGHT) then Some (INVALID_PARAMS, s)
  else
    let w := if x + w >=? SSD1306_WIDTH then u16 (SSD1306_WIDTH - x) else w in
    let h := if y + h >=? SSD1306_HEIGHT then u16 (SSD1306_HEIGHT - y) else h in
    r ← SSD1306_drawLine fuel x y (u16 (x + w)) y color s;
    r ← SSD1306_drawLine fuel x (u16 (y + h)) (u16 (x + w)) (u16 (y + h)) color (snd r);
    r ← SSD1306_drawLine fuel x y x (u16 (y + h)) color (snd r);
    r ← SSD1306_drawLine fuel (u16 (x + w)) y (u16 (x + w)) (u16 (y + h)) color (snd r);
    Some (LCD_OK, snd r).

(** After the clamping [h <= 64], so the [uint8_t] counter cannot wrap. *)
Definition SSD1306_drawFilledRectangle (fuel : nat) (x y w h : Z)
    (color : SSD1306_color_t) (s : driver)
  : option (SSD1306_status_t * driver) :=
  if (x >=? SSD1306_WIDTH) || (y >=? SSD1306_HEIGHT) then Some (INVALID_PARAMS, s)
  else
    let w := if x + w >=? SSD1306_WIDTH then u16 (SSD1306_WIDTH - x) else w in
    let h := if y + h >=? SSD1306_HEIGHT then u16 (SSD1306_HEIGHT - y) else h in
    s' ← for_each (seqZ 0 (h + 1))
           (fun i s =>
              r ← SSD1306_drawLine fuel x (u16 (y + i)) (u16 (x + w)) (u16 (y + i))
                    color s;
              Some (snd r)) s;
    Some (LCD_OK, s').

Definition SSD1306_drawTriangle (fuel : nat) (x1 y1 x2 y2 x3 y3 : Z)
    (color : SSD1306_color_t) (s : driver)
  : option (SSD1306_status_t * driver) :=
  r ← SSD1306_drawLine fuel x1 y1 x2 y2 color s;
  r ← SSD1306_drawLine fuel x2 y2 x3 y3 color (snd r);
  r ← SSD1306_drawLine fuel x3 y3 x1 y1 color (snd r);
  Some (LCD_OK, snd r).

(** The macro [ABS]. *)
Definition ABS (x : Z) : Z := if x >? 0 then x else - x.

Fixpoint drawFilledTriangle_loop (fuel lfuel : nat)
    (curpixel numpixels x y x3 y3 xinc1 xinc2 yinc1 yinc2 den num numadd : Z)
    (color : SSD1306_color_t) (s : driver) : option driver :=
  match fuel with
  | O => None
  | S fuel' =>
      if curpixel <=? numpixels then
        r ← SSD1306_drawLine lfuel (u16 x) (u16 y) x3 y3 color s;
        let num := s16 (num + numadd) in
        let '(num, x, y) :=
          if num >=? den then (s16 (num - den), s16 (x + xinc1), s16 (y + yinc1))
          else (num, x, y) in
        let x := s16 (x + xinc2) in
        let y := s16 (y + yinc2) in
        drawFilledTriangle_loop fuel' lfuel (s16 (curpixel + 1)) numpixels
          x y x3 y3 xinc1 xinc2 yinc1 yinc2 den num numadd color (snd r)
      else Some s
  end.

Definition SSD1306_drawFilledTriangle (fuel : nat) (x1 y1 x2 y2 x3 y3 : Z)
    (color : SSD1306_color_t) (s : driver)
  : option (SSD1306_status_t * driver) :=
  let deltax := s16 (ABS (x2 - x1)) in
  let deltay := s16 (ABS (y2 - y1)) in
  let x := s16 x1 in
  let y := s16 y1 in
  let '(xinc1, xinc2) := if x2 >=? x1 then (1, 1) else (-1, -1) in
  let '(yinc1, yinc2) := if y2 >=? y1 then (1, 1) else (-1, -1) in
  let '(xinc1, xinc2, yinc1, yinc2, den, num, numadd, numpixels) :=
    if deltax >=? deltay
    then (0, xinc2, yinc1, 0, deltax, s16 (Z.quot deltax 2), deltay, deltax)
    else (xinc1, 0, 0, yinc2, deltay, s16 (Z.quot deltay 2), deltax, deltay) in
  s' ← drawFilledTriangle_loop fuel fuel 0 numpixels x y x3 y3
         xinc1 xinc2 yinc1 yinc2 den num numadd color s;
  Some (LCD_OK, s').

(** ** Circles *)

(** The eight calls of one pass of the loop of [SSD1306_drawCircle]. *)
Definition circle_plot8 (x0 y0 x y : Z) (color : SSD1306_color_t) (s : driver)
  : driver :=
  let s := snd (SSD1306_drawPixel (u16 (x0 + x)) (u16 (y0 + y)) color s) in
  let s := snd (SSD1306_drawPixel (u16 (x0 - x)) (u16 (y0 + y)) color s) in
  let s := snd (SSD1306_drawPixel (u16 (x0 + x)) (u16 (y0 - y)) color s) in
  let s := snd (SSD1306_drawPixel (u16 (x0 - x)) (u16 (y0 - y)) color s) in
  let s := snd (SSD1306_drawPixel (u16 (x0 + y)) (u16 (y0 + x)) color s) in
  let s := snd (SSD1306_drawPixel (u16 (x0 - y)) (u16 (y0 + x)) color s) in
  let s := snd (SSD1306_drawPixel (u16 (x0 + y)) (u16 (y0 - x)) color s) in
  let s := snd (SSD1306_drawPixel (u16 (x0 - y)) (u16 (y0 - x)) color s) in
  s.

(** One pass of the decision-variable update shared by both circle loops:
    from [(f, ddF_x, ddF_y, x, y)] to the values the calls of the pass see. *)
Definition circle_step (f ddF_x ddF_y x y : Z) : Z * Z * Z * Z * Z :=
  let '(y, ddF_y, f) :=
    if f >=? 0 then
      let y := s16 (y - 1) in
      let ddF_y := s16 (ddF_y + 2) in
      (y, ddF_y, s16 (f + ddF_y))
    else (y, ddF_y, f) in
  let x := s16 (x + 1) in
  let ddF_x := s16 (ddF_x + 2) in
  let f := s16 (f + ddF_x) in
  (f, ddF_x, ddF_y, x, y).

Fixpoint drawCircle_loop (fuel : nat) (x0 y0 f ddF_x ddF_y x y : Z)
    (color : SSD1306_color_t) (s : driver) : option driver :=
  match fuel with
  | O => None
  | S fuel' =>
      if x <? y then
        let '(f, ddF_x, ddF_y, x, y) := circle_step f ddF_x ddF_y x y in
        drawCircle_loop fuel' x0 y0 f ddF_x ddF_y x y color
          (circle_plot8 x0 y0 x y color s)
      else Some s
  end.

Definition SSD1306_drawCircle (fuel : nat) (x0 y0 r : Z) (color : SSD1306_color_t)
    (s : driver) : option (SSD1306_status_t * driver) :=
  let f := s16 (1 - r) in
  let ddF_x := 1 in
  let ddF_y := s16 (-2 * r) in
  let x := 0 in
  let y := r in
  let s := snd (SSD1306_drawPixel (u16 x0) (u16 (y0 + r)) color s) in
  let s := snd (SSD1306_drawPixel (u16 x0) (u16 (y0 - r)) color s) in
  let s := snd (SSD1306_drawPixel (u16 (x0 + r)) (u16 y0) color s) in
  let s := snd (SSD1306_drawPixel (u16 (x0 - r)) (u16 y0) color s) in
  s' ← drawCircle_loop fuel x0 y0 f ddF_x ddF_y x y color s;
  Some (LCD_OK, s').

Fixpoint drawFilledCircle_loop (fuel lfuel : nat) (x0 y0 f ddF_x ddF_y x y : Z)
    (color : SSD1306_color_t) (s : driver) : option driver :=
  match fuel with
  | O => None
  | S fuel' =>
      if x <? y then
        let '(f, ddF_x, ddF_y, x, y) := circle_step f ddF_x ddF_y x y in
        r ← SSD1306_drawLine lfuel (u16 (x0 - x)) (u16 (y0 + y))
              (u16 (x0 + x)) (u16 (y0 + y)) color s;
        r ← SSD1306_drawLine lfuel (u16 (x0 + x)) (u16 (y0 - y))
              (u16 (x0 - x)) (u16 (y0 - y)) color (snd r);
        r ← SSD1306_drawLine lfuel (u16 (x0 + y)) (u16 (y0 + x))
              (u16 (x0 - y)) (u16 (y0 + x)) color (snd r);
        r ← SSD1306_drawLine lfuel (u16 (x0 + y)) (u16 (y0 - x))
              (u16 (x0 - y)) (u16 (y0 - x)) color (snd r);
        drawFilledCircle_loop fuel' lfuel x0 y0 f ddF_x ddF_y x y color (snd r)
      else Some s
  end.

Definition SSD1306_drawFilledCircle (fuel : nat) (x0 y0 r : Z)
    (color : SSD1306_color_t) (s : driver)
  : option (SSD1306_status_t * driver) :=
  let f := s16 (1 - r) in
  let ddF_x := 1 in
  let ddF_y := s16 (-2 * r) in
  let x := 0 in
  let y := r in
  let s := snd (SSD1306_drawPixel (u16 x0) (u16 (y0 + r)) color s) in
  let s := snd (SSD1306_drawPixel (u16 x0) (u16 (y0 - r)) color s) in
  let s := snd (SSD1306_drawPixel (u16 (x0 + r)) (u16 y0) color s) in
  let s := snd (SSD1306_drawPixel (u16 (x0 - r)) (u16 y0) color s) in
  r' ← SSD1306_drawLine fuel (u16 (x0 - r)) (u16 y0) (u16 (x0 + r)) (u16 y0) color s;
  s' ← drawFilledCircle_loop fuel fuel x0 y0 f ddF_x ddF_y x y color (snd r');
  Some (LCD_OK, s').

(** ** Scrolling and power

    These routines only send command bytes.  [SSD1306_MAX_PAGE_NUM] is used
    by the scroll routines but defined in none of the sources at hand: it is
    a parameter here. *)

Definition SSD1306_RIGHT_HORIZONTAL_SCROLL : Z := 0x26.
Definition SSD1306_LEFT_HORIZONTAL_SCROLL : Z := 0x27.
Definition SSD1306_VERTICAL_AND_RIGHT_HORIZONTAL_SCROLL : Z := 0x29.
Definition SSD1306_VERTICAL_AND_LEFT_HORIZONTAL_SCROLL : Z := 0x2A.
Definition SSD1306_ACTIVATE_SCROLL : Z := 0x2F.
Definition SSD1306_SET_VERTICAL_SCROLL_AREA : Z := 0xA3.

(** Consecutive [SSD1306_WRITECOMMAND] statements. *)
Definition write_commands (cmds : list Z) (s : driver) : driver :=
  fold_left (fun acc c => SSD1306_WRITECOMMAND c acc) cmds s.

Section Scroll.
Variable SSD1306_MAX_PAGE_NUM : Z.

Definition SSD1306_scrollRight (start_page end_page : Z) (s : driver)
  : SSD1306_status_t * driver :=
  if (start_page >=? SSD1306_MAX_PAGE_NUM) || (end_page >=? SSD1306_MAX_PAGE_NUM)
  then (INVALID_PARAMS, s)
  else if start_page >? end_page then (INVALID_PARAMS, s)
  else
    (LCD_OK,
     write_commands
       [SSD1306_RIGHT_HORIZONTAL_SCROLL; 0x00; start_page; 0x00; end_page; 0x00;
        0xFF; SSD1306_ACTIVATE_SCROLL] s).

Definition SSD1306_scrollLeft (start_page end_page : Z) (s : driver)
  : SSD1306_status_t * driver :=
  if (start_page >=? SSD1306_MAX_PAGE_NUM) || (end_page >=? SSD1306_MAX_PAGE_NUM)
  then (INVALID_PARAMS, s)
  else if start_page >? end_page then (INVALID_PARAMS, s)
  else
    (LCD_OK,
     write_commands
       [SSD1306_LEFT_HORIZONTAL_SCROLL; 0x00; start_page; 0x00; end_page; 0x00;
        0xFF; SSD1306_ACTIVATE_SCROLL] s).

Definition SSD1306_scrollDiagRight (start_page end_page : Z) (s : driver)
  : SSD1306_status_t * driver :=
  if (start_page >=? SSD1306_MAX_PAGE_NUM) || (end_page >=? SSD1306_MAX_PAGE_NUM)
  then (INVALID_PARAMS, s)
  else if start_page >? end_page then (INVALID_PARAMS, s)
  else
    (LCD_OK,
     write_commands
       [SSD1306_SET_VERTICAL_SCROLL_AREA; 0x00; SSD1306_HEIGHT;
        SSD1306_VERTICAL_AND_RIGHT_HORIZONTAL_SCROLL; 0x00; start_page; 0x00;
        end_page; 0x01; SSD1306_ACTIVATE_SCROLL] s).

Definition SSD1306_scrollDiagLeft (start_page end_page : Z) (s : driver)
  : SSD1306_status_t * driver :=
  if (start_page >=? SSD1306_MAX_PAGE_NUM) || (end_page >=? SSD1306_MAX_PAGE_NUM)
  then (INVALID_PARAMS, s)
  else if start_page >? end_page then (INVALID_PARAMS, s)
  else
    (LCD_OK,
     write_commands
       [SSD1306_SET_VERTICAL_SCROLL_AREA; 0x00; SSD1306_HEIGHT;
        SSD1306_VERTICAL_AND_LEFT_HORIZONTAL_SCROLL; 0x00; start_page; 0x00;
        end_page; 0x01; SSD1306_ACTIVATE_SCROLL] s).

End Scroll.

Definition SSD1306_stopScroll (s : driver) : SSD1306_status_t * driver :=
  (LCD_OK, write_commands [SSD1306_DEACTIVATE_SCROLL] s).

Definition SSD1306_lcdOn (s : driver) : SSD1306_status_t * driver :=
  (LCD_OK, write_commands [0x8D; 0x14; 0xAF] s).

Definition SSD1306_lcdOff (s : driver) : SSD1306_status_t * driver :=
  (LCD_OK, write_commands [0x8D; 0x10; 0xAE] s).

(** ** What a state is, and what can be seen of it *)

(** The pixel at column [x], row [y] of the frame buffer: the bit that
    [SSD1306_drawPixel] addresses. *)
Definition get_pixel (s : driver) (x y : Z) : bool :=
  Z.testbit (rd (SSD1306_Buffer s) (pixel_index x y)) (Z.land y 0x07).

Definition in_panel (x y : Z) : Prop :=
  0 <= x < SSD1306_WIDTH /\ 0 <= y < SSD1306_HEIGHT.

(** The colour [SSD1306_drawPixel] commits: the argument XOR the flag. *)
Definition effective_color (color : SSD1306_color_t) (s : driver) : Z :=
  Z.lxor color (if inverted (SSD1306 s) =? 0 then 0 else 1).

Definition is_color (c : Z) : Prop :=
  c = SSD1306_COLOR_BLACK \/ c = SSD1306_COLOR_WHITE.

(** The shape the statics have by their C types: the buffer is an array of
    1024 bytes, the cursor is [uint16_t], and [inverted] is only ever
    written by [!]. *)
Record wf (s : driver) : Prop := mkWf {
  wf_length : length (SSD1306_Buffer s) = Z.to_nat SSD1306_BUFFER_SIZE;
  wf_bytes : Forall (fun b => 0 <= b < 256) (SSD1306_Buffer s);
  wf_curX : 0 <= currentX (SSD1306 s) < 2 ^ 16;
  wf_curY : 0 <= currentY (SSD1306 s) < 2 ^ 16;
  wf_inverted : inverted (SSD1306 s) = 0 \/ inverted (SSD1306 s) = 1
}.

(** The byte [SSD1306_drawPixel] stores for an effective colour. *)
Definition pixel_byte (old y eff : Z) : Z :=
  if eff =? SSD1306_COLOR_WHITE
  then u8 (Z.lor old (Z.shiftl 1 (Z.land y 0x07)))
  else u8 (Z.land old (Z.lnot (Z.shiftl 1 (Z.land y 0x07)))).

(** A run of [SSD1306_drawPixel] calls whose results are dropped, as the
    shape routines make them: each entry is [(x, y, color)]. *)
Definition plot_all (l : list (Z * Z * SSD1306_color_t)) (s : driver) : driver :=
  fold_left
    (fun acc t => snd (SSD1306_drawPixel (fst (fst t)) (snd (fst t)) (snd t) acc))
    l s.

(** Entry [t] of such a run addresses the position [(x, y)]. *)
Definition hits (x y : Z) (t : Z * Z * SSD1306_color_t) : Prop :=
  fst (fst t) = x /\ snd (fst t) = y.

(** Entries of a run are [uint16_t] values of an enumeration colour. *)
Definition plot_ok (t : Z * Z * SSD1306_color_t) : Prop :=
  0 <= fst (fst t) /\ 0 <= snd (fst t) /\ is_color (snd t).

(** The outline of the rectangle with corners [(x, y)] and [(xr, yb)]. *)
Definition on_outline (x y xr yb px py : Z) : bool :=
  (x <=? px) && (px <=? xr) && (y <=? py) && (py <=? yb)
  && ((px =? x) || (px =? xr) || (py =? y) || (py =? yb)).

(** [wf] as a check that computes. *)
Definition wfb (s : driver) : bool :=
  (Z.of_nat (length (SSD1306_Buffer s)) =? SSD1306_BUFFER_SIZE)
  && forallb (fun b => (0 <=? b) && (b <? 256)) (SSD1306_Buffer s)
  && (0 <=? currentX (SSD1306 s)) && (currentX (SSD1306 s) <? 2 ^ 16)
  && (0 <=? currentY (SSD1306 s)) && (currentY (SSD1306 s) <? 2 ^ 16)
  && ((inverted (SSD1306 s) =? 0) || (inverted (SSD1306 s) =? 1)).

(** A transmission carrying frame-buffer data (control byte [0x40]), as
    opposed to a command (control byte [0x00]). *)
Definition is_data_write (e : bus_event) : bool :=
  match e with
  | MasterTransmit _ (reg :: _) _ => reg =? 0x40
  | _ => false
  end.

(** The transmission behind [SSD1306_WRITECOMMAND(c)]. *)
Definition command_event (c : Z) : bus_event :=
  MasterTransmit SSD1306_I2C_ADDR [0x00; c] SSD1306_I2C_TIMEOUT.

(** The four transmissions of one pass of the loop of
    [SSD1306_updateScreen], for page [m] of the buffer [buf]. *)
Definition page_events (buf : list Z) (m : Z) : list bus_event :=
  [command_event (u8 (0xB0 + m)); command_event (u8 0x00); command_event (u8 0x10);
   MasterTransmit SSD1306_I2C_ADDR
     (0x40 :: take (Z.to_nat SSD1306_WIDTH) (drop (Z.to_nat (SSD1306_WIDTH * m)) buf))
     SSD1306_I2C_TIMEOUT].

(** The check at the head of [SSD1306_putc]. *)
Definition putc_rejects (font : FontDef_t) (s : driver) : bool :=
  (SSD1306_WIDTH <=? currentX (SSD1306 s) + fontWidth font)
  || (SSD1306_HEIGHT <=? currentY (SSD1306 s) + fontHeight font).

(** [puts] as the specification words it: [putc] on each character in turn,
    stopping at the first failure and handing that failure back.  Used only
    for comparison with [SSD1306_puts]. *)
Fixpoint puts_spec (str : list Z) (font : FontDef_t) (color : SSD1306_color_t)
    (s : driver) : SSD1306_status_t * driver :=
  match str with
  | [] => (LCD_OK, s)
  | ch :: str' =>
      if ch =? 0 then (LCD_OK, s)
      else
        match SSD1306_putc ch font color s with
        | (LCD_OK, s') => puts_spec str' font color s'
        | (e, s') => (e, s')
        end
  end.

(** A 7 x 10 font for examples: every glyph row is [1010101] (the tables of
    [fonts.c] are not needed for any statement below). *)
Definition striped_7x10 : FontDef_t := mkFont 7 10 (fun _ => 0xAA00).

(** The colour [SSD1306_putc] passes for column [j] of a glyph row [b]. *)
Definition glyph_color (b j : Z) (color : SSD1306_color_t) : SSD1306_color_t :=
  if glyph_bit b j then color else lnot_c color.

(** The glyph row [i] of character [ch]. *)
Definition glyph_row (font : FontDef_t) (ch i : Z) : Z :=
  u16 (data font ((ch - 32) * fontHeight font + i)).

(** The calls of [SSD1306_drawPixel] made for row [i] of a glyph, and for
    the rows [rows], with the cursor of [lcd]. *)
Definition putc_row_plots (lcd : SSD1306_t) (font : FontDef_t) (ch : Z)
    (color : SSD1306_color_t) (i : Z) : list (Z * Z * SSD1306_color_t) :=
  map (fun j => (u16 (currentX lcd + j), u16 (currentY lcd + i),
                 glyph_color (glyph_row font ch i) j color))
      (seqZ 0 (fontWidth font)).

Definition putc_plots (lcd : SSD1306_t) (font : FontDef_t) (ch : Z)
    (color : SSD1306_color_t) (rows : list Z) : list (Z * Z * SSD1306_color_t) :=
  flat_map (putc_row_plots lcd font ch color) rows.

(** A pixel of the panel that is lit; no position outside the panel is. *)
Definition pixel_set (s : driver) (x y : Z) : Prop :=
  in_panel x y /\ get_pixel s x y = true.

(** [(a', b')] is one of the eight images [(±a, ±b)], [(±b, ±a)] of the
    offset [(a, b)]. *)
Definition reflects (a b a' b' : Z) : Prop :=
  ((a' = a \/ a' = - a) /\ (b' = b \/ b' = - b))
  \/ ((a' = b \/ a' = - b) /\ (b' = a \/ b' = - a)).

(** The offsets from the centre of the eight calls of one pass of the circle
    loop, and of the four calls before the loop. *)
Definition offsets8 (x y : Z) : list (Z * Z) :=
  [(x, y); (- x, y); (x, - y); (- x, - y); (y, x); (- y, x); (y, - x); (- y, - x)].

Definition offsets4 (r : Z) : list (Z * Z) :=
  [(0, r); (0, - r); (r, 0); (- r, 0)].

Definition circle_plots (x0 y0 : Z) (offs : list (Z * Z)) (color : SSD1306_color_t)
  : list (Z * Z * SSD1306_color_t) :=
  map (fun d => (u16 (x0 + fst d), u16 (y0 + snd d), color)) offs.

(** A set of offsets closed under the eight reflections. *)
Definition closed8 (offs : list (Z * Z)) : Prop :=
  forall d a' b', In d offs -> reflects (fst d) (snd d) a' b' -> In (a', b') offs.

(** The lit pixels are symmetric about [(x0, y0)], as far as the panel goes:
    if a pixel is lit, each of its eight images that lies in the panel is. *)
Definition sym8 (x0 y0 : Z) (s : driver) : Prop :=
  forall a b a' b',
    reflects a b a' b' ->
    pixel_set s (x0 + a) (y0 + b) ->
    in_panel (x0 + a') (y0 + b') ->
    pixel_set s (x0 + a') (y0 + b').

(** Two offsets that [uint16_t] conversion cannot tell apart. *)
Definition cong16 (a d : Z) : Prop := (65536 | a - d).

(** Every lit pixel is within [r] of [(x0, y0)] along both axes. *)
Definition within (x0 y0 r : Z) (s : driver) : Prop :=
  forall px py, pixel_set s px py ->
    - r <= px - x0 <= r /\ - r <= py - y0 <= r.

(** Offsets no larger than [r]. *)
Definition bounded (r : Z) (offs : list (Z * Z)) : Prop :=
  forall d, In d offs -> - r <= fst d <= r /\ - r <= snd d <= r.

(** [s'] comes from [s] by writes to the frame buffer alone, and bytes stay
    bytes: what every drawing routine does to the state. *)
Definition paints (s s' : driver) : Prop :=
  SSD1306 s' = SSD1306 s /\ bus s' = bus s
  /\ length (SSD1306_Buffer s') = length (SSD1306_Buffer s)
  /\ (Forall (fun b => 0 <= b < 256) (SSD1306_Buffer s) ->
      Forall (fun b => 0 <= b < 256) (SSD1306_Buffer s')).

(** The states the driver can be in: the statics at start-up, then any
    sequence of calls of the routines above that return.  (Arguments are not
    held to their C types, which only makes the set larger.) *)
Inductive reachable : driver -> Prop :=
| reach_power_on : reachable power_on
| reach_init i2c ready s :
    reachable s -> reachable (snd (SSD1306_init i2c ready s))
| reach_clear s : reachable s -> reachable (snd (SSD1306_clear s))
| reach_invertDisplay v s :
    reachable s -> reachable (snd (SSD1306_invertDisplay v s))
| reach_updateScreen s : reachable s -> reachable (snd (SSD1306_updateScreen s))
| reach_toggleInvert s : reachable s -> reachable (snd (SSD1306_toggleInvert s))
| reach_fill color s : reachable s -> reachable (snd (SSD1306_fill color s))
| reach_drawPixel x y color s :
    reachable s -> reachable (snd (SSD1306_drawPixel x y color s))
| reach_drawBitmap x y bitmap w h color s :
    reachable s -> reachable (snd (SSD1306_drawBitmap x y bitmap w h color s))
| reach_gotoXY x y s :
    0 <= x < 2 ^ 16 -> 0 <= y < 2 ^ 16 ->
    reachable s -> reachable (snd (SSD1306_gotoXY x y s))
| reach_putc ch font color s :
    reachable s -> reachable (snd (SSD1306_putc ch font color s))
| reach_puts str font color s :
    reachable s -> reachable (snd (SSD1306_puts str font color s))
| reach_drawLine fuel x0 y0 x1 y1 color s r :
    reachable s -> SSD1306_drawLine fuel x0 y0 x1 y1 color s = Some r ->
    reachable (snd r)
| reach_drawRectangle fuel x y w h color s r :
    reachable s -> SSD1306_drawRectangle fuel x y w h color s = Some r ->
    reachable (snd r)
| reach_drawFilledRectangle fuel x y w h color s r :
    reachable s -> SSD1306_drawFilledRectangle fuel x y w h color s = Some r ->
    reachable (snd r)
| reach_drawTriangle fuel x1 y1 x2 y2 x3 y3 color s r :
    reachable s -> SSD1306_drawTriangle fuel x1 y1 x2 y2 x3 y3 color s = Some r ->
    reachable (snd r)
| reach_drawFilledTriangle fuel x1 y1 x2 y2 x3 y3 color s r :
    reachable s ->
    SSD1306_drawFilledTriangle fuel x1 y1 x2 y2 x3 y3 color s = Some r ->
    reachable (snd r)
| reach_drawCircle fuel x0 y0 r color s res :
    reachable s -> SSD1306_drawCircle fuel x0 y0 r color s = Some res ->
    reachable (snd res)
| reach_drawFilledCircle fuel x0 y0 r color s res :
    reachable s -> SSD1306_drawFilledCircle fuel x0 y0 r color s = Some res ->
    reachable (snd res)
| reach_scrollRight pages start_page end_page s :
    reachable s -> reachable (snd (SSD1306_scrollRight pages start_page end_page s))
| reach_scrollLeft pages start_page end_page s :
    reachable s -> reachable (snd (SSD1306_scrollLeft pages start_page end_page s))
| reach_scrollDiagRight pages start_page end_page s :
    reachable s ->
    reachable (snd (SSD1306_scrollDiagRight pages start_page end_page s))
| reach_scrollDiagLeft pages start_page end_page s :
    reachable s ->
    reachable (snd (SSD1306_scrollDiagLeft pages start_page end_page s))
| reach_stopScroll s : reachable s -> reachable (snd (SSD1306_stopScroll s))
| reach_lcdOn s : reachable s -> reachable (snd (SSD1306_lcdOn s))
| reach_lcdOff s : reachable s -> reachable (snd (SSD1306_lcdOff s)).

(** The stepper of [SSD1306_drawLine] seen from the start point: [a] and [b]
    count the steps taken along X and Y.  The run is accepted when it reaches
    [(dx, dy)] within the fuel, never passes it and keeps [err] in
    [int16_t]. *)
Fixpoint bres_steps (fuel : nat) (dx dy a b err : Z) : bool :=
  match fuel with
  | O => false
  | S fuel' =>
      if (a =? dx) && (b =? dy) then true
      else
        let e2 := err in
        let '(err, a) := if e2 >? - dx then (err - dy, a + 1) else (err, a) in
        let ok1 := (-32768 <=? err) && (err <? 32768) in
        let '(err, b) := if e2 <? dy then (err + dx, b + 1) else (err, b) in
        ok1 && (-32768 <=? err) && (err <? 32768) && (a <=? dx) && (b <=? dy)
        && bres_steps fuel' dx dy a b err
  end.

(** The seed of the error accumulator. *)
Definition bres_err0 (dx dy : Z) : Z :=
  s16 (Z.shiftr (if dx >? dy then dx else - dy) 1).

(** The frame-buffer bytes a bus event carries: the payload of a data write
    without its control byte, nothing for any other event. *)
Definition data_bytes (e : bus_event) : list Z :=
  match e with
  | MasterTransmit _ (reg :: bytes) _ => if reg =? 0x40 then bytes else []
  | _ => []
  end.

(** The command byte a bus event carries, if it is a command write. *)
Definition command_bytes (e : bus_event) : list Z :=
  match e with
  | MasterTransmit _ [reg; c] _ => if reg =? 0x00 then [c] else []
  | _ => []
  end.

(** The text cursor addresses a pixel of the panel. *)
Definition cursor_in_panel (s : driver) : Prop :=
  in_panel (currentX (SSD1306 s)) (currentY (SSD1306 s)).

(** [s'] has the cursor of [s]. *)
Definition same_cursor (s s' : driver) : Prop :=
  currentX (SSD1306 s') = currentX (SSD1306 s)
  /\ currentY (SSD1306 s') = currentY (SSD1306 s).

(** [s'] is [s] after the command bytes [cmds] went out, one
    [SSD1306_WRITECOMMAND] each, and nothing else happened. *)
Definition sends_commands (cmds : list Z) (s s' : driver) : Prop :=
  SSD1306_Buffer s' = SSD1306_Buffer s /\ SSD1306 s' = SSD1306 s
  /\ bus s' = bus s ++ map command_event cmds.

(** The command bytes of a horizontal scroll ([opcode] is [0x26] to the
    right, [0x27] to the left) and of a diagonal scroll ([0x29], [0x2A]) of
    pages [start_page .. end_page], in the order of transmission. *)
Definition horizontal_scroll (opcode start_page end_page : Z) : list Z :=
  [opcode; 0x00; start_page; 0x00; end_page; 0x00; 0xFF; 0x2F].

Definition diagonal_scroll (opcode start_page end_page : Z) : list Z :=
  [0xA3; 0x00; 64; opcode; 0x00; start_page; 0x00; end_page; 0x01; 0x2F].

(** [s'] comes from [s] by drawing in the colour [c] alone: each pixel of
    the panel is as it was or has the colour that [SSD1306_drawPixel]
    commits for [c], and nothing but the frame buffer changed. *)
Definition tints (c : SSD1306_color_t) (s s' : driver) : Prop :=
  SSD1306 s' = SSD1306 s /\ bus s' = bus s
  /\ length (SSD1306_Buffer s') = length (SSD1306_Buffer s)
  /\ forall px py, in_panel px py ->
       get_pixel s' px py = get_pixel s px py
       \/ get_pixel s' px py = (effective_color c s =? SSD1306_COLOR_WHITE).

(** The end points of a line are, once clamped to the panel, one step apart
    along both axes. *)
Definition diagonal_neighbours (x0 y0 x1 y1 : Z) : bool :=
  (Z.abs (Z.min x1 (SSD1306_WIDTH - 1) - Z.min x0 (SSD1306_WIDTH - 1)) =? 1)
  && (Z.abs (Z.min y1 (SSD1306_HEIGHT - 1) - Z.min y0 (SSD1306_HEIGHT - 1)) =? 1).

(** The bit of the caller's array that [SSD1306_drawBitmap] tests for column
    [i] of row [j] of a bitmap [w] wide: rows are padded to whole bytes, and
    within a byte the most significant bit comes first. *)
Definition bitmap_bit (bitmap : Z -> Z) (w j i : Z) : bool :=
  Z.testbit (u8 (bitmap (j * s16 (Z.shiftr (w + 7) 3) + i / 8))) (7 - i mod 8).

(** The calls of [SSD1306_drawPixel] that row [j] makes when it is drawn at
    the [uint16_t] row [yy], and those of the whole bitmap. *)
Definition bitmap_row_plots (x yy : Z) (bitmap : Z -> Z) (w : Z)
    (color : SSD1306_color_t) (j : Z) : list (Z * Z * SSD1306_color_t) :=
  flat_map (fun i => if bitmap_bit bitmap w j i then [(u16 (x + i), yy, color)]
                     else [])
           (seqZ 0 w).

Definition bitmap_plots (x y : Z) (bitmap : Z -> Z) (w h : Z)
    (color : SSD1306_color_t) : list (Z * Z * SSD1306_color_t) :=
  flat_map (fun j => bitmap_row_plots x (u16 (y + j)) bitmap w color j) (seqZ 0 h).

(** The offsets from the start point that the stepper of [SSD1306_drawLine]
    visits, in order: the run that [bres_steps] accepts, written down. *)
Fixpoint bres_path (fuel : nat) (dx dy a b err : Z) : list (Z * Z) :=
  match fuel with
  | O => []
  | S fuel' =>
      (a, b) ::
      if (a =? dx) && (b =? dy) then []
      else
        let e2 := err in
        let '(err, a) := if e2 >? - dx then (err - dy, a + 1) else (err, a) in
        let '(err, b) := if e2 <? dy then (err + dx, b + 1) else (err, b) in
        bres_path fuel' dx dy a b err
  end.

(** What makes a run a line from [(0, 0)] to [(dx, dy)]: it stays in the
    rectangle between the two, it is less than one pixel away from the
    straight segment, measured along the shorter side, and it visits every
    coordinate of the longer side once, in order. *)
Definition on_segment (dx dy : Z) (q : Z * Z) : bool :=
  (0 <=? fst q) && (fst q <=? dx) && (0 <=? snd q) && (snd q <=? dy)
  && (Z.abs (dy * fst q - dx * snd q) <? Z.max dx dy).

Definition line_ok (dx dy : Z) : bool :=
  let p := bres_path 191 dx dy 0 0 (bres_err0 dx dy) in
  forallb (on_segment dx dy) p
  && (if dy <=? dx then bool_decide (map fst p = seqZ 0 (dx + 1))
      else bool_decide (map snd p = seqZ 0 (dy + 1))).

(** * Proofs *)

Lemma wfb_wf s : wfb s = true -> wf s.
Proof.
  unfold wfb. rewrite !andb_true_iff, orb_true_iff, !Z.eqb_eq, !Z.leb_le, !Z.ltb_lt.
  intros [[[[[[Hl Hb] H1] H2] H3] H4] H5].
  split; try lia.
  rewrite forallb_forall in Hb. apply List.Forall_forall. intros b Hin.
  specialize (Hb b Hin). apply andb_true_iff in Hb. lia.
Qed.

(** ** Integer conversions *)

Lemma u8_range z : 0 <= u8 z < 256.
Proof. unfold u8. apply Z.mod_pos_bound. lia. Qed.

Lemma u8_small z : 0 <= z < 256 -> u8 z = z.
Proof. intros H. unfold u8. apply Z.mod_small. lia. Qed.

Lemma u16_range z : 0 <= u16 z < 65536.
Proof. unfold u16. apply Z.mod_pos_bound. lia. Qed.

Lemma u16_small z : 0 <= z < 65536 -> u16 z = z.
Proof. intros H. unfold u16. apply Z.mod_small. lia. Qed.

Lemma s16_range z : -32768 <= s16 z < 32768.
Proof.
  unfold s16. pose proof (Z.mod_pos_bound (z + 2 ^ 15) (2 ^ 16)). lia.
Qed.

Lemma s16_small z : -32768 <= z < 32768 -> s16 z = z.
Proof. intros H. unfold s16. rewrite Z.mod_small; lia. Qed.

Lemma u16_congr a b : (a - b) mod 65536 = 0 -> u16 a = u16 b.
Proof.
  intros H. unfold u16. change (2 ^ 16) with 65536.
  apply Z.mod_divide in H; [|lia]. destruct H as [k Hk].
  replace a with (b + k * 65536) by lia. apply Z.mod_add. lia.
Qed.

Lemma shiftr3 y : Z.shiftr y 3 = y / 8.
Proof. rewrite Z.shiftr_div_pow2 by lia. reflexivity. Qed.

Lemma land7 y : Z.land y 0x07 = y mod 8.
Proof. change 7 with (Z.ones 3). rewrite Z.land_ones by lia. reflexivity. Qed.

Lemma land7_range y : 0 <= Z.land y 0x07 < 8.
Proof. rewrite land7. apply Z.mod_pos_bound. lia. Qed.

Lemma testbit_u8 z k : 0 <= k < 8 -> Z.testbit (u8 z) k = Z.testbit z k.
Proof. intros H. unfold u8. apply Z.mod_pow2_bits_low. lia. Qed.

Lemma testbit_bit k j : 0 <= k -> Z.testbit (Z.shiftl 1 k) j = (j =? k).
Proof.
  intros H. rewrite Z.shiftl_1_l, Z.pow2_bits_eqb by lia. apply Z.eqb_sym.
Qed.

(** ** Array accesses *)

Lemma rd_wr_eq buf i v :
  0 <= i < Z.of_nat (length buf) -> rd (wr buf i v) i = v.
Proof.
  intros H. unfold rd, wr. apply list_lookup_total_insert_eq. lia.
Qed.

Lemma rd_wr_ne buf i j v :
  0 <= i -> 0 <= j -> i <> j -> rd (wr buf i v) j = rd buf j.
Proof.
  intros Hi Hj H. unfold rd, wr. apply list_lookup_total_insert_ne. lia.
Qed.

Lemma length_wr buf i v : length (wr buf i v) = length buf.
Proof. apply length_insert. Qed.

Lemma pixel_index_range x y :
  in_panel x y -> 0 <= pixel_index x y < SSD1306_BUFFER_SIZE.
Proof.
  unfold in_panel, pixel_index, SSD1306_BUFFER_SIZE, SSD1306_WIDTH, SSD1306_HEIGHT.
  rewrite shiftr3. intros [Hx Hy].
  change (128 * 64 / 8) with 1024.
  assert (0 <= y / 8 < 8) by (split; [apply Z.div_pos | apply Z.div_lt_upper_bound]; lia).
  lia.
Qed.

(** Two panel positions share a byte and a bit only if they are the same. *)
Lemma pixel_index_inj x y x' y' :
  in_panel x y -> in_panel x' y' ->
  pixel_index x y = pixel_index x' y' -> Z.land y 0x07 = Z.land y' 0x07 ->
  x = x' /\ y = y'.
Proof.
  unfold in_panel, pixel_index, SSD1306_WIDTH, SSD1306_HEIGHT.
  rewrite !shiftr3, !land7. intros [Hx Hy] [Hx' Hy'] Hi Hb.
  pose proof (Z.div_mod y 8 ltac:(lia)).
  pose proof (Z.div_mod y' 8 ltac:(lia)).
  lia.
Qed.

(** ** [SSD1306_drawPixel] *)

Lemma drawPixel_out x y color s :
  x >= SSD1306_WIDTH \/ y >= SSD1306_HEIGHT ->
  SSD1306_drawPixel x y color s = (INVALID_PARAMS, s).
Proof.
  intros H. unfold SSD1306_drawPixel.
  destruct (x >=? SSD1306_WIDTH) eqn:Ex; [reflexivity|].
  destruct (y >=? SSD1306_HEIGHT) eqn:Ey; [reflexivity|]. lia.
Qed.

Lemma effective_color_cases color s :
  is_color color ->
  effective_color color s
  = if inverted (SSD1306 s) =? 0 then color else lnot_c color.
Proof.
  unfold effective_color, is_color, lnot_c, SSD1306_COLOR_BLACK, SSD1306_COLOR_WHITE.
  intros [-> | ->]; destruct (inverted (SSD1306 s) =? 0); reflexivity.
Qed.

Lemma effective_color_is_color color s :
  is_color color -> is_color (effective_color color s).
Proof.
  unfold effective_color, is_color, SSD1306_COLOR_BLACK, SSD1306_COLOR_WHITE.
  intros [-> | ->]; destruct (inverted (SSD1306 s) =? 0); simpl; auto.
Qed.

Lemma drawPixel_in x y color s :
  x < SSD1306_WIDTH -> y < SSD1306_HEIGHT -> is_color color ->
  SSD1306_drawPixel x y color s
  = (LCD_OK,
     set_buffer (wr (SSD1306_Buffer s) (pixel_index x y)
                    (pixel_byte (rd (SSD1306_Buffer s) (pixel_index x y)) y
                                (effective_color color s))) s).
Proof.
  intros Hx Hy Hc. unfold SSD1306_drawPixel, pixel_byte.
  destruct (x >=? SSD1306_WIDTH) eqn:Ex; [lia|].
  destruct (y >=? SSD1306_HEIGHT) eqn:Ey; [lia|]. cbn [orb]. cbv zeta.
  unfold effective_color, lnot_c.
  destruct Hc as [-> | ->]; destruct (inverted (SSD1306 s) =? 0); reflexivity.
Qed.

Lemma pixel_byte_bits old y eff k :
  is_color eff -> 0 <= k < 8 ->
  Z.testbit (pixel_byte old y eff) k
  = if k =? Z.land y 0x07 then eff =? SSD1306_COLOR_WHITE else Z.testbit old k.
Proof.
  intros Hc Hk. pose proof (land7_range y) as Hb. unfold pixel_byte.
  destruct Hc as [-> | ->]; simpl Z.eqb; cbv iota; rewrite testbit_u8 by lia.
  - rewrite Z.land_spec, Z.lnot_spec, testbit_bit by lia.
    destruct (k =? Z.land y 7); simpl; [apply andb_false_r | apply andb_true_r].
  - rewrite Z.lor_spec, testbit_bit by lia.
    destruct (k =? Z.land y 7); simpl; [apply orb_true_r | apply orb_false_r].
Qed.

Lemma pixel_byte_range old y eff : 0 <= pixel_byte old y eff < 256.
Proof. unfold pixel_byte. destruct (eff =? _); apply u8_range. Qed.

Lemma drawPixel_lcd x y color s :
  SSD1306 (snd (SSD1306_drawPixel x y color s)) = SSD1306 s.
Proof.
  unfold SSD1306_drawPixel.
  repeat match goal with |- context [if ?b then _ else _] => destruct b end;
    reflexivity.
Qed.

Lemma drawPixel_bus x y color s :
  bus (snd (SSD1306_drawPixel x y color s)) = bus s.
Proof.
  unfold SSD1306_drawPixel.
  repeat match goal with |- context [if ?b then _ else _] => destruct b end;
    reflexivity.
Qed.

Lemma drawPixel_length x y color s :
  length (SSD1306_Buffer (snd (SSD1306_drawPixel x y color s)))
  = length (SSD1306_Buffer s).
Proof.
  unfold SSD1306_drawPixel.
  repeat match goal with |- context [if ?b then _ else _] => destruct b end;
    simpl; rewrite ?length_wr; reflexivity.
Qed.

(** The effect of one call on every pixel of the panel; [x] and [y] are any
    [uint16_t] values, inside the panel or not. *)
Lemma get_pixel_drawPixel x y color s x' y' :
  length (SSD1306_Buffer s) = Z.to_nat SSD1306_BUFFER_SIZE ->
  0 <= x -> 0 <= y -> is_color color -> in_panel x' y' ->
  get_pixel (snd (SSD1306_drawPixel x y color s)) x' y'
  = if (x' =? x) && (y' =? y)
    then effective_color color s =? SSD1306_COLOR_WHITE
    else get_pixel s x' y'.
Proof.
  intros Hlen Hx Hy Hc Hp'.
  destruct (Z_lt_dec x SSD1306_WIDTH) as [Hxw|Hxw];
    [destruct (Z_lt_dec y SSD1306_HEIGHT) as [Hyh|Hyh]|].
  - assert (Hp : in_panel x y) by (unfold in_panel; lia).
    rewrite drawPixel_in by assumption. unfold get_pixel. simpl.
    pose proof (pixel_index_range x y Hp) as Hi.
    pose proof (pixel_index_range x' y' Hp') as Hi'.
    destruct (Z.eq_dec (pixel_index x' y') (pixel_index x y)) as [Ei|Ei].
    + rewrite Ei, rd_wr_eq by lia.
      rewrite pixel_byte_bits
        by (auto using effective_color_is_color, land7_range).
      destruct (Z.eqb_spec (Z.land y' 7) (Z.land y 7)) as [Eb|Eb].
      * destruct (pixel_index_inj x' y' x y Hp' Hp Ei Eb) as [-> ->].
        rewrite !Z.eqb_refl. reflexivity.
      * destruct (Z.eqb_spec y' y) as [->|_]; [congruence|].
        rewrite andb_false_r. reflexivity.
    + rewrite rd_wr_ne by lia.
      destruct (Z.eqb_spec x' x) as [->|_]; [|reflexivity].
      destruct (Z.eqb_spec y' y) as [->|_]; [congruence|reflexivity].
  - rewrite drawPixel_out by lia. simpl.
    destruct (Z.eqb_spec y' y) as [->|_]; [|rewrite andb_false_r; reflexivity].
    destruct Hp'. lia.
  - rewrite drawPixel_out by lia. simpl.
    destruct (Z.eqb_spec x' x) as [->|_]; [|reflexivity].
    destruct Hp'. lia.
Qed.

Lemma Forall_wr (P : Z -> Prop) buf i v :
  Forall P buf -> P v -> Forall P (wr buf i v).
Proof. intros Hb Hv. unfold wr. apply Forall_insert; assumption. Qed.

Lemma drawPixel_wf x y color s :
  wf s -> wf (snd (SSD1306_drawPixel x y color s)).
Proof.
  intros [Hl Hb Hx Hy Hi].
  split; rewrite ?drawPixel_lcd, ?drawPixel_length; try assumption.
  unfold SSD1306_drawPixel.
  repeat match goal with |- context [if ?b then _ else _] => destruct b end;
    simpl; try assumption; apply Forall_wr; auto using u8_range.
Qed.

(** ** Claim C4 *)

(** C4.  For [uint16_t] coordinates and a colour of the enumeration,
    [SSD1306_drawPixel] returns [INVALID_PARAMS] and leaves the whole state
    alone when [x >= SSD1306_WIDTH] or [y >= SSD1306_HEIGHT]; otherwise it
    returns [LCD_OK] and, with the effective colour [color XOR inverted],
    sets (white) or clears (black) bit [y & 7] of the byte at offset
    [x + (y >> 3) * SSD1306_WIDTH], keeping the other bits of that byte and
    every other byte of the buffer. *)
Theorem drawPixel_correct (x y : Z) (color : SSD1306_color_t) (s : driver) :
  length (SSD1306_Buffer s) = Z.to_nat SSD1306_BUFFER_SIZE ->
  0 <= x < 2 ^ 16 -> 0 <= y < 2 ^ 16 -> is_color color ->
  (x >= SSD1306_WIDTH \/ y >= SSD1306_HEIGHT ->
   SSD1306_drawPixel x y color s = (INVALID_PARAMS, s))
  /\
  (x < SSD1306_WIDTH /\ y < SSD1306_HEIGHT ->
   let i := x + Z.shiftr y 3 * SSD1306_WIDTH in
   let s' := snd (SSD1306_drawPixel x y color s) in
   fst (SSD1306_drawPixel x y color s) = LCD_OK
   /\ SSD1306 s' = SSD1306 s /\ bus s' = bus s
   /\ length (SSD1306_Buffer s') = length (SSD1306_Buffer s)
   /\ (forall k, 0 <= k < 8 ->
         Z.testbit (rd (SSD1306_Buffer s') i) k
         = if k =? Z.land y 0x07
           then Z.lxor color (if inverted (SSD1306 s) =? 0 then 0 else 1)
                =? SSD1306_COLOR_WHITE
           else Z.testbit (rd (SSD1306_Buffer s) i) k)
   /\ 0 <= rd (SSD1306_Buffer s') i < 256
   /\ (forall j : nat, j <> Z.to_nat i ->
         SSD1306_Buffer s' !! j = SSD1306_Buffer s !! j)).
Proof.
  intros Hlen Hx Hy Hc. split.
  - apply drawPixel_out.
  - intros [Hxw Hyh] i s'.
    assert (Hp : in_panel x y) by (unfold in_panel; lia).
    pose proof (pixel_index_range x y Hp) as Hi.
    fold (pixel_index x y) in i. subst s'.
    rewrite drawPixel_lcd, drawPixel_bus, drawPixel_length.
    rewrite drawPixel_in by assumption. simpl.
    rewrite rd_wr_eq by (subst i; lia).
    do 4 (split; [reflexivity|]).
    split; [|split; [apply pixel_byte_range|]].
    + intros k Hk. apply pixel_byte_bits; [|assumption].
      apply (effective_color_is_color color s Hc).
    + intros j Hj. unfold wr. apply list_lookup_insert_ne. subst i. lia.
Qed.

Lemma drawPixel_correct_witness :
  SSD1306_drawPixel 200 3 SSD1306_COLOR_WHITE power_on = (INVALID_PARAMS, power_on)
  /\ fst (SSD1306_drawPixel 5 10 SSD1306_COLOR_WHITE power_on) = LCD_OK.
Proof.
  split.
  - apply (drawPixel_correct 200 3 SSD1306_COLOR_WHITE power_on);
      [reflexivity | lia | lia | right; reflexivity | left; vm_compute; discriminate].
  - apply (drawPixel_correct 5 10 SSD1306_COLOR_WHITE power_on);
      [reflexivity | lia | lia | right; reflexivity | split; reflexivity].
Defined.

(** ** Runs of pixel writes *)

Lemma plot_all_cons t l s :
  plot_all (t :: l) s
  = plot_all l (snd (SSD1306_drawPixel (fst (fst t)) (snd (fst t)) (snd t) s)).
Proof. reflexivity. Qed.

Lemma plot_all_app l1 l2 s : plot_all (l1 ++ l2) s = plot_all l2 (plot_all l1 s).
Proof. unfold plot_all. apply fold_left_app. Qed.

Lemma plot_all_lcd l s : SSD1306 (plot_all l s) = SSD1306 s.
Proof.
  revert s. induction l as [|t l IH]; intros s; [reflexivity|].
  rewrite plot_all_cons, IH. apply drawPixel_lcd.
Qed.

Lemma plot_all_bus l s : bus (plot_all l s) = bus s.
Proof.
  revert s. induction l as [|t l IH]; intros s; [reflexivity|].
  rewrite plot_all_cons, IH. apply drawPixel_bus.
Qed.

Lemma plot_all_length l s :
  length (SSD1306_Buffer (plot_all l s)) = length (SSD1306_Buffer s).
Proof.
  revert s. induction l as [|t l IH]; intros s; [reflexivity|].
  rewrite plot_all_cons, IH. apply drawPixel_length.
Qed.

Lemma plot_all_wf l s : wf s -> wf (plot_all l s).
Proof.
  revert s. induction l as [|t l IH]; intros s H; [assumption|].
  rewrite plot_all_cons. apply IH, drawPixel_wf, H.
Qed.

Lemma effective_color_lcd color s s' :
  SSD1306 s' = SSD1306 s -> effective_color color s' = effective_color color s.
Proof. intros H. unfold effective_color. rewrite H. reflexivity. Qed.

(** A position that no entry addresses keeps its pixel. *)
Lemma plot_all_frame l s x y :
  length (SSD1306_Buffer s) = Z.to_nat SSD1306_BUFFER_SIZE ->
  Forall plot_ok l -> in_panel x y ->
  (forall t, In t l -> ~ hits x y t) ->
  get_pixel (plot_all l s) x y = get_pixel s x y.
Proof.
  revert s. induction l as [|t l IH]; intros s Hlen Hok Hp Hno; [reflexivity|].
  inversion Hok as [|? ? [Hx [Hy Hc]] Hok']; subst.
  rewrite plot_all_cons, IH; try assumption.
  - rewrite get_pixel_drawPixel by assumption.
    destruct (Z.eqb_spec x (fst (fst t))) as [Ex|_]; [|reflexivity].
    destruct (Z.eqb_spec y (snd (fst t))) as [Ey|_]; [|reflexivity].
    exfalso. apply (Hno t); [left; reflexivity | split; congruence].
  - rewrite drawPixel_length. assumption.
  - intros t' Ht'. apply Hno. right. assumption.
Qed.

Lemma hits_dec x y t : {hits x y t} + {~ hits x y t}.
Proof.
  unfold hits.
  destruct (Z.eq_dec (fst (fst t)) x); destruct (Z.eq_dec (snd (fst t)) y);
    (left; tauto) || (right; tauto).
Qed.

Lemma classic_hit l x y :
  (exists t, In t l /\ hits x y t) \/ (forall t, In t l -> ~ hits x y t).
Proof.
  induction l as [|t l [[t' [Hin Hh]] | Hno]].
  - right. intros t [].
  - left. exists t'. split; [right|]; assumption.
  - destruct (hits_dec x y t) as [Hh | Hh].
    + left. exists t. split; [left; reflexivity | assumption].
    + right. intros t' [<- | Hin]; [assumption | apply Hno, Hin].
Qed.

(** A position addressed by some entry, and only with colour [c], ends with
    the effective colour of [c]. *)
Lemma plot_all_hit l s x y c :
  length (SSD1306_Buffer s) = Z.to_nat SSD1306_BUFFER_SIZE ->
  Forall plot_ok l -> in_panel x y ->
  (exists t, In t l /\ hits x y t) ->
  (forall t, In t l -> hits x y t -> snd t = c) ->
  get_pixel (plot_all l s) x y = (effective_color c s =? SSD1306_COLOR_WHITE).
Proof.
  revert s. induction l as [|t l IH]; intros s Hlen Hok Hp Hex Hall.
  - destruct Hex as [t [[] _]].
  - inversion Hok as [|? ? [Hx [Hy Hc]] Hok']; subst.
    rewrite plot_all_cons.
    set (s1 := snd (SSD1306_drawPixel (fst (fst t)) (snd (fst t)) (snd t) s)).
    assert (Hlen1 : length (SSD1306_Buffer s1) = Z.to_nat SSD1306_BUFFER_SIZE)
      by (unfold s1; rewrite drawPixel_length; assumption).
    assert (Heff : effective_color c s1 = effective_color c s)
      by (apply effective_color_lcd, drawPixel_lcd).
    destruct (classic_hit l x y) as [Hin | Hnot].
    + rewrite (IH s1 Hlen1 Hok' Hp Hin).
      * rewrite Heff. reflexivity.
      * intros t' Ht'. apply Hall. right. assumption.
    + rewrite plot_all_frame by assumption.
      destruct Hex as [t' [[<- | Ht'] Hh]]; [|exfalso; eapply Hnot; eauto].
      unfold s1. rewrite get_pixel_drawPixel by assumption.
      destruct Hh as [<- <-]. rewrite !Z.eqb_refl. simpl.
      rewrite (Hall t (or_introl eq_refl) (conj eq_refl eq_refl)). reflexivity.
Qed.

(** ** Loops as runs *)

Lemma fold_left_map_comp {A B C : Type} (f : A -> C -> A) (g : B -> C) l a :
  fold_left f (map g l) a = fold_left (fun acc x => f acc (g x)) l a.
Proof. revert a. induction l as [|x l IH]; intros a; simpl; auto. Qed.

Lemma for_range_plot lo n (g : Z -> Z * Z * SSD1306_color_t) s :
  for_range lo n
    (fun i acc =>
       snd (SSD1306_drawPixel (fst (fst (g i))) (snd (fst (g i))) (snd (g i)) acc)) s
  = plot_all (map g (seqZ lo n)) s.
Proof. unfold for_range, plot_all. rewrite fold_left_map_comp. reflexivity. Qed.

Lemma in_map_seqZ {B : Type} (g : Z -> B) lo n t :
  In t (map g (seqZ lo n)) <-> exists i, lo <= i < lo + n /\ t = g i.
Proof.
  rewrite in_map_iff. split.
  - intros [i [<- Hi]]. exists i. split; [|reflexivity].
    apply list_elem_of_In, elem_of_seqZ in Hi. lia.
  - intros [i [Hi ->]]. exists i. split; [reflexivity|].
    apply list_elem_of_In, elem_of_seqZ. lia.
Qed.

Ltac bool_cases :=
  repeat match goal with
    | |- context [?a <=? ?b] => destruct (Z.leb_spec a b)
    | |- context [?a <? ?b] => destruct (Z.ltb_spec a b)
    | |- context [?a =? ?b] => destruct (Z.eqb_spec a b)
    | |- context [?a >=? ?b] => rewrite (Z.geb_leb a b)
    | |- context [?a >? ?b] => rewrite (Z.gtb_ltb a b)
    end;
  simpl; try reflexivity; try lia.

(** The pixels after a run over a column: [for (i = ya; i <= yb; i++)
    SSD1306_drawPixel(x, i, color)]. *)
Lemma vline_pixels x ya yb color s :
  length (SSD1306_Buffer s) = Z.to_nat SSD1306_BUFFER_SIZE ->
  0 <= x -> 0 <= ya < 32768 -> 0 <= yb < 32768 -> is_color color ->
  let s' := for_range (s16 ya) (yb - s16 ya + 1)
              (fun i acc => snd (SSD1306_drawPixel x (u16 i) color acc)) s in
  SSD1306 s' = SSD1306 s /\ bus s' = bus s
  /\ length (SSD1306_Buffer s') = length (SSD1306_Buffer s)
  /\ forall px py, in_panel px py ->
       get_pixel s' px py
       = if (px =? x) && (ya <=? py) && (py <=? yb)
         then effective_color color s =? SSD1306_COLOR_WHITE
         else get_pixel s px py.
Proof.
  intros Hlen Hx Hya Hyb Hc. rewrite (s16_small ya) by lia.
  rewrite (for_range_plot ya (yb - ya + 1) (fun i => (x, u16 i, color))).
  cbv zeta. rewrite plot_all_lcd, plot_all_bus, plot_all_length.
  do 3 (split; [reflexivity|]). intros px py Hp.
  assert (Hok : Forall plot_ok (map (fun i => (x, u16 i, color)) (seqZ ya (yb - ya + 1)))).
  { apply List.Forall_forall. intros t Ht. apply in_map_seqZ in Ht as [i [Hi ->]].
    unfold plot_ok. simpl. pose proof (u16_range i). auto with zarith. }
  destruct ((px =? x) && (ya <=? py) && (py <=? yb)) eqn:E.
  - apply andb_prop in E as [E E3]. apply andb_prop in E as [E1 E2].
    apply Z.eqb_eq in E1. apply Z.leb_le in E2, E3.
    apply plot_all_hit; try assumption.
    + exists (x, u16 py, color). split.
      * apply in_map_seqZ. exists py. split; [lia | reflexivity].
      * unfold hits. simpl. rewrite u16_small by lia. auto.
    + intros t Ht _. apply in_map_seqZ in Ht as [i [_ ->]]. reflexivity.
  - apply plot_all_frame; try assumption.
    intros t Ht [H1 H2]. apply in_map_seqZ in Ht as [i [Hi ->]]. simpl in *.
    rewrite u16_small in H2 by lia. subst.
    revert E. bool_cases.
Qed.

(** The same over a row: [for (i = xa; i <= xb; i++)
    SSD1306_drawPixel(i, y, color)]. *)
Lemma hline_pixels xa xb y color s :
  length (SSD1306_Buffer s) = Z.to_nat SSD1306_BUFFER_SIZE ->
  0 <= y -> 0 <= xa < 32768 -> 0 <= xb < 32768 -> is_color color ->
  let s' := for_range (s16 xa) (xb - s16 xa + 1)
              (fun i acc => snd (SSD1306_drawPixel (u16 i) y color acc)) s in
  SSD1306 s' = SSD1306 s /\ bus s' = bus s
  /\ length (SSD1306_Buffer s') = length (SSD1306_Buffer s)
  /\ forall px py, in_panel px py ->
       get_pixel s' px py
       = if (py =? y) && (xa <=? px) && (px <=? xb)
         then effective_color color s =? SSD1306_COLOR_WHITE
         else get_pixel s px py.
Proof.
  intros Hlen Hy Hxa Hxb Hc. rewrite (s16_small xa) by lia.
  rewrite (for_range_plot xa (xb - xa + 1) (fun i => (u16 i, y, color))).
  cbv zeta. rewrite plot_all_lcd, plot_all_bus, plot_all_length.
  do 3 (split; [reflexivity|]). intros px py Hp.
  assert (Hok : Forall plot_ok (map (fun i => (u16 i, y, color)) (seqZ xa (xb - xa + 1)))).
  { apply List.Forall_forall. intros t Ht. apply in_map_seqZ in Ht as [i [Hi ->]].
    unfold plot_ok. simpl. pose proof (u16_range i). auto with zarith. }
  destruct ((py =? y) && (xa <=? px) && (px <=? xb)) eqn:E.
  - apply andb_prop in E as [E E3]. apply andb_prop in E as [E1 E2].
    apply Z.eqb_eq in E1. apply Z.leb_le in E2, E3.
    apply plot_all_hit; try assumption.
    + exists (u16 px, y, color). split.
      * apply in_map_seqZ. exists px. split; [lia | reflexivity].
      * unfold hits. simpl. rewrite u16_small by lia. auto.
    + intros t Ht _. apply in_map_seqZ in Ht as [i [_ ->]]. reflexivity.
  - apply plot_all_frame; try assumption.
    intros t Ht [H1 H2]. apply in_map_seqZ in Ht as [i [Hi ->]]. simpl in *.
    rewrite u16_small in H1 by lia. subst.
    revert E. bool_cases.
Qed.

(** ** [SSD1306_drawLine] on rows and columns *)

Lemma clampW x :
  (if x >=? SSD1306_WIDTH then SSD1306_WIDTH - 1 else x)
  = Z.min x (SSD1306_WIDTH - 1).
Proof. unfold SSD1306_WIDTH. bool_cases. Qed.

Lemma clampH y :
  (if y >=? SSD1306_HEIGHT then SSD1306_HEIGHT - 1 else y)
  = Z.min y (SSD1306_HEIGHT - 1).
Proof. unfold SSD1306_HEIGHT. bool_cases. Qed.

Lemma swap16 a b :
  0 <= a < 32768 -> 0 <= b < 32768 ->
  (if b <? a then (u16 (s16 b), a) else (a, b)) = (Z.min a b, Z.max a b).
Proof.
  intros Ha Hb. rewrite (s16_small b), (u16_small b) by lia.
  destruct (Z.ltb_spec b a); f_equal; lia.
Qed.

(** A line whose clamped end points share a column or a row: the routine
    returns whatever the fuel, and exactly the pixels of the segment between
    the clamped end points take the effective colour. *)
Lemma drawLine_axis fuel x0 y0 x1 y1 color s :
  length (SSD1306_Buffer s) = Z.to_nat SSD1306_BUFFER_SIZE ->
  0 <= x0 -> 0 <= y0 -> 0 <= x1 -> 0 <= y1 -> is_color color ->
  let cx0 := Z.min x0 (SSD1306_WIDTH - 1) in
  let cx1 := Z.min x1 (SSD1306_WIDTH - 1) in
  let cy0 := Z.min y0 (SSD1306_HEIGHT - 1) in
  let cy1 := Z.min y1 (SSD1306_HEIGHT - 1) in
  cx0 = cx1 \/ cy0 = cy1 ->
  exists s',
    SSD1306_drawLine fuel x0 y0 x1 y1 color s = Some (LCD_OK, s')
    /\ SSD1306 s' = SSD1306 s /\ bus s' = bus s
    /\ length (SSD1306_Buffer s') = length (SSD1306_Buffer s)
    /\ forall px py, in_panel px py ->
         get_pixel s' px py
         = if (Z.min cx0 cx1 <=? px) && (px <=? Z.max cx0 cx1)
              && (Z.min cy0 cy1 <=? py) && (py <=? Z.max cy0 cy1)
           then effective_color color s =? SSD1306_COLOR_WHITE
           else get_pixel s px py.
Proof.
  intros Hlen Hx0 Hy0 Hx1 Hy1 Hc cx0 cx1 cy0 cy1 Hax.
  unfold SSD1306_drawLine. rewrite !clampW, !clampH.
  fold cx0 cx1 cy0 cy1. cbv zeta.
  assert (Bx0 : 0 <= cx0 <= 127) by (unfold cx0, SSD1306_WIDTH; lia).
  assert (Bx1 : 0 <= cx1 <= 127) by (unfold cx1, SSD1306_WIDTH; lia).
  assert (By0 : 0 <= cy0 <= 63) by (unfold cy0, SSD1306_HEIGHT; lia).
  assert (By1 : 0 <= cy1 <= 63) by (unfold cy1, SSD1306_HEIGHT; lia).
  clearbody cx0 cx1 cy0 cy1.
  assert (Edx : s16 (if cx0 <? cx1 then cx1 - cx0 else cx0 - cx1) = Z.abs (cx1 - cx0))
    by (destruct (Z.ltb_spec cx0 cx1); rewrite s16_small; lia).
  assert (Edy : s16 (if cy0 <? cy1 then cy1 - cy0 else cy0 - cy1) = Z.abs (cy1 - cy0))
    by (destruct (Z.ltb_spec cy0 cy1); rewrite s16_small; lia).
  rewrite Edx, Edy.
  rewrite (swap16 cy0 cy1), (swap16 cx0 cx1) by lia. cbv iota beta.
  destruct (Z.eqb_spec (Z.abs (cx1 - cx0)) 0) as [E0 | E0].
  - assert (cx0 = cx1) by lia. subst cx1.
    eexists. split; [reflexivity|].
    pose proof (vline_pixels (Z.min cx0 cx0) (Z.min cy0 cy1) (Z.max cy0 cy1) color s
                  Hlen ltac:(lia) ltac:(lia) ltac:(lia) Hc) as H.
    cbv zeta in H. destruct H as [H1 [H2 [H3 H4]]].
    do 3 (split; [assumption|]). intros px py Hp. rewrite (H4 px py Hp).
    destruct (effective_color color s =? SSD1306_COLOR_WHITE), (get_pixel s px py);
      bool_cases.
  - assert (cy0 = cy1) by lia. subst cy1.
    replace (Z.abs (cy0 - cy0)) with 0 by lia. cbv iota beta. simpl Z.eqb. cbv iota.
    eexists. split; [reflexivity|].
    pose proof (hline_pixels (Z.min cx0 cx1) (Z.max cx0 cx1) (Z.min cy0 cy0) color s
                  Hlen ltac:(lia) ltac:(lia) ltac:(lia) Hc) as H.
    cbv zeta in H. destruct H as [H1 [H2 [H3 H4]]].
    do 3 (split; [assumption|]). intros px py Hp. rewrite (H4 px py Hp).
    destruct (effective_color color s =? SSD1306_COLOR_WHITE), (get_pixel s px py);
      bool_cases.
Qed.

Lemma get_pixel_blank s x y :
  SSD1306_Buffer s = replicate (Z.to_nat SSD1306_BUFFER_SIZE) 0 ->
  in_panel x y -> get_pixel s x y = false.
Proof.
  intros Hb Hp. unfold get_pixel, rd. rewrite Hb.
  pose proof (pixel_index_range x y Hp).
  rewrite lookup_total_replicate_2 by lia. apply Z.testbit_0_l.
Qed.

(** ** Claim C8 *)

(** C8.  From an all-zero buffer with the [inverted] flag clear,
    [SSD1306_drawLine(0, 0, 10, 0, SSD1306_COLOR_WHITE)] returns [LCD_OK]
    (whatever the fuel, and whatever [initialized] holds) and leaves exactly
    the eleven pixels [(0,0)] to [(10,0)] set: bytes 0 to 10 of the buffer
    hold [0x01] and the other 1013 bytes are still zero. *)
Theorem drawLine_0_0_10_0 (fuel : nat) (s : driver) :
  SSD1306_Buffer s = replicate (Z.to_nat SSD1306_BUFFER_SIZE) 0 ->
  inverted (SSD1306 s) = 0 ->
  exists s',
    SSD1306_drawLine fuel 0 0 10 0 SSD1306_COLOR_WHITE s = Some (LCD_OK, s')
    /\ SSD1306 s' = SSD1306 s /\ bus s' = bus s
    /\ (forall px py, in_panel px py ->
          get_pixel s' px py = true <-> (py = 0 /\ px <= 10))
    /\ SSD1306_Buffer s' = replicate 11 1 ++ replicate 1013 0.
Proof.
  intros Hb Hi.
  assert (Hlen : length (SSD1306_Buffer s) = Z.to_nat SSD1306_BUFFER_SIZE)
    by (rewrite Hb; apply length_replicate).
  destruct (drawLine_axis fuel 0 0 10 0 SSD1306_COLOR_WHITE s Hlen
              ltac:(lia) ltac:(lia) ltac:(lia) ltac:(lia)
              (or_intror eq_refl) (or_intror eq_refl))
    as [s' [Hr [Hl [Hbus [_ Hpix]]]]].
  exists s'. split; [assumption|]. do 2 (split; [assumption|]). split.
  - assert (Hpix' : forall px py, in_panel px py ->
              get_pixel s' px py
              = if (0 <=? px) && (px <=? 10) && (0 <=? py) && (py <=? 0)
                then effective_color SSD1306_COLOR_WHITE s =? SSD1306_COLOR_WHITE
                else get_pixel s px py) by exact Hpix.
    intros px py Hp. rewrite (Hpix' px py Hp), (get_pixel_blank s px py Hb Hp).
    unfold effective_color. rewrite Hi. destruct Hp as [Hpx Hpy].
    simpl Z.eqb.
    destruct (Z.leb_spec 0 px), (Z.leb_spec px 10), (Z.leb_spec 0 py),
      (Z.leb_spec py 0); simpl; split; intros; try discriminate; try lia;
      reflexivity.
  - destruct s as [buf [p cx cy inv ini] log]. simpl in Hb, Hi. subst buf inv.
    vm_compute in Hr. injection Hr as <-. reflexivity.
Qed.

Lemma drawLine_0_0_10_0_witness :
  exists s',
    SSD1306_drawLine 0 0 0 10 0 SSD1306_COLOR_WHITE
      (snd (SSD1306_init 0 HAL_OK power_on)) = Some (LCD_OK, s')
    /\ SSD1306_Buffer s' = replicate 11 1 ++ replicate 1013 0.
Proof.
  destruct (drawLine_0_0_10_0 0 (snd (SSD1306_init 0 HAL_OK power_on))
              eq_refl eq_refl) as [s' [H1 [_ [_ [_ H2]]]]].
  exists s'. split; assumption.
Defined.

(** ** Claim C7 *)

Lemma if_chain {A : Type} (a b : bool) (e r : A) :
  (if a then e else if b then e else r) = if a || b then e else r.
Proof. destruct a, b; reflexivity. Qed.

Ltac bool_to_prop :=
  apply eq_iff_eq_true;
  rewrite ?andb_true_iff, ?orb_true_iff, ?andb_true_iff, ?orb_true_iff,
    ?Z.leb_le, ?Z.ltb_lt, ?Z.eqb_eq.

(** C7.  For a corner [(x, y)] inside the panel and any [uint16_t] size,
    [SSD1306_drawRectangle] returns [LCD_OK] instead of failing, and the
    pixels it writes are those of the outline whose far corner is clamped to
    the panel edge, [(min (x + w) (SSD1306_WIDTH - 1),
    min (y + h) (SSD1306_HEIGHT - 1))]: every other pixel of the panel keeps
    its value, so nothing is set past column [SSD1306_WIDTH - 1] or row
    [SSD1306_HEIGHT - 1] (nor wrapped into another page of the buffer). *)
Theorem drawRectangle_clamped (fuel : nat) (x y w h : Z)
    (color : SSD1306_color_t) (s : driver) :
  length (SSD1306_Buffer s) = Z.to_nat SSD1306_BUFFER_SIZE ->
  0 <= x < SSD1306_WIDTH -> 0 <= y < SSD1306_HEIGHT ->
  0 <= w < 2 ^ 16 -> 0 <= h < 2 ^ 16 -> is_color color ->
  let xr := Z.min (x + w) (SSD1306_WIDTH - 1) in
  let yb := Z.min (y + h) (SSD1306_HEIGHT - 1) in
  exists s',
    SSD1306_drawRectangle fuel x y w h color s = Some (LCD_OK, s')
    /\ SSD1306 s' = SSD1306 s /\ bus s' = bus s
    /\ length (SSD1306_Buffer s') = length (SSD1306_Buffer s)
    /\ forall px py, in_panel px py ->
         get_pixel s' px py
         = if on_outline x y xr yb px py
           then effective_color color s =? SSD1306_COLOR_WHITE
           else get_pixel s px py.
Proof.
  intros Hlen Hx Hy Hw Hh Hc xr yb.
  unfold SSD1306_drawRectangle.
  destruct (x >=? SSD1306_WIDTH) eqn:Ex; [unfold SSD1306_WIDTH in *; lia|].
  destruct (y >=? SSD1306_HEIGHT) eqn:Ey; [unfold SSD1306_HEIGHT in *; lia|].
  cbn [orb]. cbv zeta.
  set (X1 := u16 (x + (if x + w >=? SSD1306_WIDTH then u16 (SSD1306_WIDTH - x) else w))).
  set (Y1 := u16 (y + (if y + h >=? SSD1306_HEIGHT then u16 (SSD1306_HEIGHT - y) else h))).
  assert (HX1 : X1 = Z.min (x + w) SSD1306_WIDTH).
  { unfold X1, SSD1306_WIDTH in *.
    destruct (Z.geb_spec (x + w) 128); rewrite ?(u16_small (128 - x)) by lia;
      rewrite u16_small; lia. }
  assert (HY1 : Y1 = Z.min (y + h) SSD1306_HEIGHT).
  { unfold Y1, SSD1306_HEIGHT in *.
    destruct (Z.geb_spec (y + h) 64); rewrite ?(u16_small (64 - y)) by lia;
      rewrite u16_small; lia. }
  clearbody X1 Y1.
  assert (Hxr : Z.min X1 (SSD1306_WIDTH - 1) = xr)
    by (unfold xr, SSD1306_WIDTH in *; lia).
  assert (Hyb : Z.min Y1 (SSD1306_HEIGHT - 1) = yb)
    by (unfold yb, SSD1306_HEIGHT in *; lia).
  assert (Hxx : Z.min x (SSD1306_WIDTH - 1) = x) by (unfold SSD1306_WIDTH in *; lia).
  assert (Hyy : Z.min y (SSD1306_HEIGHT - 1) = y) by (unfold SSD1306_HEIGHT in *; lia).
  assert (HX0 : 0 <= X1) by (unfold SSD1306_WIDTH in *; lia).
  assert (HY0 : 0 <= Y1) by (unfold SSD1306_HEIGHT in *; lia).
  assert (Bxr : x <= xr) by (unfold xr, SSD1306_WIDTH in *; lia).
  assert (Byb : y <= yb) by (unfold yb, SSD1306_HEIGHT in *; lia).
  destruct (drawLine_axis fuel x y X1 y color s Hlen
              ltac:(lia) ltac:(lia) HX0 ltac:(lia) Hc (or_intror eq_refl))
    as [s1 [R1 [L1 [U1 [N1 P1]]]]].
  rewrite Hxx, Hyy, Hxr in P1.
  destruct (drawLine_axis fuel x Y1 X1 Y1 color s1 ltac:(congruence)
              ltac:(lia) HY0 HX0 HY0 Hc (or_intror eq_refl))
    as [s2 [R2 [L2 [U2 [N2 P2]]]]].
  rewrite Hxx, Hyb, Hxr in P2.
  destruct (drawLine_axis fuel x y x Y1 color s2 ltac:(congruence)
              ltac:(lia) ltac:(lia) ltac:(lia) HY0 Hc (or_introl eq_refl))
    as [s3 [R3 [L3 [U3 [N3 P3]]]]].
  rewrite Hxx, Hyy, Hyb in P3.
  destruct (drawLine_axis fuel X1 y X1 Y1 color s3 ltac:(congruence)
              HX0 ltac:(lia) HX0 HY0 Hc (or_introl eq_refl))
    as [s4 [R4 [L4 [U4 [N4 P4]]]]].
  rewrite Hyy, Hyb, Hxr in P4.
  exists s4. rewrite R1. simpl. rewrite R2. simpl. rewrite R3. simpl.
  rewrite R4. simpl. split; [reflexivity|].
  split; [congruence|]. split; [congruence|]. split; [congruence|].
  intros px py Hp.
  rewrite (P4 px py Hp), (P3 px py Hp), (P2 px py Hp), (P1 px py Hp).
  rewrite (effective_color_lcd color s s3), (effective_color_lcd color s s2),
    (effective_color_lcd color s s1) by congruence.
  rewrite !if_chain. unfold on_outline.
  rewrite ?Z.min_id, ?Z.max_id, ?(Z.min_l x xr), ?(Z.max_r x xr),
    ?(Z.min_l y yb), ?(Z.max_r y yb) by lia.
  match goal with
  | |- (if ?a then _ else _) = (if ?b then _ else _) =>
      replace a with b; [reflexivity|]
  end.
  bool_to_prop. lia.
Qed.

Lemma drawRectangle_clamped_witness :
  exists s',
    SSD1306_drawRectangle 0 120 60 20 10 SSD1306_COLOR_WHITE power_on
    = Some (LCD_OK, s')
    /\ get_pixel s' 127 63 = true /\ get_pixel s' 0 62 = false.
Proof.
  destruct (drawRectangle_clamped 0 120 60 20 10 SSD1306_COLOR_WHITE power_on
              eq_refl ltac:(unfold SSD1306_WIDTH; lia)
              ltac:(unfold SSD1306_HEIGHT; lia) ltac:(lia) ltac:(lia)
              (or_intror eq_refl))
    as [s' [H1 [_ [_ [_ H2]]]]].
  exists s'. split; [assumption|]. split.
  - rewrite H2; [reflexivity | unfold in_panel, SSD1306_WIDTH, SSD1306_HEIGHT; lia].
  - rewrite H2; [reflexivity | unfold in_panel, SSD1306_WIDTH, SSD1306_HEIGHT; lia].
Defined.

(** ** [SSD1306_toggleInvert] *)

Lemma for_range_snoc {A : Type} lo (n : nat) (body : Z -> A -> A) a :
  for_range lo (Z.of_nat (S n)) body a
  = body (lo + Z.of_nat n) (for_range lo (Z.of_nat n) body a).
Proof. unfold for_range. rewrite seqZ_S, fold_left_app. reflexivity. Qed.

Lemma toggle_prefix (buf : list Z) (n : nat) :
  (n <= length buf)%nat ->
  length (for_range 0 (Z.of_nat n) toggle_byte buf) = length buf
  /\ forall j : nat,
       for_range 0 (Z.of_nat n) toggle_byte buf !! j
       = if (j <? n)%nat then (fun b => u8 (Z.lnot b)) <$> (buf !! j)
         else buf !! j.
Proof.
  induction n as [|n IH]; intros Hn.
  - split; [reflexivity|]. intros j. reflexivity.
  - destruct IH as [IHl IHj]; [lia|].
    rewrite for_range_snoc.
    set (r := for_range 0 (Z.of_nat n) toggle_byte buf) in *.
    change (toggle_byte (0 + Z.of_nat n) r)
      with (<[Z.to_nat (0 + Z.of_nat n) :=
                u8 (Z.lnot (r !!! Z.to_nat (0 + Z.of_nat n)))]> r).
    replace (Z.to_nat (0 + Z.of_nat n)) with n by lia.
    split; [rewrite length_insert; assumption|].
    intros j. destruct (decide (j = n)) as [->|Hne].
    + rewrite list_lookup_insert_eq by lia.
      rewrite list_lookup_total_alt, IHj.
      replace (n <? n)%nat with false by (symmetry; apply Nat.ltb_ge; lia).
      replace (n <? S n)%nat with true by (symmetry; apply Nat.ltb_lt; lia).
      destruct (lookup_lt_is_Some_2 buf n ltac:(lia)) as [b Hb].
      rewrite Hb. reflexivity.
    + rewrite list_lookup_insert_ne by congruence. rewrite IHj.
      destruct (Nat.ltb_spec j n), (Nat.ltb_spec j (S n)); try reflexivity; lia.
Qed.

Lemma toggle_all (buf : list Z) :
  length buf = Z.to_nat SSD1306_BUFFER_SIZE ->
  for_range 0 SSD1306_BUFFER_SIZE toggle_byte buf
  = map (fun b => u8 (Z.lnot b)) buf.
Proof.
  intros Hlen.
  replace SSD1306_BUFFER_SIZE with (Z.of_nat (length buf))
    by (rewrite Hlen; reflexivity).
  destruct (toggle_prefix buf (length buf) (le_n _)) as [_ Hj].
  apply list_eq. intros j. rewrite Hj, list_lookup_fmap.
  destruct (Nat.ltb_spec j (length buf)) as [H|H]; [reflexivity|].
  rewrite (lookup_ge_None_2 buf j) by lia. reflexivity.
Qed.

Lemma u8_lnot b : 0 <= b < 256 -> u8 (Z.lnot b) = 255 - b.
Proof.
  intros H. unfold u8, Z.lnot. change (2 ^ 8) with 256.
  replace (Z.pred (- b)) with (255 - b + (-1) * 256) by lia.
  rewrite Z.mod_add by lia. apply Z.mod_small. lia.
Qed.

Lemma toggle_bytes_twice (buf : list Z) :
  Forall (fun b => 0 <= b < 256) buf ->
  map (fun b => u8 (Z.lnot b)) (map (fun b => u8 (Z.lnot b)) buf) = buf.
Proof.
  induction 1 as [|b l Hb _ IH]; [reflexivity|].
  simpl. rewrite IH. f_equal. rewrite (u8_lnot b Hb), u8_lnot; lia.
Qed.

(** ** Claim C6 *)

(** C6.  With the device initialised, one [SSD1306_toggleInvert] returns
    [LCD_OK], replaces every byte [b] of the buffer by its complement
    [~b = 255 - b] and flips the [inverted] flag; a second call brings back
    the buffer byte for byte and the flag, indeed the whole state. *)
Theorem toggleInvert_twice (s : driver) :
  wf s -> initialized (SSD1306 s) <> 0 ->
  let r1 := SSD1306_toggleInvert s in
  let r2 := SSD1306_toggleInvert (snd r1) in
  fst r1 = LCD_OK
  /\ SSD1306_Buffer (snd r1) = map (fun b => u8 (Z.lnot b)) (SSD1306_Buffer s)
  /\ SSD1306_Buffer (snd r1) = map (fun b => 255 - b) (SSD1306_Buffer s)
  /\ inverted (SSD1306 (snd r1)) = 1 - inverted (SSD1306 s)
  /\ fst r2 = LCD_OK
  /\ SSD1306_Buffer (snd r2) = SSD1306_Buffer s
  /\ inverted (SSD1306 (snd r2)) = inverted (SSD1306 s)
  /\ snd r2 = s.
Proof.
  intros [Hlen Hbytes _ _ Hinv] Hinit.
  destruct s as [buf [p cx cy inv ini] log]. simpl in *.
  unfold SSD1306_toggleInvert. simpl.
  apply Z.eqb_neq in Hinit. rewrite Hinit. simpl. rewrite Hinit. simpl.
  rewrite (toggle_all buf Hlen).
  rewrite toggle_all by (rewrite length_map; assumption).
  rewrite (toggle_bytes_twice buf Hbytes).
  assert (Hm : map (fun b => u8 (Z.lnot b)) buf = map (fun b => 255 - b) buf).
  { apply map_ext_in. intros b Hb. apply u8_lnot.
    rewrite List.Forall_forall in Hbytes. apply Hbytes, Hb. }
  assert (Hf : lnot_c inv = 1 - inv /\ lnot_c (lnot_c inv) = inv)
    by (destruct Hinv as [-> | ->]; split; reflexivity).
  destruct Hf as [Hf1 Hf2]. rewrite Hf2.
  repeat split; auto.
Qed.

Lemma toggleInvert_twice_witness :
  let s := snd (SSD1306_drawPixel 3 4 SSD1306_COLOR_WHITE
                  (snd (SSD1306_init 0 HAL_OK power_on))) in
  snd (SSD1306_toggleInvert (snd (SSD1306_toggleInvert s))) = s.
Proof.
  intros s.
  apply (toggleInvert_twice s);
    [apply wfb_wf; vm_compute; reflexivity | vm_compute; discriminate].
Defined.

(** ** The [initialized] gate (claim C1) *)

(** C1, as the code has it.  While [initialized] is zero, [SSD1306_fill],
    [SSD1306_clear], [SSD1306_toggleInvert] and [SSD1306_updateScreen] (and
    [SSD1306_invertDisplay]) return [NO_INIT] at once and leave buffer,
    cursor, flags and bus untouched.  The pixel, shape, text and cursor
    routines have no such test: none of them ever returns [NO_INIT]. *)
Theorem not_initialized_gate (s : driver) :
  initialized (SSD1306 s) = 0 ->
  (forall color, SSD1306_fill color s = (NO_INIT, s))
  /\ SSD1306_clear s = (NO_INIT, s)
  /\ SSD1306_toggleInvert s = (NO_INIT, s)
  /\ SSD1306_updateScreen s = (NO_INIT, s)
  /\ (forall v, SSD1306_invertDisplay v s = (NO_INIT, s))
  /\ (forall x y color, fst (SSD1306_drawPixel x y color s) <> NO_INIT)
  /\ (forall x y, fst (SSD1306_gotoXY x y s) <> NO_INIT)
  /\ (forall ch font color, fst (SSD1306_putc ch font color s) <> NO_INIT)
  /\ (forall str font color, fst (SSD1306_puts str font color s) = LCD_OK)
  /\ (forall x y bitmap w h color,
        fst (SSD1306_drawBitmap x y bitmap w h color s) = LCD_OK)
  /\ (forall fuel x0 y0 x1 y1 color r,
        SSD1306_drawLine fuel x0 y0 x1 y1 color s = Some r -> fst r = LCD_OK)
  /\ (forall fuel x y w h color r,
        SSD1306_drawRectangle fuel x y w h color s = Some r -> fst r <> NO_INIT)
  /\ (forall fuel x y w h color r,
        SSD1306_drawFilledRectangle fuel x y w h color s = Some r ->
        fst r <> NO_INIT)
  /\ (forall fuel x1 y1 x2 y2 x3 y3 color r,
        SSD1306_drawTriangle fuel x1 y1 x2 y2 x3 y3 color s = Some r ->
        fst r = LCD_OK)
  /\ (forall fuel x1 y1 x2 y2 x3 y3 color r,
        SSD1306_drawFilledTriangle fuel x1 y1 x2 y2 x3 y3 color s = Some r ->
        fst r = LCD_OK)
  /\ (forall fuel x0 y0 r color res,
        SSD1306_drawCircle fuel x0 y0 r color s = Some res -> fst res = LCD_OK)
  /\ (forall fuel x0 y0 r color res,
        SSD1306_drawFilledCircle fuel x0 y0 r color s = Some res ->
        fst res = LCD_OK).
Proof.
  intros Hi.
  assert (E : (initialized (SSD1306 s) =? 0) = true) by (apply Z.eqb_eq, Hi).
  split; [intros; unfold SSD1306_fill; rewrite E; reflexivity|].
  split; [unfold SSD1306_clear; rewrite E; reflexivity|].
  split; [unfold SSD1306_toggleInvert; rewrite E; reflexivity|].
  split; [unfold SSD1306_updateScreen; rewrite E; reflexivity|].
  split; [intros; unfold SSD1306_invertDisplay; rewrite E; reflexivity|].
  clear Hi E.
  split.
  { intros x y color. unfold SSD1306_drawPixel.
    repeat match goal with |- context [if ?b then _ else _] => destruct b end;
      discriminate. }
  split.
  { intros x y. unfold SSD1306_gotoXY.
    destruct (_ || _); discriminate. }
  split.
  { intros ch font color. unfold SSD1306_putc.
    destruct (_ || _); discriminate. }
  split.
  { intros str font color. revert s.
    induction str as [|ch str IH]; intros s; simpl; [reflexivity|].
    destruct (ch =? 0); [reflexivity | apply IH]. }
  split.
  { intros x y bitmap w h color. unfold SSD1306_drawBitmap.
    destruct (for_range _ _ _ _) as [[? ?] ?]. reflexivity. }
  split.
  { intros fuel x0 y0 x1 y1 color r. unfold SSD1306_drawLine. cbv zeta.
    repeat match goal with
      | |- context [if ?b then (_, _) else (_, _)] => destruct b
      end; cbv iota beta.
    all: repeat match goal with |- context [if ?b then _ else _] => destruct b end.
    all: try (intros [= <-]; reflexivity).
    all: intros H; apply bind_Some in H as [? [_ [= <-]]]; reflexivity. }
  split.
  { intros fuel x y w h color r. unfold SSD1306_drawRectangle.
    destruct (_ || _); [intros [= <-]; discriminate|]. cbv zeta.
    intros H. repeat (apply bind_Some in H as [? [_ H]]).
    injection H as <-. discriminate. }
  split.
  { intros fuel x y w h color r. unfold SSD1306_drawFilledRectangle.
    destruct (_ || _); [intros [= <-]; discriminate|]. cbv zeta.
    intros H. apply bind_Some in H as [? [_ [= <-]]]. discriminate. }
  split.
  { intros fuel x1 y1 x2 y2 x3 y3 color r. unfold SSD1306_drawTriangle.
    intros H. repeat (apply bind_Some in H as [? [_ H]]).
    injection H as <-. reflexivity. }
  split.
  { intros fuel x1 y1 x2 y2 x3 y3 color r. unfold SSD1306_drawFilledTriangle.
    cbv zeta.
    repeat match goal with
      | |- context [if ?b then (_, _) else (_, _)] => destruct b
      end; cbv iota beta.
    all: intros H; apply bind_Some in H as [? [_ [= <-]]]; reflexivity. }
  split.
  { intros fuel x0 y0 r color res. unfold SSD1306_drawCircle. cbv zeta.
    intros H. apply bind_Some in H as [? [_ [= <-]]]. reflexivity. }
  { intros fuel x0 y0 r color res. unfold SSD1306_drawFilledCircle. cbv zeta.
    intros H. repeat (apply bind_Some in H as [? [_ H]]).
    injection H as <-. reflexivity. }
Qed.

Lemma not_initialized_gate_witness :
  SSD1306_toggleInvert power_on = (NO_INIT, power_on)
  /\ SSD1306_updateScreen power_on = (NO_INIT, power_on).
Proof.
  split; apply (not_initialized_gate power_on eq_refl).
Defined.

(** C1 as stated fails: before any initialisation [SSD1306_drawPixel]
    answers [LCD_OK] and writes the buffer, and [SSD1306_gotoXY] answers
    [LCD_OK] and moves the cursor. *)
Lemma drawPixel_before_init :
  initialized (SSD1306 power_on) = 0
  /\ fst (SSD1306_drawPixel 0 0 SSD1306_COLOR_WHITE power_on) = LCD_OK
  /\ rd (SSD1306_Buffer (snd (SSD1306_drawPixel 0 0 SSD1306_COLOR_WHITE power_on))) 0
     = 1
  /\ rd (SSD1306_Buffer power_on) 0 = 0
  /\ fst (SSD1306_gotoXY 5 6 power_on) = LCD_OK
  /\ currentX (SSD1306 (snd (SSD1306_gotoXY 5 6 power_on))) = 5.
Proof. vm_compute. repeat split; reflexivity. Qed.

(** ** [SSD1306_init] (claim C2) *)

Lemma WRITECOMMAND_fold cmds s :
  fold_left (fun acc c => SSD1306_WRITECOMMAND c acc) cmds s
  = mkDriver (SSD1306_Buffer s) (SSD1306 s)
             (bus s ++ map (fun c => command_event (u8 c)) cmds).
Proof.
  revert s. induction cmds as [|c cmds IH]; intros s.
  - simpl. rewrite app_nil_r. destruct s; reflexivity.
  - simpl. rewrite IH. simpl. rewrite <- app_assoc. reflexivity.
Qed.

(** What a successful [SSD1306_init] does, whatever the state before: the
    probe, the delay and the 29 command writes go out; the cursor is reset
    and [initialized] set.  The call of [SSD1306_clear] happens while
    [initialized] is still zero, so it returns [NO_INIT] at once: the
    buffer is not written and no page is sent. *)
Lemma init_ok_state i2c s :
  SSD1306_init i2c HAL_OK s
  = (LCD_OK,
     mkDriver (SSD1306_Buffer s)
       (mkSSD1306 i2c 0 0 (inverted (SSD1306 s)) 1)
       (bus s ++ IsDeviceReady SSD1306_I2C_ADDR 10 SSD1306_I2C_TIMEOUT
              :: Delay 10
              :: map command_event (init_commands ++ [SSD1306_DEACTIVATE_SCROLL]))).
Proof.
  unfold SSD1306_init. cbv zeta. rewrite WRITECOMMAND_fold.
  destruct s as [buf [p cx cy inv ini] log].
  unfold SSD1306_clear, SSD1306_WRITECOMMAND, SSD1306_I2C_Write, emit, set_lcd.
  simpl. rewrite <- !app_assoc. reflexivity.
Qed.

(** C2 fails on the code.  A pixel drawn before [SSD1306_init] (or left from
    an earlier session) survives a successful initialisation, and the bus
    sees commands only: no byte of the frame buffer is transmitted. *)
Theorem init_does_not_clear :
  let s0 := snd (SSD1306_drawPixel 0 0 SSD1306_COLOR_WHITE power_on) in
  let r := SSD1306_init 1 HAL_OK s0 in
  fst r = LCD_OK
  /\ initialized (SSD1306 (snd r)) = 1
  /\ rd (SSD1306_Buffer (snd r)) 0 = 1
  /\ existsb is_data_write (bus (snd r)) = false
  /\ length (bus (snd r)) = 31%nat
  /\ existsb is_data_write (bus (snd (SSD1306_init 1 HAL_OK power_on))) = false.
Proof. vm_compute. repeat split; reflexivity. Qed.

(** For comparison: once [initialized] is set, [SSD1306_clear] does zero the
    buffer and send the eight pages. *)
Lemma updateScreen_page_bus m s :
  updateScreen_page m s
  = mkDriver (SSD1306_Buffer s) (SSD1306 s) (bus s ++ page_events (SSD1306_Buffer s) m).
Proof.
  unfold updateScreen_page, SSD1306_WRITECOMMAND, SSD1306_I2C_Write,
    SSD1306_I2C_WriteMulti, emit, page_events, command_event.
  cbn [bus SSD1306_Buffer SSD1306].
  change (SSD1306_WIDTH >? SSD1306_I2C_DATATMP_SIZE) with false. cbv iota.
  rewrite <- !app_assoc. reflexivity.
Qed.

Lemma updateScreen_pages l s :
  fold_left (fun acc m => updateScreen_page m acc) l s
  = mkDriver (SSD1306_Buffer s) (SSD1306 s)
      (bus s ++ flat_map (page_events (SSD1306_Buffer s)) l).
Proof.
  revert s. induction l as [|m l IH]; intros s.
  - cbn [fold_left flat_map]. rewrite app_nil_r. destruct s; reflexivity.
  - cbn [fold_left flat_map]. rewrite IH, updateScreen_page_bus.
    cbn [bus SSD1306_Buffer SSD1306]. rewrite <- app_assoc. reflexivity.
Qed.

Lemma updateScreen_bus s :
  initialized (SSD1306 s) <> 0 ->
  SSD1306_updateScreen s
  = (LCD_OK,
     mkDriver (SSD1306_Buffer s) (SSD1306 s)
       (bus s ++ flat_map (page_events (SSD1306_Buffer s)) (seqZ 0 8))).
Proof.
  intros Hi. apply Z.eqb_neq in Hi. unfold SSD1306_updateScreen. rewrite Hi.
  unfold for_range. rewrite updateScreen_pages. reflexivity.
Qed.

Lemma clear_when_initialized s :
  initialized (SSD1306 s) <> 0 ->
  fst (SSD1306_clear s) = LCD_OK
  /\ SSD1306_Buffer (snd (SSD1306_clear s))
     = replicate (Z.to_nat SSD1306_BUFFER_SIZE) 0
  /\ existsb is_data_write (bus (snd (SSD1306_clear s))) = true.
Proof.
  intros Hi. pose proof Hi as Hi'. apply Z.eqb_neq in Hi'.
  unfold SSD1306_clear, SSD1306_fill. rewrite Hi'.
  change (SSD1306_COLOR_BLACK =? SSD1306_COLOR_BLACK) with true.
  cbv iota. cbn [fst snd].
  rewrite updateScreen_bus by exact Hi. cbn [fst snd SSD1306_Buffer bus set_buffer].
  split; [reflexivity|]. split; [reflexivity|].
  rewrite existsb_app. apply orb_true_iff. right.
  change (seqZ 0 8) with [0; 1; 2; 3; 4; 5; 6; 7]. reflexivity.
Qed.

(** ** [SSD1306_puts] (claim C3) *)

Lemma putc_rejected ch font color s :
  putc_rejects font s = true ->
  SSD1306_putc ch font color s = (INVALID_PARAMS, s).
Proof.
  unfold putc_rejects, SSD1306_putc. intros ->. reflexivity.
Qed.

Lemma putc_accepted ch font color s :
  putc_rejects font s = false ->
  fst (SSD1306_putc ch font color s) = LCD_OK.
Proof.
  unfold putc_rejects, SSD1306_putc. intros ->. reflexivity.
Qed.

(** Once the cursor leaves no room, the rest of the string changes nothing. *)
Lemma puts_stuck str font color s :
  putc_rejects font s = true ->
  SSD1306_puts str font color s = (LCD_OK, s).
Proof.
  intros H. induction str as [|ch str IH]; simpl; [reflexivity|].
  destruct (ch =? 0); [reflexivity|].
  rewrite putc_rejected by assumption. exact IH.
Qed.

(** C3, as the code has it.  [SSD1306_puts] calls [SSD1306_putc] on every
    character up to the terminator, drops each result and always returns
    [LCD_OK].  A rejected character changes nothing and, the font and the
    cursor being the same, every later one is rejected too: buffer and
    cursor end exactly as if the loop had stopped at the first failure
    ([puts_spec]), where they were after the last character that fitted. *)
Theorem puts_never_fails (str : list Z) (font : FontDef_t)
    (color : SSD1306_color_t) (s : driver) :
  fst (SSD1306_puts str font color s) = LCD_OK
  /\ snd (SSD1306_puts str font color s) = snd (puts_spec str font color s).
Proof.
  revert s. induction str as [|ch str IH]; intros s; simpl; [auto|].
  destruct (ch =? 0); [auto|].
  destruct (putc_rejects font s) eqn:E.
  - rewrite putc_rejected by assumption. simpl.
    rewrite puts_stuck by assumption. auto.
  - pose proof (putc_accepted ch font color s E) as Hok.
    destruct (SSD1306_putc ch font color s) as [st s1]. simpl in Hok. subst st.
    apply IH.
Qed.

(** C3 as stated fails: with no room left at column 125, [SSD1306_putc]
    reports [INVALID_PARAMS] but [SSD1306_puts] reports [LCD_OK], where the
    claimed behaviour ([puts_spec]) hands the failure back. *)
Lemma puts_hides_failure :
  let s := snd (SSD1306_gotoXY 125 0 power_on) in
  fst (SSD1306_putc 65 striped_7x10 SSD1306_COLOR_WHITE s) = INVALID_PARAMS
  /\ fst (SSD1306_puts [65; 66] striped_7x10 SSD1306_COLOR_WHITE s) = LCD_OK
  /\ fst (puts_spec [65; 66] striped_7x10 SSD1306_COLOR_WHITE s) = INVALID_PARAMS.
Proof. vm_compute. repeat split; reflexivity. Qed.

(** ** [SSD1306_I2C_WriteMulti] (claim C10) *)

(** C10, as the code has it.  [SSD1306_I2C_WriteMulti] returns nothing.  A
    [count] above [SSD1306_I2C_DATATMP_SIZE] is dropped: the state after the
    call is the state before it, with no transmission and no trace for the
    caller.  A [count] below [SSD1306_I2C_DATATMP_SIZE] gives one
    transmission of the control byte followed by [count] bytes, whose HAL
    result is discarded as well.  Nothing is said of
    [count = SSD1306_I2C_DATATMP_SIZE], where the frame does not fit
    [data_tmp]. *)
Theorem WriteMulti_oversize_dropped (addr reg : Z) (data : list Z) (count : Z)
    (s : driver) :
  (count > SSD1306_I2C_DATATMP_SIZE ->
   SSD1306_I2C_WriteMulti addr reg data count s = s)
  /\ (0 <= count < SSD1306_I2C_DATATMP_SIZE ->
      SSD1306_I2C_WriteMulti addr reg data count s
      = mkDriver (SSD1306_Buffer s) (SSD1306 s)
          (bus s ++ [MasterTransmit addr (reg :: take (Z.to_nat count) data)
                       SSD1306_I2C_TIMEOUT])).
Proof.
  unfold SSD1306_I2C_WriteMulti. split; intros H.
  - destruct (Z.gtb_spec count SSD1306_I2C_DATATMP_SIZE); [reflexivity | lia].
  - destruct (Z.gtb_spec count SSD1306_I2C_DATATMP_SIZE); [lia | reflexivity].
Qed.

Lemma WriteMulti_oversize_dropped_witness :
  SSD1306_I2C_WriteMulti SSD1306_I2C_ADDR 0x40 (replicate 300 0xFF) 300 power_on
  = power_on.
Proof.
  apply (WriteMulti_oversize_dropped SSD1306_I2C_ADDR 0x40 (replicate 300 0xFF)
           300 power_on).
  unfold SSD1306_I2C_DATATMP_SIZE. lia.
Defined.

(** C10 as stated fails: a 300-byte write is dropped without a transmission,
    and the state the caller gets back is the one it passed in. *)
Lemma WriteMulti_silent_drop :
  let s := snd (SSD1306_init 0 HAL_OK power_on) in
  SSD1306_I2C_WriteMulti SSD1306_I2C_ADDR 0x40 (replicate 300 0xFF) 300 s = s
  /\ bus (SSD1306_I2C_WriteMulti SSD1306_I2C_ADDR 0x40 (replicate 300 0xFF) 300 s)
     = bus s.
Proof. vm_compute. split; reflexivity. Qed.

(** ** [SSD1306_putc] (claim C5) *)

Lemma putc_col_plot b i color j s :
  putc_col b i color j s
  = snd (SSD1306_drawPixel (u16 (currentX (SSD1306 s) + j))
           (u16 (currentY (SSD1306 s) + i)) (glyph_color b j color) s).
Proof. unfold putc_col, glyph_color. destruct (glyph_bit b j); reflexivity. Qed.

Lemma putc_cols_plot l b i color s :
  fold_left (fun acc j => putc_col b i color j acc) l s
  = plot_all
      (map (fun j => (u16 (currentX (SSD1306 s) + j), u16 (currentY (SSD1306 s) + i),
                      glyph_color b j color)) l) s.
Proof.
  revert s. induction l as [|j l IH]; intros s; [reflexivity|].
  cbn [fold_left map]. rewrite plot_all_cons. cbn [fst snd].
  rewrite IH, putc_col_plot, drawPixel_lcd. reflexivity.
Qed.

Lemma putc_row_plot ch font color i s :
  putc_row ch font color i s
  = plot_all (putc_row_plots (SSD1306 s) font ch color i) s.
Proof.
  unfold putc_row, for_range. rewrite putc_cols_plot. reflexivity.
Qed.

Lemma putc_rows_plot rows ch font color s :
  fold_left (fun acc i => putc_row ch font color i acc) rows s
  = plot_all (putc_plots (SSD1306 s) font ch color rows) s.
Proof.
  revert s. induction rows as [|i rows IH]; intros s; [reflexivity|].
  cbn [fold_left]. unfold putc_plots. cbn [flat_map]. rewrite plot_all_app.
  rewrite IH, putc_row_plot, plot_all_lcd. reflexivity.
Qed.

Lemma lnot_c_is_color c : is_color (lnot_c c).
Proof.
  unfold is_color, lnot_c, SSD1306_COLOR_BLACK, SSD1306_COLOR_WHITE.
  destruct (c =? 0); auto.
Qed.

Lemma glyph_color_is_color b j color : is_color color -> is_color (glyph_color b j color).
Proof.
  intros H. unfold glyph_color. destruct (glyph_bit b j);
    [assumption | apply lnot_c_is_color].
Qed.

Lemma in_putc_plots lcd font ch color lo n t :
  In t (putc_plots lcd font ch color (seqZ lo n)) <->
  exists i j, lo <= i < lo + n /\ 0 <= j < fontWidth font
    /\ t = (u16 (currentX lcd + j), u16 (currentY lcd + i),
            glyph_color (glyph_row font ch i) j color).
Proof.
  unfold putc_plots. rewrite in_flat_map. split.
  - intros [i [Hi Ht]]. apply list_elem_of_In, elem_of_seqZ in Hi.
    apply in_map_seqZ in Ht as [j [Hj ->]]. exists i, j. repeat split; lia.
  - intros [i [j [Hi [Hj ->]]]]. exists i. split.
    + apply list_elem_of_In, elem_of_seqZ. lia.
    + apply in_map_seqZ. exists j. split; [lia | reflexivity].
Qed.

(** Glyph rows are read from bit 15 down: column [j] is bit [15 - j]. *)
Lemma glyph_bit_msb_first b j : 0 <= j -> glyph_bit b j = Z.testbit b (15 - j).
Proof.
  intros Hj. unfold glyph_bit. change 0x8000 with (2 ^ 15).
  rewrite <- (Z.shiftl_spec b j 15) by lia.
  destruct (Z.testbit (Z.shiftl b j) 15) eqn:E.
  - apply negb_true_iff, Z.eqb_neq. intros H.
    assert (H' : Z.testbit (Z.land (Z.shiftl b j) (2 ^ 15)) 15 = false)
      by (rewrite H; apply Z.bits_0).
    rewrite Z.land_spec, E, Z.pow2_bits_true in H' by lia. discriminate.
  - apply negb_false_iff, Z.eqb_eq. apply Z.bits_inj'. intros n Hn.
    rewrite Z.land_spec, Z.bits_0, Z.pow2_bits_eqb by lia.
    destruct (Z.eqb_spec 15 n) as [<-|_]; [rewrite E; reflexivity|].
    apply andb_false_r.
Qed.

Lemma putc_accepted_state ch font color s :
  putc_rejects font s = false ->
  SSD1306_putc ch font color s
  = (LCD_OK,
     let s1 := plot_all (putc_plots (SSD1306 s) font ch color
                           (seqZ 0 (fontHeight font))) s in
     set_lcd (set_currentX (u16 (currentX (SSD1306 s1) + fontWidth font))
                           (SSD1306 s1)) s1).
Proof.
  intros H. unfold SSD1306_putc. fold (putc_rejects font s). rewrite H.
  unfold for_range. rewrite putc_rows_plot. reflexivity.
Qed.

(** A glyph row shifted by less than 16 places stays inside [int]: the
    shifts of [SSD1306_putc] for a font at most 16 wide are all defined. *)
Lemma glyph_shift_in_int b j :
  0 <= b < 2 ^ 16 -> 0 <= j < 16 -> 0 <= Z.shiftl b j < 2 ^ 31.
Proof.
  intros Hb Hj. rewrite Z.shiftl_mul_pow2 by lia.
  assert (H1 : 0 < 2 ^ j) by (apply Z.pow_pos_nonneg; lia).
  assert (H2 : 2 ^ j <= 2 ^ 15) by (apply Z.pow_le_mono_r; lia).
  change (2 ^ 16) with 65536 in Hb. change (2 ^ 15) with 32768 in H2.
  change (2 ^ 31) with 2147483648. nia.
Qed.

(** X24.  [SSD1306_putc] draws the glyph.  For a font at most 16 wide (the
    16 bits of a glyph row) whose box ends inside the panel,
    [currentX + fontWidth < SSD1306_WIDTH] and
    [currentY + fontHeight < SSD1306_HEIGHT], it returns [LCD_OK]; every
    shift [b << j] it performs stays inside [int]; every pixel of the glyph
    box takes the (effective) colour [color] where the bit of the glyph row
    is set and [!color] where it is not, the pixels outside the box keep
    their value, the cursor's X advances by [fontWidth] and nothing else
    moves.  When the box would pass the right or bottom edge it returns
    [INVALID_PARAMS] and changes nothing. *)
Theorem putc_draws_glyph (ch : Z) (font : FontDef_t) (color : SSD1306_color_t)
    (s : driver) :
  wf s -> is_color color ->
  0 <= fontWidth font <= 16 -> 0 <= fontHeight font < 256 ->
  let cx := currentX (SSD1306 s) in
  let cy := currentY (SSD1306 s) in
  let fw := fontWidth font in
  let fh := fontHeight font in
  (SSD1306_WIDTH < cx + fw \/ SSD1306_HEIGHT < cy + fh ->
   SSD1306_putc ch font color s = (INVALID_PARAMS, s))
  /\ (forall i j, 0 <= i < fh -> 0 <= j < fw ->
        0 <= Z.shiftl (glyph_row font ch i) j < 2 ^ 31)
  /\ (cx + fw < SSD1306_WIDTH /\ cy + fh < SSD1306_HEIGHT ->
      let s' := snd (SSD1306_putc ch font color s) in
      fst (SSD1306_putc ch font color s) = LCD_OK
      /\ currentX (SSD1306 s') = cx + fw
      /\ currentY (SSD1306 s') = cy
      /\ inverted (SSD1306 s') = inverted (SSD1306 s)
      /\ initialized (SSD1306 s') = initialized (SSD1306 s)
      /\ bus s' = bus s
      /\ forall px py, in_panel px py ->
           get_pixel s' px py
           = if (cx <=? px) && (px <? cx + fw) && (cy <=? py) && (py <? cy + fh)
             then effective_color
                    (glyph_color (glyph_row font ch (py - cy)) (px - cx) color) s
                  =? SSD1306_COLOR_WHITE
             else get_pixel s px py).
Proof.
  intros Hwf Hc Hfw Hfh cx cy fw fh.
  destruct Hwf as [Hlen _ Hcx Hcy _]. fold cx in Hcx. fold cy in Hcy.
  assert (Hrej : SSD1306_WIDTH <= cx + fw \/ SSD1306_HEIGHT <= cy + fh ->
                 putc_rejects font s = true).
  { unfold putc_rejects. fold cx cy fw fh. intros [H | H].
    - apply orb_true_iff. left. apply Z.leb_le, H.
    - apply orb_true_iff. right. apply Z.leb_le, H. }
  assert (Hacc : cx + fw < SSD1306_WIDTH /\ cy + fh < SSD1306_HEIGHT ->
                 putc_rejects font s = false).
  { unfold putc_rejects. fold cx cy fw fh. intros [H1 H2].
    apply orb_false_iff. split; apply Z.leb_gt; assumption. }
  split; [|split].
  - intros H. apply putc_rejected, Hrej. destruct H; [left | right]; lia.
  - intros i j Hi Hj. apply glyph_shift_in_int; [|fold fw in Hfw; lia].
    unfold glyph_row. pose proof (u16_range (data font ((ch - 32) * fontHeight font + i))).
    change (2 ^ 16) with 65536. lia.
  - intros [Hw Hh] s'. specialize (Hacc (conj Hw Hh)).
    subst s'. rewrite (putc_accepted_state ch font color s Hacc). cbv zeta.
    set (L := putc_plots (SSD1306 s) font ch color (seqZ 0 (fontHeight font))).
    split; [reflexivity|].
    cbn [snd set_lcd SSD1306 bus set_currentX currentX currentY
             inverted initialized].
    rewrite plot_all_lcd, plot_all_bus. fold cx fw.
    split; [apply u16_small; unfold SSD1306_WIDTH in *; lia|].
    do 4 (split; [reflexivity|]).
    intros px py Hp.
    change (get_pixel (mkDriver (SSD1306_Buffer (plot_all L s))
                         (mkSSD1306 (i2c_ptr (SSD1306 s)) (u16 (cx + fw))
                            (currentY (SSD1306 s)) (inverted (SSD1306 s))
                            (initialized (SSD1306 s)))
                         (bus s)) px py)
      with (get_pixel (plot_all L s) px py).
    assert (Hok : Forall plot_ok L).
    { apply List.Forall_forall. intros t Ht.
      apply in_putc_plots in Ht as [i [j [_ [_ ->]]]]. unfold plot_ok. cbn [fst snd].
      pose proof (u16_range (currentX (SSD1306 s) + j)).
      pose proof (u16_range (currentY (SSD1306 s) + i)).
      repeat split; try lia. apply glyph_color_is_color, Hc. }
    assert (Hcoord : forall t, In t L -> hits px py t ->
              exists i j, 0 <= i < fh /\ 0 <= j < fw
                /\ px = cx + j /\ py = cy + i
                /\ snd t = glyph_color (glyph_row font ch i) j color).
    { intros t Ht [H1 H2]. apply in_putc_plots in Ht as [i [j [Hi [Hj ->]]]].
      cbn [fst snd] in *. fold cx in H1. fold cy in H2.
      rewrite u16_small in H1 by (unfold SSD1306_WIDTH in *; lia).
      rewrite u16_small in H2 by (unfold SSD1306_HEIGHT in *; fold fh in Hi; lia).
      exists i, j. repeat split; first [lia | reflexivity]. }
    destruct ((cx <=? px) && (px <? cx + fw) && (cy <=? py) && (py <? cy + fh)) eqn:E.
    + apply andb_prop in E as [E E4]. apply andb_prop in E as [E E3].
      apply andb_prop in E as [E1 E2].
      apply Z.leb_le in E1, E3. apply Z.ltb_lt in E2, E4.
      apply plot_all_hit; try assumption.
      * exists (u16 (cx + (px - cx)), u16 (cy + (py - cy)),
                glyph_color (glyph_row font ch (py - cy)) (px - cx) color).
        split.
        -- apply in_putc_plots. exists (py - cy), (px - cx).
           fold fh fw. repeat split; lia.
        -- unfold hits. cbn [fst snd]. destruct Hp as [Hpx Hpy].
           rewrite !u16_small by (unfold SSD1306_WIDTH, SSD1306_HEIGHT in *; lia).
           split; lia.
      * intros t Ht Hit. destruct (Hcoord t Ht Hit) as [i [j [_ [_ [-> [-> ->]]]]]].
        replace (cy + i - cy) with i by lia. replace (cx + j - cx) with j by lia.
        reflexivity.
    + apply plot_all_frame; try assumption.
      intros t Ht Hit. destruct (Hcoord t Ht Hit) as [i [j [Hi [Hj [-> [-> _]]]]]].
      revert E. bool_cases.
Qed.

Lemma putc_draws_glyph_witness :
  let s := snd (SSD1306_gotoXY 10 20 power_on) in
  let s' := snd (SSD1306_putc 65 striped_7x10 SSD1306_COLOR_WHITE s) in
  currentX (SSD1306 s') = 17 /\ get_pixel s' 10 20 = true /\ get_pixel s' 11 20 = false.
Proof.
  intros s s'.
  destruct (putc_draws_glyph 65 striped_7x10 SSD1306_COLOR_WHITE s
              (wfb_wf s eq_refl) (or_intror eq_refl)
              ltac:(simpl; lia) ltac:(simpl; lia)) as [_ [_ H]].
  destruct H as [_ [H1 [_ [_ [_ [_ H2]]]]]]; [vm_compute; split; reflexivity|].
  split; [exact H1|]. fold s' in H2.
  split; rewrite H2 by (vm_compute; repeat split; discriminate); reflexivity.
Defined.

(** C5 fails on the code.  With the cursor at column 121 of row 0, a glyph
    of the 7 x 10 font covers columns 121 to 127 and rows 0 to 9: its box
    does not exceed the panel, and the claim has [SSD1306_putc] draw it.
    The guard tests [SSD1306_WIDTH <= currentX + fontWidth], one column too
    early, and the call returns [INVALID_PARAMS] with nothing drawn.  The
    same happens one row too early at the bottom edge, with the cursor at
    row 54. *)
Lemma putc_rejects_fitting_glyph :
  let s := snd (SSD1306_gotoXY 121 0 power_on) in
  let s2 := snd (SSD1306_gotoXY 0 54 power_on) in
  currentX (SSD1306 s) + fontWidth striped_7x10 - 1 = SSD1306_WIDTH - 1
  /\ currentY (SSD1306 s) + fontHeight striped_7x10 - 1 < SSD1306_HEIGHT
  /\ SSD1306_putc 65 striped_7x10 SSD1306_COLOR_WHITE s = (INVALID_PARAMS, s)
  /\ currentY (SSD1306 s2) + fontHeight striped_7x10 - 1 = SSD1306_HEIGHT - 1
  /\ SSD1306_putc 65 striped_7x10 SSD1306_COLOR_WHITE s2 = (INVALID_PARAMS, s2).
Proof. vm_compute. repeat split; reflexivity. Qed.

(** ** Circles (claim C9) *)

Lemma circle_plot8_plots x0 y0 x y color s :
  circle_plot8 x0 y0 x y color s
  = plot_all (circle_plots x0 y0 (offsets8 x y) color) s.
Proof. reflexivity. Qed.

Lemma circle_plot4_plots x0 y0 r color s :
  snd (SSD1306_drawPixel (u16 (x0 - r)) (u16 y0) color
    (snd (SSD1306_drawPixel (u16 (x0 + r)) (u16 y0) color
      (snd (SSD1306_drawPixel (u16 x0) (u16 (y0 - r)) color
        (snd (SSD1306_drawPixel (u16 x0) (u16 (y0 + r)) color s)))))))
  = plot_all (circle_plots x0 y0 (offsets4 r) color) s.
Proof.
  unfold circle_plots, offsets4, plot_all. cbn [map fold_left fst snd].
  rewrite !Z.add_0_r. reflexivity.
Qed.

(** *** Reflections and [uint16_t] wrap-around *)

Lemma reflects_refl a b : reflects a b a b.
Proof. left. auto. Qed.

Lemma reflects_bounds r a b a' b' :
  reflects a b a' b' -> - r <= a <= r -> - r <= b <= r ->
  - r <= a' <= r /\ - r <= b' <= r.
Proof. unfold reflects. lia. Qed.

Ltac pick_in := cbn [In]; repeat (first [left; reflexivity | right]).

Lemma closed8_offsets8 x y : closed8 (offsets8 x y).
Proof.
  intros [dx dy] a' b' Hin Hr. unfold offsets8 in *. cbn [In] in Hin.
  cbn [fst snd] in Hr. unfold reflects in Hr.
  repeat match goal with
    | H : _ \/ _ |- _ => destruct H
    | H : _ /\ _ |- _ => destruct H
    | H : (_, _) = (_, _) |- _ => injection H as <- <-
    | H : False |- _ => destruct H
    end; subst; rewrite ?Z.opp_involutive; pick_in.
Qed.

Lemma closed8_offsets4 r : closed8 (offsets4 r).
Proof.
  intros [dx dy] a' b' Hin Hr. unfold offsets4 in *. cbn [In] in Hin.
  cbn [fst snd] in Hr. unfold reflects in Hr.
  repeat match goal with
    | H : _ \/ _ |- _ => destruct H
    | H : _ /\ _ |- _ => destruct H
    | H : (_, _) = (_, _) |- _ => injection H as <- <-
    | H : False |- _ => destruct H
    end; subst; rewrite ?Z.opp_involutive; change (- 0) with 0; pick_in.
Qed.

Lemma bounded_offsets8 r x y :
  0 <= x <= r -> 0 <= y <= r -> bounded r (offsets8 x y).
Proof.
  intros Hx Hy d Hd. unfold offsets8 in Hd. cbn [In] in Hd.
  repeat match goal with
    | H : _ \/ _ |- _ => destruct H
    | H : False |- _ => destruct H
    end; subst; cbn [fst snd]; lia.
Qed.

Lemma bounded_offsets4 r : 0 <= r -> bounded r (offsets4 r).
Proof.
  intros Hr d Hd. unfold offsets4 in Hd. cbn [In] in Hd.
  repeat match goal with
    | H : _ \/ _ |- _ => destruct H
    | H : False |- _ => destruct H
    end; subst; cbn [fst snd]; lia.
Qed.

Lemma cong16_of_u16 x0 a d : u16 (x0 + d) = x0 + a -> cong16 a d.
Proof.
  unfold u16, cong16. change (2 ^ 16) with 65536. intros H.
  exists (- ((x0 + d) / 65536)).
  pose proof (Z.div_mod (x0 + d) 65536 ltac:(lia)). lia.
Qed.

Lemma u16_of_cong16 x0 a d :
  cong16 a d -> 0 <= x0 + a < 65536 -> u16 (x0 + d) = x0 + a.
Proof.
  unfold cong16. intros [k Hk] Hr.
  rewrite <- (u16_small (x0 + a)) by assumption.
  apply u16_congr. replace (x0 + d - (x0 + a)) with (- k * 65536) by lia.
  apply Z.mod_mul. lia.
Qed.

Lemma cong16_opp a d : cong16 a d -> cong16 (- a) (- d).
Proof.
  unfold cong16. intros [k Hk]. exists (- k). lia.
Qed.

Lemma reflects_cong a b a' b' dx dy :
  reflects a b a' b' -> cong16 a dx -> cong16 b dy ->
  exists dx' dy', reflects dx dy dx' dy' /\ cong16 a' dx' /\ cong16 b' dy'.
Proof.
  intros Hr Ha Hb. pose proof (cong16_opp a dx Ha). pose proof (cong16_opp b dy Hb).
  unfold reflects in *.
  destruct Hr as [[[-> | ->] [-> | ->]] | [[-> | ->] [-> | ->]]];
    eexists; eexists; (split; [|split; eassumption]); tauto.
Qed.

(** Writing white on a non-inverted display only lights pixels. *)
Lemma plot_white L s px py :
  length (SSD1306_Buffer s) = Z.to_nat SSD1306_BUFFER_SIZE ->
  Forall plot_ok L -> (forall t, In t L -> snd t = SSD1306_COLOR_WHITE) ->
  inverted (SSD1306 s) = 0 -> in_panel px py ->
  get_pixel (plot_all L s) px py = true
  <-> (exists t, In t L /\ hits px py t) \/ get_pixel s px py = true.
Proof.
  intros Hlen Hok Hw Hinv Hp.
  destruct (classic_hit L px py) as [Hhit | Hno].
  - rewrite (plot_all_hit L s px py SSD1306_COLOR_WHITE) by auto.
    unfold effective_color. rewrite Hinv. simpl. tauto.
  - rewrite plot_all_frame by assumption. split; [auto|].
    intros [[t [Hin Hh]] | H]; [exfalso; eapply Hno; eauto | assumption].
Qed.

Lemma circle_step_xy f ddF_x ddF_y x y :
  0 <= x -> x < y -> y < 32768 ->
  exists f' ddF_x' ddF_y' y',
    circle_step f ddF_x ddF_y x y = (f', ddF_x', ddF_y', x + 1, y')
    /\ (y' = y \/ y' = y - 1).
Proof.
  intros Hx Hxy Hy. unfold circle_step.
  rewrite (s16_small (x + 1)) by lia.
  destruct (f >=? 0).
  - rewrite (s16_small (y - 1)) by lia. repeat eexists. right. reflexivity.
  - repeat eexists. left. reflexivity.
Qed.

(** *** A circle about [(x0, y0)] *)

Section Circle.
Variables x0 y0 : Z.

Lemma circle_plots_ok offs :
  Forall plot_ok (circle_plots x0 y0 offs SSD1306_COLOR_WHITE).
Proof.
  apply List.Forall_forall. intros t Ht. unfold circle_plots in Ht.
  apply in_map_iff in Ht as [d [<- _]]. unfold plot_ok. cbn [fst snd].
  pose proof (u16_range (x0 + fst d)). pose proof (u16_range (y0 + snd d)).
  repeat split; try lia. right. reflexivity.
Qed.

Lemma circle_plots_white offs t :
  In t (circle_plots x0 y0 offs SSD1306_COLOR_WHITE) -> snd t = SSD1306_COLOR_WHITE.
Proof.
  unfold circle_plots. intros Ht. apply in_map_iff in Ht as [d [<- _]]. reflexivity.
Qed.

(** Plotting a reflection-closed set of offsets keeps the picture symmetric. *)
Lemma sym8_plot offs s :
  length (SSD1306_Buffer s) = Z.to_nat SSD1306_BUFFER_SIZE ->
  inverted (SSD1306 s) = 0 -> closed8 offs -> sym8 x0 y0 s ->
  sym8 x0 y0 (plot_all (circle_plots x0 y0 offs SSD1306_COLOR_WHITE) s).
Proof.
  intros Hlen Hinv Hcl Hsym a b a' b' Hr [Hp Hset] Hp'.
  split; [assumption|].
  pose proof (circle_plots_ok offs) as Hok.
  pose proof (circle_plots_white offs) as Hw.
  apply plot_white; try assumption.
  apply plot_white in Hset; try assumption.
  destruct Hset as [[t [Hin [H1 H2]]] | Hold].
  - left. unfold circle_plots in Hin. apply in_map_iff in Hin as [[dx dy] [<- Hd]].
    cbn [fst snd] in H1, H2.
    apply cong16_of_u16 in H1, H2.
    destruct (reflects_cong a b a' b' dx dy Hr H1 H2) as [dx' [dy' [Hr' [Ca Cb]]]].
    exists (u16 (x0 + dx'), u16 (y0 + dy'), SSD1306_COLOR_WHITE). split.
    + unfold circle_plots. apply in_map_iff. exists (dx', dy'). split; [reflexivity|].
      apply (Hcl (dx, dy)); assumption.
    + unfold hits. cbn [fst snd]. destruct Hp' as [Hx Hy].
      unfold SSD1306_WIDTH, SSD1306_HEIGHT in *.
      split; apply u16_of_cong16; (assumption || lia).
  - right. apply (Hsym a b a' b' Hr (conj Hp Hold) Hp').
Qed.

Lemma sym8_blank s :
  SSD1306_Buffer s = replicate (Z.to_nat SSD1306_BUFFER_SIZE) 0 -> sym8 x0 y0 s.
Proof.
  intros Hb a b a' b' _ [Hp Hset] _.
  rewrite (get_pixel_blank s _ _ Hb Hp) in Hset. discriminate.
Qed.

(** The loop of [SSD1306_drawCircle] ends, given fuel above [y - x], and
    keeps the picture symmetric. *)
Lemma drawCircle_loop_sym fuel :
  forall f ddF_x ddF_y x y s,
    length (SSD1306_Buffer s) = Z.to_nat SSD1306_BUFFER_SIZE ->
    inverted (SSD1306 s) = 0 -> sym8 x0 y0 s ->
    0 <= x -> y < 32768 -> (Z.to_nat (y - x) < fuel)%nat ->
    exists s',
      drawCircle_loop fuel x0 y0 f ddF_x ddF_y x y SSD1306_COLOR_WHITE s = Some s'
      /\ SSD1306 s' = SSD1306 s /\ bus s' = bus s /\ sym8 x0 y0 s'.
Proof.
  induction fuel as [|fuel IH]; intros f ddF_x ddF_y x y s Hlen Hinv Hsym Hx Hy Hf;
    [lia|].
  cbn [drawCircle_loop].
  destruct (Z.ltb_spec x y) as [Hxy | Hxy]; [|exists s; auto].
  destruct (circle_step_xy f ddF_x ddF_y x y Hx Hxy Hy)
    as [f' [ddF_x' [ddF_y' [y' [-> Hy']]]]].
  rewrite circle_plot8_plots.
  set (s1 := plot_all (circle_plots x0 y0 (offsets8 (x + 1) y') SSD1306_COLOR_WHITE) s).
  destruct (IH f' ddF_x' ddF_y' (x + 1) y' s1) as [s' [Hs' [Hl [Hb Hsym']]]].
  - unfold s1. rewrite plot_all_length. assumption.
  - unfold s1. rewrite plot_all_lcd. assumption.
  - unfold s1. apply sym8_plot; auto using closed8_offsets8.
  - lia.
  - lia.
  - lia.
  - exists s'. split; [assumption|]. unfold s1 in Hl, Hb.
    rewrite plot_all_lcd in Hl. rewrite plot_all_bus in Hb. auto.
Qed.

(** A circle of radius [r] that stays clear of the left and top edges. *)
Section Unclipped.
Variable r : Z.
Hypothesis Hr : 0 <= r <= x0.
Hypothesis Hy0 : r <= y0.
Hypothesis Hxr : x0 + r < 65536.
Hypothesis Hyr : y0 + r < 65536.

Lemma within_blank s :
  SSD1306_Buffer s = replicate (Z.to_nat SSD1306_BUFFER_SIZE) 0 -> within x0 y0 r s.
Proof.
  intros Hb px py [Hp Hset].
  rewrite (get_pixel_blank s _ _ Hb Hp) in Hset. discriminate.
Qed.

(** Plotting offsets no larger than [r], from a centre at least [r] away
    from the left and top edges, keeps the picture within [r]. *)
Lemma within_plot offs s :
  length (SSD1306_Buffer s) = Z.to_nat SSD1306_BUFFER_SIZE ->
  inverted (SSD1306 s) = 0 ->
  bounded r offs -> within x0 y0 r s ->
  within x0 y0 r (plot_all (circle_plots x0 y0 offs SSD1306_COLOR_WHITE) s).
Proof using Hr Hy0 Hxr Hyr.
  intros Hlen Hinv Hbd Hin px py [Hp Hset].
  apply plot_white in Hset;
    [| assumption | apply circle_plots_ok | apply circle_plots_white
     | assumption | assumption].
  destruct Hset as [[t [Ht [H1 H2]]] | Hold].
  - unfold circle_plots in Ht. apply in_map_iff in Ht as [d [<- Hd]].
    cbn [fst snd] in H1, H2. destruct (Hbd d Hd) as [B1 B2].
    rewrite u16_small in H1, H2 by lia. lia.
  - apply Hin. split; assumption.
Qed.

Lemma drawCircle_loop_within fuel :
  forall f ddF_x ddF_y x y s s',
    length (SSD1306_Buffer s) = Z.to_nat SSD1306_BUFFER_SIZE ->
    inverted (SSD1306 s) = 0 -> within x0 y0 r s ->
    0 <= x -> y <= r -> y < 32768 ->
    drawCircle_loop fuel x0 y0 f ddF_x ddF_y x y SSD1306_COLOR_WHITE s = Some s' ->
    within x0 y0 r s'.
Proof using Hr Hy0 Hxr Hyr.
  induction fuel as [|fuel IH];
    intros f ddF_x ddF_y x y s s' Hlen Hinv Hin Hx Hyle Hy Hrun; [discriminate|].
  cbn [drawCircle_loop] in Hrun.
  destruct (Z.ltb_spec x y) as [Hxy | Hxy]; [|injection Hrun as <-; assumption].
  destruct (circle_step_xy f ddF_x ddF_y x y Hx Hxy Hy)
    as [f' [ddF_x' [ddF_y' [y' [E Hy']]]]].
  rewrite E, circle_plot8_plots in Hrun.
  eapply IH; [| | | | | |exact Hrun].
  - rewrite plot_all_length. assumption.
  - rewrite plot_all_lcd. assumption.
  - apply within_plot; try assumption. apply bounded_offsets8; lia.
  - lia.
  - lia.
  - lia.
Qed.
End Unclipped.
End Circle.

(** C9, as the code has it.  On an all-zero buffer with [inverted] clear,
    [SSD1306_drawCircle(x0, y0, r, SSD1306_COLOR_WHITE)] returns [LCD_OK]
    (given fuel above [r]), and the pixels it leaves lit are symmetric about
    [(x0, y0)] as far as the panel goes: whenever the pixel at offset
    [(a, b)] is lit, so is each of its images [(±a, ±b)], [(±b, ±a)] that
    lies inside the panel.  Images outside the panel are rejected one by one
    by [SSD1306_drawPixel].  For a circle that the panel does not clip
    ([r <= x0], [x0 + r < SSD1306_WIDTH], [r <= y0],
    [y0 + r < SSD1306_HEIGHT]) all eight images are lit. *)
Theorem drawCircle_symmetric (fuel : nat) (x0 y0 r : Z) (s : driver) :
  SSD1306_Buffer s = replicate (Z.to_nat SSD1306_BUFFER_SIZE) 0 ->
  inverted (SSD1306 s) = 0 ->
  -32768 <= r < 32768 -> (Z.to_nat r < fuel)%nat ->
  exists s',
    SSD1306_drawCircle fuel x0 y0 r SSD1306_COLOR_WHITE s = Some (LCD_OK, s')
    /\ SSD1306 s' = SSD1306 s /\ bus s' = bus s
    /\ (forall a b a' b',
          reflects a b a' b' ->
          pixel_set s' (x0 + a) (y0 + b) ->
          in_panel (x0 + a') (y0 + b') ->
          pixel_set s' (x0 + a') (y0 + b'))
    /\ (0 <= r <= x0 /\ x0 + r < SSD1306_WIDTH
        /\ r <= y0 /\ y0 + r < SSD1306_HEIGHT ->
        forall a b a' b',
          reflects a b a' b' ->
          pixel_set s' (x0 + a) (y0 + b) ->
          pixel_set s' (x0 + a') (y0 + b')).
Proof.
  intros Hb Hinv Hr Hfuel.
  assert (Hlen : length (SSD1306_Buffer s) = Z.to_nat SSD1306_BUFFER_SIZE)
    by (rewrite Hb; apply length_replicate).
  unfold SSD1306_drawCircle. cbv zeta. rewrite circle_plot4_plots.
  set (s1 := plot_all (circle_plots x0 y0 (offsets4 r) SSD1306_COLOR_WHITE) s).
  assert (Hlen1 : length (SSD1306_Buffer s1) = Z.to_nat SSD1306_BUFFER_SIZE)
    by (unfold s1; rewrite plot_all_length; assumption).
  assert (Hinv1 : inverted (SSD1306 s1) = 0)
    by (unfold s1; rewrite plot_all_lcd; assumption).
  destruct (drawCircle_loop_sym x0 y0 fuel (s16 (1 - r)) 1 (s16 (-2 * r)) 0 r s1)
    as [s' [Hs' [Hl [Hbus Hsym]]]]; try assumption; try lia.
  - unfold s1. apply sym8_plot; auto using closed8_offsets4, sym8_blank.
  - exists s'. rewrite Hs'. split; [reflexivity|]. unfold s1 in Hl, Hbus.
    rewrite plot_all_lcd in Hl. rewrite plot_all_bus in Hbus.
    do 3 (split; [assumption|]).
    intros [Hr0 [Hxr [Hy0 Hyr]]] a b a' b' Hrf Hset.
    apply (Hsym a b a' b' Hrf Hset).
    assert (Hw : within x0 y0 r s').
    { unfold SSD1306_WIDTH, SSD1306_HEIGHT in *.
      apply (drawCircle_loop_within x0 y0 r Hr0 Hy0 ltac:(lia) ltac:(lia) fuel
               (s16 (1 - r)) 1 (s16 (-2 * r)) 0 r s1 s'); try assumption; try lia.
      unfold s1. apply within_plot; try assumption; try lia.
      - apply bounded_offsets4. lia.
      - apply within_blank, Hb. }
    destruct (Hw _ _ Hset) as [Ba Bb].
    destruct (reflects_bounds r a b a' b' Hrf ltac:(lia) ltac:(lia)) as [Ba' Bb'].
    unfold in_panel, SSD1306_WIDTH, SSD1306_HEIGHT in *. lia.
Qed.

Lemma drawCircle_symmetric_witness :
  exists s',
    SSD1306_drawCircle 6 2 30 5 SSD1306_COLOR_WHITE power_on = Some (LCD_OK, s')
    /\ (pixel_set s' (2 + 5) (30 + 0) -> pixel_set s' (2 + 0) (30 + -5)).
Proof.
  destruct (drawCircle_symmetric 6 2 30 5 power_on eq_refl eq_refl
              ltac:(lia) ltac:(simpl; lia)) as [s' [H1 [_ [_ [H2 _]]]]].
  exists s'. split; [exact H1|]. intros Hset.
  apply (H2 5 0 0 (-5)).
  - right. split; [left | right]; reflexivity.
  - exact Hset.
  - unfold in_panel, SSD1306_WIDTH, SSD1306_HEIGHT. lia.
Defined.

(** C9 as stated fails for a circle that the panel clips: the circle of
    radius 5 about [(2, 30)] lights [(7, 30)], the image of offset [(5, 0)],
    but the image of offset [(-5, 0)] is [(-3, 30)], which is no pixel of
    the panel and is not lit. *)
Lemma drawCircle_clipped :
  exists s',
    SSD1306_drawCircle 6 2 30 5 SSD1306_COLOR_WHITE power_on = Some (LCD_OK, s')
    /\ pixel_set s' (2 + 5) (30 + 0)
    /\ ~ pixel_set s' (2 + -5) (30 + 0).
Proof.
  eexists. split; [vm_compute; reflexivity|]. split.
  - split; [unfold in_panel, SSD1306_WIDTH, SSD1306_HEIGHT; lia | reflexivity].
  - intros [[H _] _]. lia.
Qed.

(** ** The shape of reachable states *)

Lemma paints_refl s : paints s s.
Proof. unfold paints. auto. Qed.

Lemma paints_trans s1 s2 s3 : paints s1 s2 -> paints s2 s3 -> paints s1 s3.
Proof.
  unfold paints. intros [A1 [A2 [A3 A4]]] [B1 [B2 [B3 B4]]].
  repeat split; try congruence. auto.
Qed.

Lemma drawPixel_paints x y color s : paints s (snd (SSD1306_drawPixel x y color s)).
Proof.
  unfold paints. rewrite drawPixel_lcd, drawPixel_bus, drawPixel_length.
  do 3 (split; [reflexivity|]). intros Hb.
  unfold SSD1306_drawPixel.
  repeat match goal with |- context [if ?b then _ else _] => destruct b end;
    simpl; try assumption; apply Forall_wr; auto using u8_range.
Qed.

Lemma wf_paints s s' : wf s -> paints s s' -> wf s'.
Proof.
  intros [Hl Hb Hx Hy Hi] [P1 [P2 [P3 P4]]].
  split; rewrite ?P1, ?P3; auto.
Qed.

Lemma fold_left_inv {A B : Type} (P : A -> Prop) (f : A -> B -> A) l a :
  P a -> (forall a b, P a -> P (f a b)) -> P (fold_left f l a).
Proof.
  intros Ha Hf. revert a Ha. induction l as [|b l IH]; intros a Ha; simpl; auto.
Qed.

Lemma for_each_inv {A : Type} (P : A -> Prop) l (body : Z -> A -> option A) a a' :
  P a -> (forall i a a', P a -> body i a = Some a' -> P a') ->
  for_each l body a = Some a' -> P a'.
Proof.
  intros Ha Hf. revert a Ha. induction l as [|i l IH]; intros a Ha; simpl.
  - intros [= <-]. assumption.
  - destruct (body i a) as [a1|] eqn:E; [|discriminate]. eauto.
Qed.

Lemma for_range_paints lo n (body : Z -> driver -> driver) s0 s :
  (forall i a, paints a (body i a)) -> paints s0 s ->
  paints s0 (for_range lo n body s).
Proof.
  intros Hb Hs. unfold for_range.
  apply (fold_left_inv (paints s0)); [assumption|].
  intros a i Ha. eapply paints_trans; [exact Ha | apply Hb].
Qed.

Lemma plot_all_paints l s : paints s (plot_all l s).
Proof.
  unfold plot_all. apply (fold_left_inv (paints s)); [apply paints_refl|].
  intros a t Ha. eapply paints_trans; [exact Ha | apply drawPixel_paints].
Qed.

Lemma drawLine_loop_paints fuel :
  forall x0 y0 x1 y1 dx dy sx sy err color s s',
    drawLine_loop fuel x0 y0 x1 y1 dx dy sx sy err color s = Some s' ->
    paints s s'.
Proof.
  induction fuel as [|fuel IH]; intros x0 y0 x1 y1 dx dy sx sy err color s s' H;
    [discriminate|].
  cbn [drawLine_loop] in H.
  pose proof (drawPixel_paints x0 y0 color s) as Hp.
  destruct ((x0 =? x1) && (y0 =? y1)); [injection H as <-; exact Hp|].
  destruct (err >? - dx); destruct (err <? dy);
    apply IH in H; eapply paints_trans; eauto.
Qed.

Lemma drawLine_paints fuel x0 y0 x1 y1 color s r :
  SSD1306_drawLine fuel x0 y0 x1 y1 color s = Some r -> paints s (snd r).
Proof.
  unfold SSD1306_drawLine. cbv zeta.
  repeat match goal with
    | |- context [if ?b then (_, _) else (_, _)] => destruct b
    end; cbv iota beta.
  all: repeat match goal with |- context [if ?b then _ else _] => destruct b end.
  all: try (intros [= <-]; cbn [snd]; apply for_range_paints;
            [intros; apply drawPixel_paints | apply paints_refl]).
  all: intros H; apply bind_Some in H as [s' [H [= <-]]];
    apply drawLine_loop_paints in H; exact H.
Qed.

Lemma drawRectangle_paints fuel x y w h color s r :
  SSD1306_drawRectangle fuel x y w h color s = Some r -> paints s (snd r).
Proof.
  unfold SSD1306_drawRectangle.
  destruct (_ || _); [intros [= <-]; apply paints_refl|]. cbv zeta.
  intros H.
  apply bind_Some in H as [r1 [H1 H]]. apply bind_Some in H as [r2 [H2 H]].
  apply bind_Some in H as [r3 [H3 H]]. apply bind_Some in H as [r4 [H4 H]].
  injection H as <-. cbn [snd].
  apply drawLine_paints in H1, H2, H3, H4.
  eauto using paints_trans.
Qed.

Lemma drawFilledRectangle_paints fuel x y w h color s r :
  SSD1306_drawFilledRectangle fuel x y w h color s = Some r -> paints s (snd r).
Proof.
  unfold SSD1306_drawFilledRectangle.
  destruct (_ || _); [intros [= <-]; apply paints_refl|]. cbv zeta.
  intros H. apply bind_Some in H as [s' [H [= <-]]]. cbn [snd].
  eapply (for_each_inv (paints s)); [apply paints_refl | | exact H].
  intros i a a' Ha Hb. apply bind_Some in Hb as [r1 [H1 [= <-]]].
  apply drawLine_paints in H1. eauto using paints_trans.
Qed.

Lemma drawTriangle_paints fuel x1 y1 x2 y2 x3 y3 color s r :
  SSD1306_drawTriangle fuel x1 y1 x2 y2 x3 y3 color s = Some r -> paints s (snd r).
Proof.
  unfold SSD1306_drawTriangle. intros H.
  apply bind_Some in H as [r1 [H1 H]]. apply bind_Some in H as [r2 [H2 H]].
  apply bind_Some in H as [r3 [H3 H]]. injection H as <-. cbn [snd].
  apply drawLine_paints in H1, H2, H3. eauto using paints_trans.
Qed.

Lemma drawFilledTriangle_loop_paints fuel lfuel :
  forall curpixel numpixels x y x3 y3 xinc1 xinc2 yinc1 yinc2 den num numadd
         color s s',
    drawFilledTriangle_loop fuel lfuel curpixel numpixels x y x3 y3
      xinc1 xinc2 yinc1 yinc2 den num numadd color s = Some s' ->
    paints s s'.
Proof.
  induction fuel as [|fuel IH]; intros * H; [discriminate|].
  cbn [drawFilledTriangle_loop] in H.
  destruct (curpixel <=? numpixels); [|injection H as <-; apply paints_refl].
  apply bind_Some in H as [r1 [H1 H]]. apply drawLine_paints in H1.
  destruct (s16 (num + numadd) >=? den); apply IH in H;
    eauto using paints_trans.
Qed.

Lemma drawFilledTriangle_paints fuel x1 y1 x2 y2 x3 y3 color s r :
  SSD1306_drawFilledTriangle fuel x1 y1 x2 y2 x3 y3 color s = Some r ->
  paints s (snd r).
Proof.
  unfold SSD1306_drawFilledTriangle. cbv zeta.
  repeat match goal with
    | |- context [if ?b then (_, _) else (_, _)] => destruct b
    end; cbv iota beta.
  all: intros H; apply bind_Some in H as [s' [H [= <-]]];
    apply drawFilledTriangle_loop_paints in H; exact H.
Qed.

Lemma drawCircle_loop_paints fuel :
  forall x0 y0 f ddF_x ddF_y x y color s s',
    drawCircle_loop fuel x0 y0 f ddF_x ddF_y x y color s = Some s' -> paints s s'.
Proof.
  induction fuel as [|fuel IH]; intros * H; [discriminate|].
  cbn [drawCircle_loop] in H.
  destruct (x <? y); [|injection H as <-; apply paints_refl].
  destruct (circle_step f ddF_x ddF_y x y) as [[[[f' ddx'] ddy'] x'] y'].
  apply IH in H. rewrite circle_plot8_plots in H.
  eauto using paints_trans, plot_all_paints.
Qed.

Lemma drawCircle_paints fuel x0 y0 r color s res :
  SSD1306_drawCircle fuel x0 y0 r color s = Some res -> paints s (snd res).
Proof.
  unfold SSD1306_drawCircle. cbv zeta. rewrite circle_plot4_plots.
  intros H. apply bind_Some in H as [s' [H [= <-]]].
  apply drawCircle_loop_paints in H.
  eauto using paints_trans, plot_all_paints.
Qed.

Lemma drawFilledCircle_loop_paints fuel lfuel :
  forall x0 y0 f ddF_x ddF_y x y color s s',
    drawFilledCircle_loop fuel lfuel x0 y0 f ddF_x ddF_y x y color s = Some s' ->
    paints s s'.
Proof.
  induction fuel as [|fuel IH]; intros * H; [discriminate|].
  cbn [drawFilledCircle_loop] in H.
  destruct (x <? y); [|injection H as <-; apply paints_refl].
  destruct (circle_step f ddF_x ddF_y x y) as [[[[f' ddx'] ddy'] x'] y'].
  apply bind_Some in H as [r1 [H1 H]]. apply bind_Some in H as [r2 [H2 H]].
  apply bind_Some in H as [r3 [H3 H]]. apply bind_Some in H as [r4 [H4 H]].
  apply drawLine_paints in H1, H2, H3, H4. apply IH in H.
  eauto 6 using paints_trans.
Qed.

Lemma drawFilledCircle_paints fuel x0 y0 r color s res :
  SSD1306_drawFilledCircle fuel x0 y0 r color s = Some res -> paints s (snd res).
Proof.
  unfold SSD1306_drawFilledCircle. cbv zeta. rewrite circle_plot4_plots.
  intros H. apply bind_Some in H as [r1 [H1 H]].
  apply bind_Some in H as [s' [H [= <-]]].
  apply drawLine_paints in H1. apply drawFilledCircle_loop_paints in H.
  eauto using paints_trans, plot_all_paints.
Qed.

Lemma drawBitmap_paints x y bitmap w h color s :
  paints s (snd (SSD1306_drawBitmap x y bitmap w h color s)).
Proof.
  unfold SSD1306_drawBitmap. cbv zeta.
  assert (H : paints s (snd (for_range 0 h
                (drawBitmap_row x bitmap (s16 (Z.shiftr (w + 7) 3)) w color)
                (y, 0, s)))).
  { unfold for_range.
    apply (fold_left_inv (fun st : Z * Z * driver => paints s (snd st)));
      [apply paints_refl|].
    intros [[y' byte] a] j Ha. cbn [snd] in Ha. unfold drawBitmap_row.
    assert (Hc : paints s (snd (for_range 0 w
                   (drawBitmap_col x y' bitmap (s16 (Z.shiftr (w + 7) 3)) j color)
                   (byte, a)))).
    { unfold for_range.
      apply (fold_left_inv (fun st : Z * driver => paints s (snd st)));
        [exact Ha|].
      intros [byte' a'] i Ha'. cbn [snd] in Ha'. unfold drawBitmap_col.
      destruct (Z.land _ 128 =? 0); cbn [snd]; [exact Ha'|].
      eapply paints_trans; [exact Ha' | apply drawPixel_paints]. }
    destruct (for_range 0 w _ _) as [byte' a']. exact Hc. }
  destruct (for_range 0 h _ _) as [[y' byte] a]. exact H.
Qed.

Lemma putc_wf ch font color s : wf s -> wf (snd (SSD1306_putc ch font color s)).
Proof.
  intros Hwf. unfold SSD1306_putc. destruct (_ || _); [exact Hwf|]. cbv zeta.
  cbn [snd].
  assert (Hp : wf (for_range 0 (fontHeight font) (putc_row ch font color) s)).
  { apply (wf_paints s); [exact Hwf|]. unfold for_range.
    rewrite putc_rows_plot. apply plot_all_paints. }
  destruct Hp as [Hl Hb Hx Hy Hi]. split; cbn; auto using u16_range.
Qed.

Lemma puts_wf str font color s : wf s -> wf (snd (SSD1306_puts str font color s)).
Proof.
  revert s. induction str as [|ch str IH]; intros s Hwf; simpl; [exact Hwf|].
  destruct (ch =? 0); [exact Hwf|]. apply IH, putc_wf, Hwf.
Qed.

Lemma power_on_wf : wf power_on.
Proof. apply wfb_wf. vm_compute. reflexivity. Qed.

Lemma fill_wf color s : wf s -> wf (snd (SSD1306_fill color s)).
Proof.
  intros Hwf. pose proof Hwf as [Hl Hb Hx Hy Hi]. unfold SSD1306_fill.
  repeat match goal with |- context [if ?b then _ else _] => destruct b end;
    try exact Hwf; split; cbn [snd set_buffer SSD1306_Buffer SSD1306]; auto;
    try apply length_replicate; apply Forall_replicate; lia.
Qed.

Lemma updateScreen_wf s : wf s -> wf (snd (SSD1306_updateScreen s)).
Proof.
  intros Hwf. destruct (Z.eq_dec (initialized (SSD1306 s)) 0) as [E | E].
  - unfold SSD1306_updateScreen. rewrite E. exact Hwf.
  - rewrite updateScreen_bus by exact E. destruct Hwf. split; assumption.
Qed.

Lemma clear_wf s : wf s -> wf (snd (SSD1306_clear s)).
Proof.
  intros Hwf. unfold SSD1306_clear.
  destruct (initialized (SSD1306 s) =? 0); [exact Hwf|].
  cbn [snd]. apply updateScreen_wf, fill_wf, Hwf.
Qed.

Lemma init_wf i2c ready s : wf s -> wf (snd (SSD1306_init i2c ready s)).
Proof.
  intros [Hl Hb Hx Hy Hi]. destruct ready.
  - rewrite init_ok_state. split; cbn; auto; lia.
  - split; cbn; auto; lia.
  - split; cbn; auto; lia.
  - split; cbn; auto; lia.
Qed.

Lemma toggleInvert_wf s : wf s -> wf (snd (SSD1306_toggleInvert s)).
Proof.
  intros Hwf. pose proof Hwf as [Hl Hb Hx Hy Hi]. unfold SSD1306_toggleInvert.
  destruct (initialized (SSD1306 s) =? 0); [exact Hwf|].
  cbv zeta. cbn [snd set_lcd set_buffer set_inverted SSD1306 SSD1306_Buffer].
  rewrite (toggle_all _ Hl). split; cbn; auto.
  - rewrite length_map. exact Hl.
  - apply List.Forall_forall. intros b Hin. apply in_map_iff in Hin as [b0 [<- _]].
    apply u8_range.
  - unfold lnot_c. destruct (inverted (SSD1306 s) =? 0); auto.
Qed.

Lemma invertDisplay_wf v s : wf s -> wf (snd (SSD1306_invertDisplay v s)).
Proof.
  intros Hwf. pose proof Hwf as [Hl Hb Hx Hy Hi]. unfold SSD1306_invertDisplay.
  repeat match goal with |- context [if ?b then _ else _] => destruct b end;
    try exact Hwf; split; assumption.
Qed.

Lemma gotoXY_wf x y s :
  0 <= x < 2 ^ 16 -> 0 <= y < 2 ^ 16 -> wf s -> wf (snd (SSD1306_gotoXY x y s)).
Proof.
  intros Hxr Hyr Hwf. pose proof Hwf as [Hl Hb Hx Hy Hi]. unfold SSD1306_gotoXY.
  destruct (_ || _); [exact Hwf|]. split; cbn; auto.
Qed.

Lemma write_commands_wf cmds s : wf s -> wf (write_commands cmds s).
Proof.
  unfold write_commands. revert s.
  induction cmds as [|c cmds IH]; intros s Hwf; [exact Hwf|].
  cbn [fold_left]. apply IH. destruct Hwf as [Hl Hb Hx Hy Hi].
  split; assumption.
Qed.

Lemma scrollRight_wf pages a b s :
  wf s -> wf (snd (SSD1306_scrollRight pages a b s)).
Proof.
  intros Hwf. unfold SSD1306_scrollRight.
  repeat match goal with |- context [if ?b then _ else _] => destruct b end;
    try exact Hwf; apply write_commands_wf, Hwf.
Qed.

Lemma scrollLeft_wf pages a b s :
  wf s -> wf (snd (SSD1306_scrollLeft pages a b s)).
Proof.
  intros Hwf. unfold SSD1306_scrollLeft.
  repeat match goal with |- context [if ?b then _ else _] => destruct b end;
    try exact Hwf; apply write_commands_wf, Hwf.
Qed.

Lemma scrollDiagRight_wf pages a b s :
  wf s -> wf (snd (SSD1306_scrollDiagRight pages a b s)).
Proof.
  intros Hwf. unfold SSD1306_scrollDiagRight.
  repeat match goal with |- context [if ?b then _ else _] => destruct b end;
    try exact Hwf; apply write_commands_wf, Hwf.
Qed.

Lemma scrollDiagLeft_wf pages a b s :
  wf s -> wf (snd (SSD1306_scrollDiagLeft pages a b s)).
Proof.
  intros Hwf. unfold SSD1306_scrollDiagLeft.
  repeat match goal with |- context [if ?b then _ else _] => destruct b end;
    try exact Hwf; apply write_commands_wf, Hwf.
Qed.

Lemma stopScroll_wf s : wf s -> wf (snd (SSD1306_stopScroll s)).
Proof. intros Hwf. apply write_commands_wf, Hwf. Qed.

Lemma lcdOn_wf s : wf s -> wf (snd (SSD1306_lcdOn s)).
Proof. intros Hwf. apply write_commands_wf, Hwf. Qed.

Lemma lcdOff_wf s : wf s -> wf (snd (SSD1306_lcdOff s)).
Proof. intros Hwf. apply write_commands_wf, Hwf. Qed.

Create HintDb ssd1306 discriminated.

#[local] Hint Resolve scrollRight_wf scrollLeft_wf scrollDiagRight_wf
  scrollDiagLeft_wf stopScroll_wf lcdOn_wf lcdOff_wf : ssd1306.

#[local] Hint Resolve power_on_wf init_wf clear_wf invertDisplay_wf updateScreen_wf
  toggleInvert_wf fill_wf drawPixel_wf gotoXY_wf putc_wf puts_wf : ssd1306.
#[local] Hint Resolve wf_paints drawBitmap_paints drawLine_paints
  drawRectangle_paints drawFilledRectangle_paints drawTriangle_paints
  drawFilledTriangle_paints drawCircle_paints drawFilledCircle_paints : ssd1306.

(** Every reachable state has the shape [wf]: in particular the buffer keeps
    its 1024 bytes and [inverted] is 0 or 1. *)
Lemma reachable_wf s : reachable s -> wf s.
Proof.
  induction 1; first [solve [auto with ssd1306] | solve [eauto with ssd1306]].
Qed.

(** ** [SSD1306_drawLine] always returns *)

Lemma bres_table :
  forallb (fun dx =>
    forallb (fun dy =>
               (dx =? 1) && (dy =? 1)
               || bres_steps 191 dx dy 0 0 (bres_err0 dx dy))
            (seqZ 1 (SSD1306_HEIGHT - 1)))
    (seqZ 1 (SSD1306_WIDTH - 1)) = true.
Proof. vm_compute. reflexivity. Qed.

Lemma bres_steps_ok dx dy :
  1 <= dx <= 127 -> 1 <= dy <= 63 -> dx <> 1 \/ dy <> 1 ->
  bres_steps 191 dx dy 0 0 (bres_err0 dx dy) = true.
Proof.
  intros Hx Hy Hne.
  assert (Hin1 : In dx (seqZ 1 (SSD1306_WIDTH - 1)))
    by (apply list_elem_of_In, elem_of_seqZ; unfold SSD1306_WIDTH; lia).
  assert (Hin2 : In dy (seqZ 1 (SSD1306_HEIGHT - 1)))
    by (apply list_elem_of_In, elem_of_seqZ; unfold SSD1306_HEIGHT; lia).
  pose proof (proj1 (forallb_forall _ _)
                (proj1 (forallb_forall _ _) bres_table dx Hin1) dy Hin2) as H.
  cbv beta in H.
  apply orb_true_iff in H as [H | H]; [|exact H].
  apply andb_prop in H as [H1 H2]. apply Z.eqb_eq in H1, H2. lia.
Qed.

Lemma bres_steps_more fuel :
  forall dx dy a b err,
    bres_steps fuel dx dy a b err = true ->
    bres_steps (S fuel) dx dy a b err = true.
Proof.
  induction fuel as [|fuel IH]; intros dx dy a b err H; [discriminate|].
  remember (S fuel) as n. cbn [bres_steps]. subst n. cbn [bres_steps] in H.
  destruct ((a =? dx) && (b =? dy)); [reflexivity|].
  destruct (err >? - dx); destruct (err <? dy);
    apply andb_prop in H as [H1 H2]; apply IH in H2; rewrite H1, H2; reflexivity.
Qed.

Lemma bres_steps_mono fuel fuel' dx dy a b err :
  (fuel <= fuel')%nat ->
  bres_steps fuel dx dy a b err = true -> bres_steps fuel' dx dy a b err = true.
Proof.
  induction 1 as [|n Hle IH]; [auto|]. intros H. apply bres_steps_more, IH, H.
Qed.

(** The loop of the source follows an accepted run.  The line goes from
    [(X0, Y0)] to [(X0 + sx * dx, Y0 + sy * dy)], both [uint16_t]. *)
Section Stepper.
Variables X0 Y0 dx dy sx sy : Z.
Hypothesis Hsx : sx = 1 \/ sx = -1.
Hypothesis Hsy : sy = 1 \/ sy = -1.
Hypothesis HX0 : 0 <= X0 < 65536.
Hypothesis HX1 : 0 <= X0 + sx * dx < 65536.
Hypothesis HY0 : 0 <= Y0 < 65536.
Hypothesis HY1 : 0 <= Y0 + sy * dy < 65536.

Lemma stepper_at_end a b :
  ((X0 + sx * a =? X0 + sx * dx) && (Y0 + sy * b =? Y0 + sy * dy))
  = ((a =? dx) && (b =? dy)).
Proof using Hsx Hsy.
  apply eq_iff_eq_true. rewrite !andb_true_iff, !Z.eqb_eq. nia.
Qed.

Lemma stepper_x a : 0 <= a < dx -> u16 (X0 + sx * a + sx) = X0 + sx * (a + 1).
Proof using Hsx HX0 HX1. intros Ha. rewrite u16_small; nia. Qed.

Lemma stepper_y b : 0 <= b < dy -> u16 (Y0 + sy * b + sy) = Y0 + sy * (b + 1).
Proof using Hsy HY0 HY1. intros Hb. rewrite u16_small; nia. Qed.

Lemma drawLine_loop_follows fuel color :
  forall a b err s,
    0 <= a <= dx -> 0 <= b <= dy ->
    bres_steps fuel dx dy a b err = true ->
    exists s',
      drawLine_loop fuel (X0 + sx * a) (Y0 + sy * b) (X0 + sx * dx) (Y0 + sy * dy)
        dx dy sx sy err color s = Some s'.
Proof using Hsx Hsy HX0 HX1 HY0 HY1.
  induction fuel as [|fuel IH]; intros a b err s Ha Hb H; [discriminate|].
  cbn [bres_steps] in H. cbn [drawLine_loop].
  rewrite stepper_at_end. destruct ((a =? dx) && (b =? dy)); [eauto|].
  destruct (err >? - dx); destruct (err <? dy);
    repeat match type of H with
      | _ && _ = true => apply andb_prop in H as [H ?]
      end;
    repeat match goal with
      | H : (_ <=? _) = true |- _ => apply Z.leb_le in H
      | H : (_ <? _) = true |- _ => apply Z.ltb_lt in H
      | H : (_ && _) = true |- _ => apply andb_prop in H as [? ?]
      end.
  - rewrite (s16_small (err - dy)) by lia.
    rewrite (s16_small (err - dy + dx)) by lia.
    rewrite stepper_x, stepper_y by lia.
    apply IH; [lia | lia | assumption].
  - rewrite (s16_small (err - dy)) by lia.
    rewrite stepper_x by lia.
    apply IH; [lia | lia | assumption].
  - rewrite (s16_small (err + dx)) by lia.
    rewrite stepper_y by lia.
    apply IH; [lia | lia | assumption].
  - apply IH; [lia | lia | assumption].
Qed.
End Stepper.

(** For [uint16_t] end points [SSD1306_drawLine] returns [LCD_OK] as soon as
    the fuel covers the longest path across the panel: the [while (1)] loop
    reaches its end point on every slope but one, the diagonal between two
    pixels that touch by a corner. *)
Lemma drawLine_returns fuel x0 y0 x1 y1 color s :
  0 <= x0 -> 0 <= y0 -> 0 <= x1 -> 0 <= y1 -> (191 <= fuel)%nat ->
  Z.abs (Z.min x1 (SSD1306_WIDTH - 1) - Z.min x0 (SSD1306_WIDTH - 1)) <> 1
  \/ Z.abs (Z.min y1 (SSD1306_HEIGHT - 1) - Z.min y0 (SSD1306_HEIGHT - 1)) <> 1 ->
  exists s', SSD1306_drawLine fuel x0 y0 x1 y1 color s = Some (LCD_OK, s').
Proof.
  intros Hx0 Hy0 Hx1 Hy1 Hfuel Hdiag.
  unfold SSD1306_drawLine. rewrite !clampW, !clampH. cbv zeta.
  set (cx0 := Z.min x0 (SSD1306_WIDTH - 1)) in *.
  set (cx1 := Z.min x1 (SSD1306_WIDTH - 1)) in *.
  set (cy0 := Z.min y0 (SSD1306_HEIGHT - 1)) in *.
  set (cy1 := Z.min y1 (SSD1306_HEIGHT - 1)) in *.
  assert (Bx0 : 0 <= cx0 <= 127) by (unfold cx0, SSD1306_WIDTH; lia).
  assert (Bx1 : 0 <= cx1 <= 127) by (unfold cx1, SSD1306_WIDTH; lia).
  assert (By0 : 0 <= cy0 <= 63) by (unfold cy0, SSD1306_HEIGHT; lia).
  assert (By1 : 0 <= cy1 <= 63) by (unfold cy1, SSD1306_HEIGHT; lia).
  clearbody cx0 cx1 cy0 cy1.
  assert (Edx : s16 (if cx0 <? cx1 then cx1 - cx0 else cx0 - cx1) = Z.abs (cx1 - cx0))
    by (destruct (Z.ltb_spec cx0 cx1); rewrite s16_small; lia).
  assert (Edy : s16 (if cy0 <? cy1 then cy1 - cy0 else cy0 - cy1) = Z.abs (cy1 - cy0))
    by (destruct (Z.ltb_spec cy0 cy1); rewrite s16_small; lia).
  rewrite Edx, Edy.
  rewrite (swap16 cy0 cy1), (swap16 cx0 cx1) by lia. cbv iota beta.
  destruct (Z.eqb_spec (Z.abs (cx1 - cx0)) 0) as [E0 | E0]; [eauto|].
  destruct (Z.eqb_spec (Z.abs (cy1 - cy0)) 0) as [E1 | E1]; [eauto|].
  set (dx := Z.abs (cx1 - cx0)) in *. set (dy := Z.abs (cy1 - cy0)) in *.
  set (sx := if cx0 <? cx1 then 1 else -1).
  set (sy := if cy0 <? cy1 then 1 else -1).
  assert (Hsx : (sx = 1 \/ sx = -1) /\ cx1 = cx0 + sx * dx)
    by (unfold sx, dx; destruct (Z.ltb_spec cx0 cx1); lia).
  assert (Hsy : (sy = 1 \/ sy = -1) /\ cy1 = cy0 + sy * dy)
    by (unfold sy, dy; destruct (Z.ltb_spec cy0 cy1); lia).
  destruct Hsx as [Hsx Ex1]. destruct Hsy as [Hsy Ey1].
  assert (Hrun : bres_steps fuel dx dy 0 0 (bres_err0 dx dy) = true).
  { apply (bres_steps_mono 191); [exact Hfuel|].
    apply bres_steps_ok; unfold dx, dy in *; lia. }
  destruct (drawLine_loop_follows cx0 cy0 dx dy sx sy Hsx Hsy
              ltac:(lia) ltac:(lia) ltac:(lia) ltac:(lia) fuel color
              0 0 (bres_err0 dx dy) s ltac:(unfold dx; lia) ltac:(unfold dy; lia) Hrun)
    as [s' Hs'].
  rewrite !Z.mul_0_r, !Z.add_0_r, <- Ex1, <- Ey1 in Hs'.
  unfold bres_err0 in Hs'. rewrite Hs'. exists s'. reflexivity.
Qed.

(** On that diagonal the seed [(-dy) >> 1] is [-1] (an arithmetic shift, as
    GCC performs it), the first pass steps along Y alone, and from then on
    the point stays one row below the diagonal through the end point: the
    loop of the source has no exit. *)
Lemma drawLine_loop_off_diagonal fuel color :
  forall x s,
    0 <= x < 65536 ->
    drawLine_loop fuel x (u16 (x + 1)) 1 1 1 1 1 1 0 color s = None.
Proof.
  induction fuel as [|fuel IH]; intros x s Hx; [reflexivity|].
  cbn [drawLine_loop].
  assert (E : ((x =? 1) && (u16 (x + 1) =? 1)) = false).
  { destruct (Z.eqb_spec x 1) as [->|_]; [reflexivity|reflexivity]. }
  rewrite E.
  change (0 >? - (1)) with true. change (0 <? 1) with true. cbv iota beta.
  change (s16 (0 - 1)) with (-1). change (s16 (-1 + 1)) with 0.
  apply IH. apply u16_range.
Qed.

Lemma drawLine_unit_diagonal fuel color s :
  SSD1306_drawLine fuel 0 0 1 1 color s = None.
Proof.
  unfold SSD1306_drawLine.
  change (0 >=? SSD1306_WIDTH) with false. change (1 >=? SSD1306_WIDTH) with false.
  change (0 >=? SSD1306_HEIGHT) with false. change (1 >=? SSD1306_HEIGHT) with false.
  cbv zeta iota. change (0 <? 1) with true. cbv iota.
  change (s16 (1 - 0)) with 1. change (1 =? 0) with false. cbv iota.
  change (1 >? 1) with false. cbv iota.
  change (s16 (Z.shiftr (- (1)) 1)) with (-1).
  destruct fuel as [|fuel]; [reflexivity|].
  cbn [drawLine_loop].
  change ((0 =? 1) && (0 =? 1)) with false. cbv iota.
  change (-1 >? - (1)) with false. change (-1 <? 1) with true. cbv iota beta.
  change (s16 (-1 + 1)) with 0.
  rewrite (drawLine_loop_off_diagonal fuel color 0) by lia. reflexivity.
Qed.

(** * Further properties of the driver *)

(** ** The pixels determine the buffer *)

Lemma testbit_byte_high b k : 0 <= b < 256 -> 8 <= k -> Z.testbit b k = false.
Proof.
  intros Hb Hk. rewrite <- (u8_small b Hb). unfold u8.
  apply Z.mod_pow2_bits_high. lia.
Qed.

Lemma pixel_of_bit i k :
  0 <= i < SSD1306_BUFFER_SIZE -> 0 <= k < 8 ->
  in_panel (i mod SSD1306_WIDTH) (8 * (i / SSD1306_WIDTH) + k)
  /\ pixel_index (i mod SSD1306_WIDTH) (8 * (i / SSD1306_WIDTH) + k) = i
  /\ Z.land (8 * (i / SSD1306_WIDTH) + k) 0x07 = k.
Proof.
  unfold in_panel, pixel_index, SSD1306_BUFFER_SIZE, SSD1306_WIDTH, SSD1306_HEIGHT.
  change (128 * 64 / 8) with 1024. intros Hi Hk. rewrite shiftr3, land7.
  pose proof (Z.div_mod i 128 ltac:(lia)).
  pose proof (Z.mod_pos_bound i 128 ltac:(lia)).
  assert (0 <= i / 128 < 8)
    by (split; [apply Z.div_pos | apply Z.div_lt_upper_bound]; lia).
  assert (E1 : (8 * (i / 128) + k) / 8 = i / 128)
    by (symmetry; apply (Z.div_unique _ 8 _ k); lia).
  assert (E2 : (8 * (i / 128) + k) mod 8 = k)
    by (symmetry; apply (Z.mod_unique _ 8 (i / 128) k); lia).
  rewrite E1, E2. lia.
Qed.

Lemma state_ext s1 s2 :
  wf s1 -> wf s2 -> SSD1306 s1 = SSD1306 s2 -> bus s1 = bus s2 ->
  (forall px py, in_panel px py -> get_pixel s1 px py = get_pixel s2 px py) ->
  s1 = s2.
Proof.
  intros [L1 B1 _ _ _] [L2 B2 _ _ _] Hl Hb Hpix.
  destruct s1 as [buf1 lcd1 bus1], s2 as [buf2 lcd2 bus2]. simpl in *.
  subst lcd2 bus2. f_equal.
  apply (list_eq_same_length buf1 buf2 (Z.to_nat SSD1306_BUFFER_SIZE) L2 L1).
  intros i b1 b2 Hi H1 H2.
  assert (R1 : 0 <= b1 < 256)
    by (rewrite List.Forall_forall in B1; apply B1;
        apply list_elem_of_In, list_elem_of_lookup; eauto).
  assert (R2 : 0 <= b2 < 256)
    by (rewrite List.Forall_forall in B2; apply B2;
        apply list_elem_of_In, list_elem_of_lookup; eauto).
  apply Z.bits_inj'. intros k Hk.
  destruct (Z_lt_dec k 8) as [Hk8 | Hk8];
    [|rewrite !testbit_byte_high by lia; reflexivity].
  assert (Hi' : 0 <= Z.of_nat i < SSD1306_BUFFER_SIZE)
    by (unfold SSD1306_BUFFER_SIZE, SSD1306_WIDTH, SSD1306_HEIGHT in *;
        change (128 * 64 / 8) with 1024 in *; lia).
  destruct (pixel_of_bit (Z.of_nat i) k Hi' ltac:(lia)) as [Hp [Hidx Hbit]].
  specialize (Hpix _ _ Hp). unfold get_pixel in Hpix. simpl in Hpix.
  rewrite Hidx, Hbit in Hpix. unfold rd in Hpix. rewrite Nat2Z.id in Hpix.
  rewrite (list_lookup_total_correct buf1 i b1 H1) in Hpix.
  rewrite (list_lookup_total_correct buf2 i b2 H2) in Hpix. exact Hpix.
Qed.

(** ** Pixel writes as an algebra *)

Lemma get_pixel_twice x1 y1 c1 x2 y2 c2 s px py :
  length (SSD1306_Buffer s) = Z.to_nat SSD1306_BUFFER_SIZE ->
  0 <= x1 -> 0 <= y1 -> 0 <= x2 -> 0 <= y2 -> is_color c1 -> is_color c2 ->
  in_panel px py ->
  get_pixel (snd (SSD1306_drawPixel x2 y2 c2 (snd (SSD1306_drawPixel x1 y1 c1 s))))
            px py
  = if (px =? x2) && (py =? y2) then effective_color c2 s =? SSD1306_COLOR_WHITE
    else if (px =? x1) && (py =? y1) then effective_color c1 s =? SSD1306_COLOR_WHITE
    else get_pixel s px py.
Proof.
  intros Hlen Hx1 Hy1 Hx2 Hy2 Hc1 Hc2 Hp.
  rewrite get_pixel_drawPixel; try assumption;
    [|rewrite drawPixel_length; assumption].
  rewrite (effective_color_lcd c2 s) by apply drawPixel_lcd.
  rewrite get_pixel_drawPixel by assumption. reflexivity.
Qed.

(** X1.  Calls of [SSD1306_drawPixel] can be repeated and reordered: drawing
    a pixel twice with the same colour is drawing it once, and two calls
    that use the same colour or address different positions give the same
    state in either order. *)
Theorem drawPixel_repeat_reorder (x1 y1 x2 y2 : Z) (c1 c2 : SSD1306_color_t)
    (s : driver) :
  wf s -> 0 <= x1 -> 0 <= y1 -> 0 <= x2 -> 0 <= y2 ->
  is_color c1 -> is_color c2 ->
  snd (SSD1306_drawPixel x1 y1 c1 (snd (SSD1306_drawPixel x1 y1 c1 s)))
  = snd (SSD1306_drawPixel x1 y1 c1 s)
  /\ (c1 = c2 \/ x1 <> x2 \/ y1 <> y2 ->
      snd (SSD1306_drawPixel x2 y2 c2 (snd (SSD1306_drawPixel x1 y1 c1 s)))
      = snd (SSD1306_drawPixel x1 y1 c1 (snd (SSD1306_drawPixel x2 y2 c2 s)))).
Proof.
  intros Hwf Hx1 Hy1 Hx2 Hy2 Hc1 Hc2. pose proof (wf_length s Hwf) as Hlen.
  split.
  - apply state_ext; auto using drawPixel_wf.
    + rewrite !drawPixel_lcd. reflexivity.
    + rewrite !drawPixel_bus. reflexivity.
    + intros px py Hp. rewrite get_pixel_twice, get_pixel_drawPixel by assumption.
      destruct ((px =? x1) && (py =? y1)); reflexivity.
  - intros Hd. apply state_ext; auto using drawPixel_wf.
    + rewrite !drawPixel_lcd. reflexivity.
    + rewrite !drawPixel_bus. reflexivity.
    + intros px py Hp. rewrite !get_pixel_twice by assumption.
      destruct (Z.eqb_spec px x1), (Z.eqb_spec py y1), (Z.eqb_spec px x2),
        (Z.eqb_spec py y2); simpl; try reflexivity.
      destruct Hd as [-> | [Hd | Hd]]; [reflexivity | lia | lia].
Qed.

Lemma drawPixel_repeat_reorder_witness :
  snd (SSD1306_drawPixel 9 9 1 (snd (SSD1306_drawPixel 3 4 0 power_on)))
  = snd (SSD1306_drawPixel 3 4 0 (snd (SSD1306_drawPixel 9 9 1 power_on))).
Proof.
  apply (drawPixel_repeat_reorder 3 4 9 9 0 1 power_on);
    [apply wfb_wf; vm_compute; reflexivity | lia | lia | lia | lia
    | left; reflexivity | right; reflexivity | right; left; lia].
Defined.

(** ** Inversion *)

Lemma testbit_complement b k :
  0 <= k < 8 -> Z.testbit (u8 (Z.lnot b)) k = negb (Z.testbit b k).
Proof. intros Hk. rewrite testbit_u8, Z.lnot_spec by lia. reflexivity. Qed.

Lemma rd_map (f : Z -> Z) buf i :
  0 <= i < Z.of_nat (length buf) -> rd (map f buf) i = f (rd buf i).
Proof.
  intros Hi. unfold rd.
  destruct (lookup_lt_is_Some_2 buf (Z.to_nat i) ltac:(lia)) as [b Hb].
  rewrite (list_lookup_total_correct buf _ b Hb).
  apply list_lookup_total_correct.
  change (map f buf) with (f <$> buf). rewrite list_lookup_fmap, Hb. reflexivity.
Qed.

Lemma toggleInvert_state s :
  length (SSD1306_Buffer s) = Z.to_nat SSD1306_BUFFER_SIZE ->
  initialized (SSD1306 s) <> 0 ->
  SSD1306_toggleInvert s
  = (LCD_OK,
     mkDriver (map (fun b => u8 (Z.lnot b)) (SSD1306_Buffer s))
       (set_inverted (lnot_c (inverted (SSD1306 s))) (SSD1306 s)) (bus s)).
Proof.
  intros Hlen Hi. apply Z.eqb_neq in Hi. unfold SSD1306_toggleInvert.
  rewrite Hi. cbv zeta. cbn [set_buffer set_lcd SSD1306 SSD1306_Buffer bus].
  rewrite (toggle_all _ Hlen). reflexivity.
Qed.

Lemma get_pixel_toggled s px py :
  length (SSD1306_Buffer s) = Z.to_nat SSD1306_BUFFER_SIZE ->
  initialized (SSD1306 s) <> 0 -> in_panel px py ->
  get_pixel (snd (SSD1306_toggleInvert s)) px py = negb (get_pixel s px py).
Proof.
  intros Hlen Hi Hp. rewrite (toggleInvert_state s Hlen Hi).
  unfold get_pixel. cbn [snd SSD1306_Buffer].
  pose proof (pixel_index_range px py Hp) as Hr.
  rewrite rd_map by (rewrite Hlen; lia).
  apply testbit_complement, land7_range.
Qed.

Lemma effective_color_toggled c s :
  length (SSD1306_Buffer s) = Z.to_nat SSD1306_BUFFER_SIZE ->
  initialized (SSD1306 s) <> 0 -> is_color c ->
  (effective_color c (snd (SSD1306_toggleInvert s)) =? SSD1306_COLOR_WHITE)
  = negb (effective_color c s =? SSD1306_COLOR_WHITE).
Proof.
  intros Hlen Hi Hc. rewrite (toggleInvert_state s Hlen Hi).
  unfold effective_color, lnot_c. cbn [snd SSD1306 set_inverted inverted].
  destruct Hc as [-> | ->]; destruct (inverted (SSD1306 s) =? 0); reflexivity.
Qed.

(** X2.  Drawing commutes with inversion: on an initialised display,
    [SSD1306_toggleInvert] after [SSD1306_drawPixel] gives the same state as
    [SSD1306_drawPixel] after [SSD1306_toggleInvert].  The [inverted] flag
    makes a pixel drawn on the complemented buffer come out as the
    complement of the same pixel drawn before. *)
Theorem drawPixel_toggleInvert_commute (x y : Z) (color : SSD1306_color_t)
    (s : driver) :
  wf s -> initialized (SSD1306 s) <> 0 -> 0 <= x -> 0 <= y -> is_color color ->
  snd (SSD1306_toggleInvert (snd (SSD1306_drawPixel x y color s)))
  = snd (SSD1306_drawPixel x y color (snd (SSD1306_toggleInvert s))).
Proof.
  intros Hwf Hi Hx Hy Hc. pose proof (wf_length s Hwf) as Hlen.
  assert (Hlen1 : length (SSD1306_Buffer (snd (SSD1306_drawPixel x y color s)))
                  = Z.to_nat SSD1306_BUFFER_SIZE)
    by (rewrite drawPixel_length; exact Hlen).
  assert (Hi1 : initialized (SSD1306 (snd (SSD1306_drawPixel x y color s))) <> 0)
    by (rewrite drawPixel_lcd; exact Hi).
  pose proof (toggleInvert_wf s Hwf) as Hwf2.
  apply state_ext; auto using drawPixel_wf, toggleInvert_wf.
  - rewrite drawPixel_lcd, (toggleInvert_state _ Hlen1 Hi1),
      (toggleInvert_state _ Hlen Hi). cbn [snd SSD1306].
    rewrite drawPixel_lcd. reflexivity.
  - rewrite drawPixel_bus, (toggleInvert_state _ Hlen1 Hi1),
      (toggleInvert_state _ Hlen Hi). cbn [snd bus].
    rewrite drawPixel_bus. reflexivity.
  - intros px py Hp.
    rewrite (get_pixel_toggled _ px py Hlen1 Hi1 Hp).
    rewrite !get_pixel_drawPixel; try assumption;
      [|apply (wf_length _ Hwf2)].
    rewrite (get_pixel_toggled s px py Hlen Hi Hp).
    rewrite (effective_color_toggled color s Hlen Hi Hc).
    destruct ((px =? x) && (py =? y)); reflexivity.
Qed.

Lemma drawPixel_toggleInvert_commute_witness :
  let s := snd (SSD1306_init 0 HAL_OK power_on) in
  snd (SSD1306_toggleInvert (snd (SSD1306_drawPixel 5 9 SSD1306_COLOR_WHITE s)))
  = snd (SSD1306_drawPixel 5 9 SSD1306_COLOR_WHITE (snd (SSD1306_toggleInvert s))).
Proof.
  intros s.
  apply (drawPixel_toggleInvert_commute 5 9 SSD1306_COLOR_WHITE s);
    [apply wfb_wf; vm_compute; reflexivity | vm_compute; discriminate
    | lia | lia | right; reflexivity].
Defined.

(** ** [SSD1306_fill] *)

(** X3.  On an initialised display [SSD1306_fill] returns [LCD_OK] and
    leaves every pixel of the panel lit for [SSD1306_COLOR_WHITE], dark for
    [SSD1306_COLOR_BLACK], whatever the [inverted] flag; cursor, flags and
    bus are untouched.  Any other colour value is refused with
    [INVALID_PARAMS] and nothing changes. *)
Theorem fill_all_pixels (color : SSD1306_color_t) (s : driver) :
  initialized (SSD1306 s) <> 0 ->
  (is_color color ->
   fst (SSD1306_fill color s) = LCD_OK
   /\ SSD1306 (snd (SSD1306_fill color s)) = SSD1306 s
   /\ bus (snd (SSD1306_fill color s)) = bus s
   /\ length (SSD1306_Buffer (snd (SSD1306_fill color s)))
      = Z.to_nat SSD1306_BUFFER_SIZE
   /\ forall px py, in_panel px py ->
        get_pixel (snd (SSD1306_fill color s)) px py
        = (color =? SSD1306_COLOR_WHITE))
  /\ (~ is_color color -> SSD1306_fill color s = (INVALID_PARAMS, s)).
Proof.
  intros Hi. apply Z.eqb_neq in Hi. unfold SSD1306_fill. rewrite Hi. split.
  - intros [-> | ->]; cbn [Z.eqb SSD1306_COLOR_BLACK SSD1306_COLOR_WHITE fst snd
                             set_buffer SSD1306 bus SSD1306_Buffer Pos.eqb];
      (do 3 (split; [reflexivity|])); (split; [apply length_replicate|]);
      intros px py Hp; unfold get_pixel, set_buffer; cbn [SSD1306_Buffer];
      unfold rd; pose proof (pixel_index_range px py Hp);
      pose proof (land7_range py);
      rewrite lookup_total_replicate_2 by lia.
    + apply Z.testbit_0_l.
    + change 255 with (Z.ones 8). apply Z.ones_spec_low. lia.
  - intros Hn. unfold is_color in Hn.
    destruct (Z.eqb_spec color SSD1306_COLOR_BLACK); [tauto|].
    destruct (Z.eqb_spec color SSD1306_COLOR_WHITE); [tauto|]. reflexivity.
Qed.

Lemma fill_all_pixels_witness :
  let s := snd (SSD1306_init 0 HAL_OK power_on) in
  get_pixel (snd (SSD1306_fill SSD1306_COLOR_WHITE s)) 100 50 = true
  /\ SSD1306_fill 7 s = (INVALID_PARAMS, s).
Proof.
  intros s.
  destruct (fill_all_pixels SSD1306_COLOR_WHITE s ltac:(vm_compute; discriminate))
    as [H _].
  destruct (fill_all_pixels 7 s ltac:(vm_compute; discriminate)) as [_ H7].
  split.
  - destruct (H (or_intror eq_refl)) as [_ [_ [_ [_ Hp]]]].
    apply Hp. unfold in_panel, SSD1306_WIDTH, SSD1306_HEIGHT. lia.
  - apply H7. intros [E | E]; vm_compute in E; discriminate.
Defined.

(** ** [SSD1306_updateScreen] and [SSD1306_clear] *)

Lemma page_events_data buf m :
  flat_map data_bytes (page_events buf m)
  = take (Z.to_nat SSD1306_WIDTH) (drop (Z.to_nat (SSD1306_WIDTH * m)) buf).
Proof.
  unfold page_events, command_event. cbn [flat_map data_bytes].
  change (0 =? 64) with false. change (64 =? 64) with true. cbv iota.
  cbn [app]. apply app_nil_r.
Qed.

Lemma page_events_commands buf m :
  flat_map command_bytes (page_events buf m) = [u8 (0xB0 + m); 0x00; 0x10].
Proof.
  unfold page_events, command_event. cbn [flat_map command_bytes].
  change (0 =? 0) with true. cbv iota.
  destruct (take _ _) as [|b [|b' l]]; reflexivity.
Qed.

Lemma pages_data (buf : list Z) (n : nat) :
  flat_map (fun m => flat_map data_bytes (page_events buf m)) (seqZ 0 (Z.of_nat n))
  = take (Z.to_nat SSD1306_WIDTH * n) buf.
Proof.
  induction n as [|n IH].
  - rewrite Nat.mul_0_r. reflexivity.
  - rewrite seqZ_S, flat_map_app, IH. cbn [flat_map]. rewrite app_nil_r.
    rewrite page_events_data.
    replace (Z.to_nat (SSD1306_WIDTH * (0 + Z.of_nat n)))
      with (Z.to_nat SSD1306_WIDTH * n)%nat by (unfold SSD1306_WIDTH; lia).
    rewrite take_take_drop. f_equal. lia.
Qed.

Lemma flat_map_flat_map {A B C : Type} (f : A -> list B) (g : B -> list C) l :
  flat_map g (flat_map f l) = flat_map (fun a => flat_map g (f a)) l.
Proof.
  induction l as [|a l IH]; [reflexivity|].
  cbn [flat_map]. rewrite flat_map_app, IH. reflexivity.
Qed.

(** What a flush puts on the bus, for a buffer of the right size. *)
Lemma updateScreen_flush s :
  initialized (SSD1306 s) <> 0 ->
  length (SSD1306_Buffer s) = Z.to_nat SSD1306_BUFFER_SIZE ->
  exists sent,
    SSD1306_updateScreen s
    = (LCD_OK, mkDriver (SSD1306_Buffer s) (SSD1306 s) (bus s ++ sent))
    /\ length sent = 32%nat
    /\ flat_map data_bytes sent = SSD1306_Buffer s
    /\ flat_map command_bytes sent
       = flat_map (fun m => [0xB0 + m; 0x00; 0x10]) (seqZ 0 8).
Proof.
  intros Hi Hlen. rewrite (updateScreen_bus s Hi).
  exists (flat_map (page_events (SSD1306_Buffer s)) (seqZ 0 8)).
  split; [reflexivity|]. split; [reflexivity|]. split.
  - rewrite flat_map_flat_map.
    pose proof (pages_data (SSD1306_Buffer s) 8) as H.
    change (Z.of_nat 8) with 8 in H. rewrite H.
    apply take_ge. rewrite Hlen. vm_compute. lia.
  - rewrite flat_map_flat_map.
    change (seqZ 0 8) with [0; 1; 2; 3; 4; 5; 6; 7]. cbn [flat_map].
    rewrite !page_events_commands. reflexivity.
Qed.

(** X4.  On an initialised display [SSD1306_updateScreen] returns [LCD_OK],
    changes neither buffer nor cursor nor flags, and sends 32 transmissions:
    for each page 0 to 7 the commands [0xB0 + page], [0x00], [0x10] and one
    data write.  The data bytes sent, in order, are exactly the 1024 bytes
    of the frame buffer. *)
Theorem updateScreen_sends_buffer (s : driver) :
  initialized (SSD1306 s) <> 0 ->
  length (SSD1306_Buffer s) = Z.to_nat SSD1306_BUFFER_SIZE ->
  exists sent,
    SSD1306_updateScreen s
    = (LCD_OK, mkDriver (SSD1306_Buffer s) (SSD1306 s) (bus s ++ sent))
    /\ length sent = 32%nat
    /\ flat_map data_bytes sent = SSD1306_Buffer s
    /\ flat_map command_bytes sent
       = flat_map (fun m => [0xB0 + m; 0x00; 0x10]) (seqZ 0 8).
Proof. exact (updateScreen_flush s). Qed.

Lemma updateScreen_sends_buffer_witness :
  let s := snd (SSD1306_drawPixel 3 3 SSD1306_COLOR_WHITE
                  (snd (SSD1306_init 0 HAL_OK power_on))) in
  exists sent,
    bus (snd (SSD1306_updateScreen s)) = bus s ++ sent
    /\ flat_map data_bytes sent = SSD1306_Buffer s.
Proof.
  intros s.
  destruct (updateScreen_sends_buffer s ltac:(vm_compute; discriminate) eq_refl)
    as [sent [H1 [_ [H2 _]]]].
  exists sent. rewrite H1. split; [reflexivity | exact H2].
Defined.

(** X5.  On an initialised display [SSD1306_clear] returns [LCD_OK], leaves
    the buffer all zero (every pixel dark), keeps cursor and flags, and
    flushes: the data bytes it sends are the 1024 zero bytes of the cleared
    buffer. *)
Theorem clear_zeroes_and_flushes (s : driver) :
  initialized (SSD1306 s) <> 0 ->
  exists sent,
    SSD1306_clear s
    = (LCD_OK,
       mkDriver (replicate (Z.to_nat SSD1306_BUFFER_SIZE) 0) (SSD1306 s)
                (bus s ++ sent))
    /\ length sent = 32%nat
    /\ flat_map data_bytes sent = replicate (Z.to_nat SSD1306_BUFFER_SIZE) 0
    /\ forall px py, in_panel px py -> get_pixel (snd (SSD1306_clear s)) px py = false.
Proof.
  intros Hi. pose proof Hi as Hi'. apply Z.eqb_neq in Hi'.
  unfold SSD1306_clear, SSD1306_fill. rewrite Hi'.
  change (SSD1306_COLOR_BLACK =? SSD1306_COLOR_BLACK) with true.
  cbv iota zeta. cbn [fst snd].
  set (s1 := set_buffer (replicate (Z.to_nat SSD1306_BUFFER_SIZE) 0) s).
  destruct (updateScreen_flush s1 Hi (length_replicate _ _))
    as [sent [H1 [H2 [H3 _]]]].
  exists sent. rewrite H1. cbn [snd]. split; [reflexivity|].
  split; [exact H2|]. split; [exact H3|].
  intros px py Hp. apply get_pixel_blank; [reflexivity | exact Hp].
Qed.

Lemma clear_zeroes_and_flushes_witness :
  let s := snd (SSD1306_drawPixel 3 3 SSD1306_COLOR_WHITE
                  (snd (SSD1306_init 0 HAL_OK power_on))) in
  get_pixel s 3 3 = true /\ get_pixel (snd (SSD1306_clear s)) 3 3 = false.
Proof.
  intros s. split; [reflexivity|].
  destruct (clear_zeroes_and_flushes s ltac:(vm_compute; discriminate))
    as [sent [_ [_ [_ H]]]].
  apply H. unfold in_panel, SSD1306_WIDTH, SSD1306_HEIGHT. lia.
Defined.

(** ** [SSD1306_init] when the probe fails *)

(** X6.  When [HAL_I2C_IsDeviceReady] does not answer [HAL_OK],
    [SSD1306_init] returns [I2C_ERROR] having sent nothing but the probe; the
    buffer and the [inverted] flag are as before, the cursor is at the
    origin and [initialized] is zero, even if the display had been
    initialised earlier.  The guarded routines then all answer [NO_INIT]
    without any effect. *)
Theorem init_probe_fails (i2c : Z) (ready : HAL_StatusTypeDef) (s : driver) :
  ready <> HAL_OK ->
  let s' := snd (SSD1306_init i2c ready s) in
  fst (SSD1306_init i2c ready s) = I2C_ERROR
  /\ SSD1306_Buffer s' = SSD1306_Buffer s
  /\ SSD1306 s' = mkSSD1306 i2c 0 0 (inverted (SSD1306 s)) 0
  /\ bus s' = bus s ++ [IsDeviceReady SSD1306_I2C_ADDR 10 SSD1306_I2C_TIMEOUT]
  /\ SSD1306_updateScreen s' = (NO_INIT, s')
  /\ SSD1306_clear s' = (NO_INIT, s')
  /\ SSD1306_toggleInvert s' = (NO_INIT, s')
  /\ (forall color, SSD1306_fill color s' = (NO_INIT, s'))
  /\ (forall v, SSD1306_invertDisplay v s' = (NO_INIT, s')).
Proof.
  intros Hr s'. subst s'.
  destruct ready; [congruence| | |];
    destruct s as [buf [p cx cy inv ini] log]; repeat split.
Qed.

Lemma init_probe_fails_witness :
  let s := snd (SSD1306_init 0 HAL_OK power_on) in
  initialized (SSD1306 s) = 1
  /\ SSD1306_updateScreen (snd (SSD1306_init 0 HAL_TIMEOUT s))
     = (NO_INIT, snd (SSD1306_init 0 HAL_TIMEOUT s)).
Proof.
  intros s. split; [reflexivity|].
  apply (init_probe_fails 0 HAL_TIMEOUT s). discriminate.
Defined.

(** ** Invariants of the driver state *)

(** X7.  Every state the driver can reach from start-up has the shape its C
    types promise: the buffer holds exactly 1024 values in 0..255, the
    cursor coordinates fit [uint16_t], and [inverted] is 0 or 1. *)
Theorem reachable_states_wf (s : driver) : reachable s -> wf s.
Proof. apply reachable_wf. Qed.

Lemma reachable_states_wf_witness :
  wf (snd (SSD1306_toggleInvert
             (snd (SSD1306_drawPixel 1 2 SSD1306_COLOR_WHITE
                     (snd (SSD1306_init 0 HAL_OK power_on)))))).
Proof.
  apply reachable_states_wf.
  apply reach_toggleInvert, reach_drawPixel, reach_init, reach_power_on.
Defined.

Lemma same_cursor_lcd s s' : SSD1306 s' = SSD1306 s -> same_cursor s s'.
Proof. intros H. unfold same_cursor. rewrite H. auto. Qed.

Lemma same_cursor_paints s s' : paints s s' -> same_cursor s s'.
Proof. intros [H _]. apply same_cursor_lcd, H. Qed.

Lemma putc_cursor ch font color s :
  0 <= fontWidth font -> cursor_in_panel s ->
  cursor_in_panel (snd (SSD1306_putc ch font color s)).
Proof.
  intros Hfw Hc. destruct (putc_rejects font s) eqn:E.
  - rewrite putc_rejected by exact E. exact Hc.
  - rewrite (putc_accepted_state ch font color s E). cbv zeta.
    unfold cursor_in_panel in *.
    cbn [snd set_lcd SSD1306 set_currentX currentX currentY].
    rewrite plot_all_lcd.
    unfold putc_rejects in E. apply orb_false_iff in E as [E1 E2].
    apply Z.leb_gt in E1, E2. destruct Hc as [Hx Hy].
    unfold in_panel, SSD1306_WIDTH, SSD1306_HEIGHT in *.
    rewrite u16_small by lia. lia.
Qed.

Lemma puts_cursor str font color s :
  0 <= fontWidth font -> cursor_in_panel s ->
  cursor_in_panel (snd (SSD1306_puts str font color s)).
Proof.
  intros Hfw. revert s. induction str as [|ch str IH]; intros s Hc; simpl;
    [exact Hc|].
  destruct (ch =? 0); [exact Hc|]. apply IH, putc_cursor; assumption.
Qed.

(** X8.  The text cursor never leaves the panel.  It starts at the origin;
    [SSD1306_init] resets it, [SSD1306_gotoXY] moves it only to a position
    inside the panel, and [SSD1306_putc] and [SSD1306_puts] (for a font of
    [uint8_t] width) advance it only while it stays left of the last
    column.  No other routine moves it. *)
Theorem cursor_never_leaves_panel (s : driver) :
  cursor_in_panel s ->
  cursor_in_panel power_on
  /\ (forall i2c ready, cursor_in_panel (snd (SSD1306_init i2c ready s)))
  /\ (forall x y, 0 <= x -> 0 <= y -> cursor_in_panel (snd (SSD1306_gotoXY x y s)))
  /\ (forall ch font color, 0 <= fontWidth font ->
        cursor_in_panel (snd (SSD1306_putc ch font color s)))
  /\ (forall str font color, 0 <= fontWidth font ->
        cursor_in_panel (snd (SSD1306_puts str font color s)))
  /\ same_cursor s (snd (SSD1306_clear s))
  /\ same_cursor s (snd (SSD1306_updateScreen s))
  /\ same_cursor s (snd (SSD1306_toggleInvert s))
  /\ (forall color, same_cursor s (snd (SSD1306_fill color s)))
  /\ (forall v, same_cursor s (snd (SSD1306_invertDisplay v s)))
  /\ (forall x y color, same_cursor s (snd (SSD1306_drawPixel x y color s)))
  /\ (forall x y bitmap w h color,
        same_cursor s (snd (SSD1306_drawBitmap x y bitmap w h color s)))
  /\ (forall fuel x0 y0 x1 y1 color r,
        SSD1306_drawLine fuel x0 y0 x1 y1 color s = Some r -> same_cursor s (snd r))
  /\ (forall fuel x y w h color r,
        SSD1306_drawRectangle fuel x y w h color s = Some r -> same_cursor s (snd r))
  /\ (forall fuel x y w h color r,
        SSD1306_drawFilledRectangle fuel x y w h color s = Some r ->
        same_cursor s (snd r))
  /\ (forall fuel x1 y1 x2 y2 x3 y3 color r,
        SSD1306_drawTriangle fuel x1 y1 x2 y2 x3 y3 color s = Some r ->
        same_cursor s (snd r))
  /\ (forall fuel x1 y1 x2 y2 x3 y3 color r,
        SSD1306_drawFilledTriangle fuel x1 y1 x2 y2 x3 y3 color s = Some r ->
        same_cursor s (snd r))
  /\ (forall fuel x0 y0 r color res,
        SSD1306_drawCircle fuel x0 y0 r color s = Some res -> same_cursor s (snd res))
  /\ (forall fuel x0 y0 r color res,
        SSD1306_drawFilledCircle fuel x0 y0 r color s = Some res ->
        same_cursor s (snd res)).
Proof.
  intros Hc.
  split; [unfold cursor_in_panel, in_panel, SSD1306_WIDTH, SSD1306_HEIGHT; simpl; lia|].
  split.
  { intros i2c ready. destruct ready; [rewrite init_ok_state| | |];
      unfold cursor_in_panel, in_panel, SSD1306_WIDTH, SSD1306_HEIGHT; simpl; lia. }
  split.
  { intros x y Hx Hy. unfold SSD1306_gotoXY.
    destruct (Z.geb_spec x SSD1306_WIDTH); [exact Hc|].
    destruct (Z.geb_spec y SSD1306_HEIGHT); [exact Hc|].
    unfold cursor_in_panel, in_panel. simpl. lia. }
  split; [intros; apply putc_cursor; assumption|].
  split; [intros; apply puts_cursor; assumption|].
  split.
  { unfold SSD1306_clear, SSD1306_fill, SSD1306_updateScreen.
    destruct (initialized (SSD1306 s) =? 0) eqn:E; [split; reflexivity|].
    cbn [snd fst]. change (SSD1306_COLOR_BLACK =? SSD1306_COLOR_BLACK) with true.
    cbv iota. cbn [snd set_buffer SSD1306]. rewrite E. cbn [snd].
    unfold for_range. rewrite updateScreen_pages. split; reflexivity. }
  split.
  { unfold SSD1306_updateScreen.
    destruct (initialized (SSD1306 s) =? 0); [split; reflexivity|].
    cbn [snd]. unfold for_range. rewrite updateScreen_pages. split; reflexivity. }
  split.
  { unfold SSD1306_toggleInvert.
    destruct (initialized (SSD1306 s) =? 0); split; reflexivity. }
  split.
  { intros color. unfold SSD1306_fill.
    repeat match goal with |- context [if ?b then _ else _] => destruct b end;
      split; reflexivity. }
  split.
  { intros v. unfold SSD1306_invertDisplay.
    repeat match goal with |- context [if ?b then _ else _] => destruct b end;
      split; reflexivity. }
  split; [intros; apply same_cursor_lcd, drawPixel_lcd|].
  split; [intros; apply same_cursor_paints, drawBitmap_paints|].
  split; [intros; eapply same_cursor_paints, drawLine_paints; eassumption|].
  split; [intros; eapply same_cursor_paints, drawRectangle_paints; eassumption|].
  split; [intros; eapply same_cursor_paints, drawFilledRectangle_paints; eassumption|].
  split; [intros; eapply same_cursor_paints, drawTriangle_paints; eassumption|].
  split; [intros; eapply same_cursor_paints, drawFilledTriangle_paints; eassumption|].
  split; [intros; eapply same_cursor_paints, drawCircle_paints; eassumption|].
  intros; eapply same_cursor_paints, drawFilledCircle_paints; eassumption.
Qed.

Lemma cursor_never_leaves_panel_witness :
  cursor_in_panel
    (snd (SSD1306_puts [72; 105] striped_7x10 SSD1306_COLOR_WHITE
            (snd (SSD1306_gotoXY 120 0 power_on)))).
Proof.
  apply (cursor_never_leaves_panel (snd (SSD1306_gotoXY 120 0 power_on))).
  - unfold cursor_in_panel, in_panel, SSD1306_WIDTH, SSD1306_HEIGHT. simpl. lia.
  - simpl. lia.
Defined.

(** ** How far [SSD1306_puts] gets *)

Lemma putc_accepted_lcd ch font color s :
  putc_rejects font s = false ->
  0 <= currentX (SSD1306 s) + fontWidth font ->
  SSD1306 (snd (SSD1306_putc ch font color s))
  = set_currentX (currentX (SSD1306 s) + fontWidth font) (SSD1306 s).
Proof.
  intros E Hpos. rewrite (putc_accepted_state ch font color s E). cbv zeta.
  cbn [snd set_lcd SSD1306]. rewrite plot_all_lcd.
  unfold putc_rejects in E. apply orb_false_iff in E as [E1 _].
  apply Z.leb_gt in E1. unfold SSD1306_WIDTH in E1.
  rewrite u16_small by lia. reflexivity.
Qed.

Lemma puts_progress str font color :
  0 < fontWidth font -> Forall (fun ch => ch <> 0) str ->
  forall s,
    cursor_in_panel s ->
    currentY (SSD1306 s) + fontHeight font < SSD1306_HEIGHT ->
    currentX (SSD1306 (snd (SSD1306_puts str font color s)))
    = currentX (SSD1306 s)
      + fontWidth font
        * Z.min (Z.of_nat (length str))
                ((SSD1306_WIDTH - 1 - currentX (SSD1306 s)) / fontWidth font)
    /\ currentY (SSD1306 (snd (SSD1306_puts str font color s)))
       = currentY (SSD1306 s).
Proof.
  intros Hfw Hnz. induction Hnz as [|ch str Hch Hnz IH]; intros s Hc Hy.
  - cbn [SSD1306_puts snd length]. destruct Hc as [Hx _].
    unfold SSD1306_WIDTH in *.
    assert (0 <= (128 - 1 - currentX (SSD1306 s)) / fontWidth font)
      by (apply Z.div_pos; lia).
    rewrite Z.min_l by (simpl; lia). split; [simpl; lia | reflexivity].
  - cbn [SSD1306_puts]. apply Z.eqb_neq in Hch. rewrite Hch.
    pose proof Hc as [Hx Hcy]. unfold SSD1306_WIDTH, SSD1306_HEIGHT in *.
    destruct (putc_rejects font s) eqn:E.
    + rewrite putc_rejected by exact E. cbn [snd].
      rewrite puts_stuck by exact E. cbn [snd].
      unfold putc_rejects in E. apply orb_true_iff in E as [E | E];
        [|apply Z.leb_le in E; unfold SSD1306_HEIGHT in E; lia].
      apply Z.leb_le in E. unfold SSD1306_WIDTH in E.
      rewrite Z.div_small by lia. rewrite Z.min_r by lia.
      split; [lia | reflexivity].
    + pose proof (putc_cursor ch font color s ltac:(lia) Hc) as Hc1.
      pose proof (putc_accepted_lcd ch font color s E ltac:(lia)) as Hl.
      set (s1 := snd (SSD1306_putc ch font color s)) in *.
      assert (Hx1 : currentX (SSD1306 s1) = currentX (SSD1306 s) + fontWidth font)
        by (rewrite Hl; reflexivity).
      assert (Hy1 : currentY (SSD1306 s1) = currentY (SSD1306 s))
        by (rewrite Hl; reflexivity).
      destruct (IH s1 Hc1 ltac:(unfold SSD1306_HEIGHT; lia)) as [IHx IHy].
      rewrite IHx, IHy, Hx1, Hy1. split; [|reflexivity].
      unfold putc_rejects in E. apply orb_false_iff in E as [E _].
      apply Z.leb_gt in E. unfold SSD1306_WIDTH in *.
      set (cx := currentX (SSD1306 s)) in *. set (fw := fontWidth font) in *.
      replace (128 - 1 - (cx + fw)) with (128 - 1 - cx + (-1) * fw) by lia.
      rewrite Z.div_add by lia.
      assert (1 <= (128 - 1 - cx) / fw)
        by (apply Z.div_le_lower_bound; lia).
      rewrite length_cons, Nat2Z.inj_succ.
      destruct (Z.min_spec (Z.of_nat (length str)) ((128 - 1 - cx) / fw + -1))
        as [[? ->] | [? ->]];
        destruct (Z.min_spec (Z.succ (Z.of_nat (length str))) ((128 - 1 - cx) / fw))
          as [[? ->] | [? ->]]; nia.
Qed.

(** X9.  [SSD1306_puts] writes as many characters as fit.  With the cursor
    at column [cx] of a row where the font's height fits, a string of [n]
    characters in a font of width [fw > 0] moves the cursor to
    [cx + fw * min n ((SSD1306_WIDTH - 1 - cx) / fw)] and keeps its row: the
    characters beyond that count are dropped without a trace.  On a row
    where the height does not fit nothing is written at all. *)
Theorem puts_advance (str : list Z) (font : FontDef_t) (color : SSD1306_color_t)
    (s : driver) :
  cursor_in_panel s -> 0 < fontWidth font -> Forall (fun ch => ch <> 0) str ->
  (currentY (SSD1306 s) + fontHeight font < SSD1306_HEIGHT ->
   currentX (SSD1306 (snd (SSD1306_puts str font color s)))
   = currentX (SSD1306 s)
     + fontWidth font
       * Z.min (Z.of_nat (length str))
               ((SSD1306_WIDTH - 1 - currentX (SSD1306 s)) / fontWidth font)
   /\ currentY (SSD1306 (snd (SSD1306_puts str font color s)))
      = currentY (SSD1306 s))
  /\ (SSD1306_HEIGHT <= currentY (SSD1306 s) + fontHeight font ->
      SSD1306_puts str font color s = (LCD_OK, s)).
Proof.
  intros Hc Hfw Hnz. split.
  - intros Hy. apply puts_progress; assumption.
  - intros Hy. apply puts_stuck. unfold putc_rejects.
    apply orb_true_iff. right. apply Z.leb_le, Hy.
Qed.

Lemma puts_advance_witness :
  let s := snd (SSD1306_gotoXY 100 0 power_on) in
  currentX (SSD1306 (snd (SSD1306_puts [72; 101; 108; 108; 111] striped_7x10
                            SSD1306_COLOR_WHITE s)))
  = 100 + 7 * 3.
Proof.
  intros s.
  destruct (puts_advance [72; 101; 108; 108; 111] striped_7x10 SSD1306_COLOR_WHITE s)
    as [H _].
  - unfold cursor_in_panel, in_panel, SSD1306_WIDTH, SSD1306_HEIGHT. simpl. lia.
  - simpl. lia.
  - repeat constructor; discriminate.
  - destruct H as [H _]; [simpl; unfold SSD1306_HEIGHT; lia|]. exact H.
Defined.

(** ** Routines that only send commands *)

Lemma write_commands_sends cmds :
  Forall (fun c => 0 <= c < 256) cmds ->
  forall s, sends_commands cmds s (write_commands cmds s).
Proof.
  unfold write_commands.
  induction 1 as [|c cmds Hc _ IH]; intros s.
  - cbn [fold_left map]. unfold sends_commands. rewrite app_nil_r. auto.
  - cbn [fold_left]. destruct (IH (SSD1306_WRITECOMMAND c s)) as (Hb & Hl & Hbus).
    unfold sends_commands. rewrite Hb, Hl, Hbus.
    unfold SSD1306_WRITECOMMAND, SSD1306_I2C_Write, emit.
    cbn [SSD1306_Buffer SSD1306 bus map]. rewrite u8_small by lia.
    rewrite <- app_assoc. auto.
Qed.

Lemma scroll_check MAX start_page end_page (A : Type) (a b : A) :
  (if (start_page >=? MAX) || (end_page >=? MAX) then a
   else if start_page >? end_page then a else b)
  = if (start_page <=? end_page) && (end_page <? MAX) then b else a.
Proof.
  destruct (Z.geb_spec start_page MAX), (Z.geb_spec end_page MAX),
    (Z.gtb_spec start_page end_page), (Z.leb_spec start_page end_page),
    (Z.ltb_spec end_page MAX); try reflexivity; lia.
Qed.

(** X10.  The four scroll routines accept exactly the page ranges with
    [start_page <= end_page < SSD1306_MAX_PAGE_NUM].  An accepted call
    returns [LCD_OK] after sending eight command bytes (horizontal scroll)
    or ten (diagonal scroll) that carry the two pages and end with the
    activation command [2F]; it changes neither buffer, cursor nor flags.
    A rejected call returns [INVALID_PARAMS] and sends nothing.  Neither
    outcome depends on the driver having been initialised. *)
Theorem scroll_page_range (MAX start_page end_page : Z) (s : driver) :
  0 <= start_page < 256 -> 0 <= end_page < 256 ->
  if (start_page <=? end_page) && (end_page <? MAX) then
    (fst (SSD1306_scrollRight MAX start_page end_page s) = LCD_OK
     /\ sends_commands (horizontal_scroll 0x26 start_page end_page) s
          (snd (SSD1306_scrollRight MAX start_page end_page s)))
    /\ (fst (SSD1306_scrollLeft MAX start_page end_page s) = LCD_OK
        /\ sends_commands (horizontal_scroll 0x27 start_page end_page) s
             (snd (SSD1306_scrollLeft MAX start_page end_page s)))
    /\ (fst (SSD1306_scrollDiagRight MAX start_page end_page s) = LCD_OK
        /\ sends_commands (diagonal_scroll 0x29 start_page end_page) s
             (snd (SSD1306_scrollDiagRight MAX start_page end_page s)))
    /\ (fst (SSD1306_scrollDiagLeft MAX start_page end_page s) = LCD_OK
        /\ sends_commands (diagonal_scroll 0x2A start_page end_page) s
             (snd (SSD1306_scrollDiagLeft MAX start_page end_page s)))
  else
    SSD1306_scrollRight MAX start_page end_page s = (INVALID_PARAMS, s)
    /\ SSD1306_scrollLeft MAX start_page end_page s = (INVALID_PARAMS, s)
    /\ SSD1306_scrollDiagRight MAX start_page end_page s = (INVALID_PARAMS, s)
    /\ SSD1306_scrollDiagLeft MAX start_page end_page s = (INVALID_PARAMS, s).
Proof.
  intros Hs He.
  unfold SSD1306_scrollRight, SSD1306_scrollLeft, SSD1306_scrollDiagRight,
    SSD1306_scrollDiagLeft.
  rewrite !scroll_check.
  destruct ((start_page <=? end_page) && (end_page <? MAX)).
  - cbn [fst snd].
    repeat split; try reflexivity;
      apply write_commands_sends; repeat constructor;
      unfold SSD1306_HEIGHT; try lia; try discriminate.
  - repeat split.
Qed.

Lemma scroll_page_range_witness :
  fst (SSD1306_scrollLeft 8 2 5 power_on) = LCD_OK
  /\ sends_commands (horizontal_scroll 0x27 2 5) power_on
       (snd (SSD1306_scrollLeft 8 2 5 power_on)).
Proof.
  pose proof (scroll_page_range 8 2 5 power_on ltac:(lia) ltac:(lia)) as H.
  change ((2 <=? 5) && (5 <? 8)) with true in H. cbv iota in H.
  exact (proj1 (proj2 H)).
Defined.

(** ** Shapes are drawn in one colour *)

Lemma u16_nonneg x : 0 <= u16 x.
Proof. pose proof (u16_range x). lia. Qed.

Ltac nonneg :=
  first [ assumption | apply u16_nonneg
        | unfold SSD1306_WIDTH, SSD1306_HEIGHT; lia ].

Section Tints.
Variable c : SSD1306_color_t.
Hypothesis Hc : is_color c.

Lemma tints_refl s : tints c s s.
Proof. unfold tints. auto. Qed.

Lemma tints_trans s1 s2 s3 : tints c s1 s2 -> tints c s2 s3 -> tints c s1 s3.
Proof.
  intros (L1 & B1 & N1 & P1) (L2 & B2 & N2 & P2).
  unfold tints. rewrite L2, B2, N2. do 3 (split; [assumption|]).
  intros px py Hp. rewrite (effective_color_lcd c s1 s2 L1) in P2.
  destruct (P2 px py Hp) as [-> | ->]; auto.
Qed.

Lemma tints_stays s s' x y :
  tints c s s' -> in_panel x y ->
  get_pixel s x y = (effective_color c s =? SSD1306_COLOR_WHITE) ->
  get_pixel s' x y = (effective_color c s =? SSD1306_COLOR_WHITE).
Proof.
  intros (_ & _ & _ & P) Hp E. destruct (P x y Hp) as [-> | ->]; auto.
Qed.

Lemma drawPixel_tints x y s :
  length (SSD1306_Buffer s) = Z.to_nat SSD1306_BUFFER_SIZE ->
  0 <= x -> 0 <= y -> tints c s (snd (SSD1306_drawPixel x y c s)).
Proof.
  intros Hlen Hx Hy. unfold tints.
  rewrite drawPixel_lcd, drawPixel_bus, drawPixel_length.
  do 3 (split; [reflexivity|]). intros px py Hp.
  rewrite get_pixel_drawPixel by assumption.
  destruct ((px =? x) && (py =? y)); auto.
Qed.

Lemma tints_length s0 s :
  length (SSD1306_Buffer s0) = Z.to_nat SSD1306_BUFFER_SIZE ->
  tints c s0 s -> length (SSD1306_Buffer s) = Z.to_nat SSD1306_BUFFER_SIZE.
Proof. intros Hlen (_ & _ & N & _). congruence. Qed.

Lemma tints_drawPixel s0 x y s :
  length (SSD1306_Buffer s0) = Z.to_nat SSD1306_BUFFER_SIZE ->
  0 <= x -> 0 <= y ->
  tints c s0 s -> tints c s0 (snd (SSD1306_drawPixel x y c s)).
Proof.
  intros Hlen Hx Hy HT. eapply tints_trans; [exact HT|].
  apply drawPixel_tints; eauto using tints_length.
Qed.

Lemma tints_for_range {A : Type} (proj : A -> driver) s0 lo n
    (body : Z -> A -> A) a :
  (forall i a, tints c s0 (proj a) -> tints c s0 (proj (body i a))) ->
  tints c s0 (proj a) -> tints c s0 (proj (for_range lo n body a)).
Proof.
  intros Hb Ha. unfold for_range.
  apply (fold_left_inv (fun a => tints c s0 (proj a))); auto.
Qed.

Lemma tints_plot_all s0 l s :
  length (SSD1306_Buffer s0) = Z.to_nat SSD1306_BUFFER_SIZE ->
  Forall (fun t => 0 <= fst (fst t) /\ 0 <= snd (fst t) /\ snd t = c) l ->
  tints c s0 s -> tints c s0 (plot_all l s).
Proof.
  intros Hlen Hl. revert s. induction Hl as [|t l (Hx & Hy & Ht) _ IH]; intros s HT.
  - exact HT.
  - rewrite plot_all_cons. apply IH. rewrite Ht. apply tints_drawPixel; assumption.
Qed.

Lemma tints_circle_plots s0 x0 y0 offs s :
  length (SSD1306_Buffer s0) = Z.to_nat SSD1306_BUFFER_SIZE ->
  tints c s0 s -> tints c s0 (plot_all (circle_plots x0 y0 offs c) s).
Proof.
  intros Hlen. apply tints_plot_all; [assumption|].
  unfold circle_plots. apply List.Forall_forall. intros t Ht.
  apply in_map_iff in Ht as [d [<- _]]. cbn [fst snd].
  auto using u16_nonneg.
Qed.

Lemma drawLine_loop_tints s0 fuel :
  length (SSD1306_Buffer s0) = Z.to_nat SSD1306_BUFFER_SIZE ->
  forall x0 y0 x1 y1 dx dy sx sy err s s',
    0 <= x0 -> 0 <= y0 -> tints c s0 s ->
    drawLine_loop fuel x0 y0 x1 y1 dx dy sx sy err c s = Some s' ->
    tints c s0 s'.
Proof.
  intros Hlen.
  induction fuel as [|fuel IH]; intros x0 y0 x1 y1 dx dy sx sy err s s' Hx Hy HT H;
    [discriminate|].
  cbn [drawLine_loop] in H.
  pose proof (tints_drawPixel s0 x0 y0 s Hlen Hx Hy HT) as Hp.
  destruct ((x0 =? x1) && (y0 =? y1)); [injection H as <-; exact Hp|].
  destruct (err >? - dx); destruct (err <? dy);
    apply IH in H; auto using u16_nonneg.
Qed.

(** The pixel at which the loop stops was the last one drawn. *)
Lemma drawLine_loop_end fuel :
  forall x0 y0 x1 y1 dx dy sx sy err s s',
    length (SSD1306_Buffer s) = Z.to_nat SSD1306_BUFFER_SIZE ->
    0 <= x0 -> 0 <= y0 -> in_panel x1 y1 ->
    drawLine_loop fuel x0 y0 x1 y1 dx dy sx sy err c s = Some s' ->
    get_pixel s' x1 y1 = (effective_color c s =? SSD1306_COLOR_WHITE).
Proof.
  induction fuel as [|fuel IH];
    intros x0 y0 x1 y1 dx dy sx sy err s s' Hlen Hx Hy Hp H; [discriminate|].
  cbn [drawLine_loop] in H.
  set (s1 := snd (SSD1306_drawPixel x0 y0 c s)) in *.
  assert (Hlen1 : length (SSD1306_Buffer s1) = Z.to_nat SSD1306_BUFFER_SIZE)
    by (unfold s1; rewrite drawPixel_length; exact Hlen).
  assert (He : effective_color c s1 = effective_color c s)
    by (apply effective_color_lcd, drawPixel_lcd).
  destruct ((x0 =? x1) && (y0 =? y1)) eqn:E.
  - injection H as <-. unfold s1. rewrite get_pixel_drawPixel by assumption.
    apply andb_prop in E as [E1 E2]. apply Z.eqb_eq in E1, E2. subst.
    rewrite !Z.eqb_refl. reflexivity.
  - rewrite <- He.
    destruct (err >? - dx); destruct (err <? dy);
      apply IH in H; auto using u16_nonneg.
Qed.

(** The pixel at which the loop starts is drawn, and stays. *)
Lemma drawLine_loop_start fuel x0 y0 x1 y1 dx dy sx sy err s s' :
  length (SSD1306_Buffer s) = Z.to_nat SSD1306_BUFFER_SIZE ->
  in_panel x0 y0 ->
  drawLine_loop fuel x0 y0 x1 y1 dx dy sx sy err c s = Some s' ->
  get_pixel s' x0 y0 = (effective_color c s =? SSD1306_COLOR_WHITE).
Proof.
  intros Hlen Hp H.
  assert (Hx : 0 <= x0) by (destruct Hp; lia).
  assert (Hy : 0 <= y0) by (destruct Hp; lia).
  destruct fuel as [|fuel]; [discriminate|].
  set (s1 := snd (SSD1306_drawPixel x0 y0 c s)).
  assert (Hlen1 : length (SSD1306_Buffer s1) = Z.to_nat SSD1306_BUFFER_SIZE)
    by (unfold s1; rewrite drawPixel_length; exact Hlen).
  assert (He : effective_color c s1 = effective_color c s)
    by (apply effective_color_lcd, drawPixel_lcd).
  assert (H1 : get_pixel s1 x0 y0 = (effective_color c s1 =? SSD1306_COLOR_WHITE)).
  { rewrite He. unfold s1. rewrite get_pixel_drawPixel by assumption.
    rewrite !Z.eqb_refl. reflexivity. }
  assert (HT : tints c s1 s').
  { cbn [drawLine_loop] in H. fold s1 in H.
    destruct ((x0 =? x1) && (y0 =? y1)); [injection H as <-; apply tints_refl|].
    destruct (err >? - dx); destruct (err <? dy);
      eapply (drawLine_loop_tints s1) in H;
      eauto using u16_nonneg, tints_refl. }
  rewrite <- He. eapply tints_stays; eassumption.
Qed.

Lemma drawLine_tints s0 fuel x0 y0 x1 y1 s r :
  length (SSD1306_Buffer s0) = Z.to_nat SSD1306_BUFFER_SIZE ->
  0 <= x0 -> 0 <= y0 -> tints c s0 s ->
  SSD1306_drawLine fuel x0 y0 x1 y1 c s = Some r -> tints c s0 (snd r).
Proof.
  intros Hlen Hx0 Hy0 HT. unfold SSD1306_drawLine. cbv zeta.
  repeat match goal with
    | |- context [if ?b then (_, _) else (_, _)] => destruct b
    end; cbv iota beta.
  all: repeat match goal with |- context [if ?b then _ else _] => destruct b end.
  all: try (intros [= <-]; cbn [snd];
            apply (tints_for_range (fun a => a)); [|assumption];
            intros; apply tints_drawPixel; nonneg).
  all: intros H; apply bind_Some in H as [s' [H [= <-]]];
    eapply drawLine_loop_tints in H; eauto; nonneg.
Qed.

End Tints.

(** ** Lines between arbitrary points *)

(** A line whose clamped end points differ in both coordinates goes through
    the stepping loop. *)
Lemma drawLine_slanted fuel x0 y0 x1 y1 color s :
  0 <= x0 -> 0 <= y0 -> 0 <= x1 -> 0 <= y1 ->
  let cx0 := Z.min x0 (SSD1306_WIDTH - 1) in
  let cx1 := Z.min x1 (SSD1306_WIDTH - 1) in
  let cy0 := Z.min y0 (SSD1306_HEIGHT - 1) in
  let cy1 := Z.min y1 (SSD1306_HEIGHT - 1) in
  cx0 <> cx1 -> cy0 <> cy1 ->
  SSD1306_drawLine fuel x0 y0 x1 y1 color s
  = (s' ← drawLine_loop fuel cx0 cy0 cx1 cy1
            (Z.abs (cx1 - cx0)) (Z.abs (cy1 - cy0))
            (if cx0 <? cx1 then 1 else -1) (if cy0 <? cy1 then 1 else -1)
            (s16 (Z.shiftr (if Z.abs (cx1 - cx0) >? Z.abs (cy1 - cy0)
                            then Z.abs (cx1 - cx0) else - Z.abs (cy1 - cy0)) 1))
            color s;
     Some (LCD_OK, s')).
Proof.
  intros Hx0 Hy0 Hx1 Hy1 cx0 cx1 cy0 cy1 Nx Ny.
  unfold SSD1306_drawLine. rewrite !clampW, !clampH. cbv zeta.
  fold cx0 cx1 cy0 cy1.
  assert (Bx0 : 0 <= cx0 <= 127) by (unfold cx0, SSD1306_WIDTH; lia).
  assert (Bx1 : 0 <= cx1 <= 127) by (unfold cx1, SSD1306_WIDTH; lia).
  assert (By0 : 0 <= cy0 <= 63) by (unfold cy0, SSD1306_HEIGHT; lia).
  assert (By1 : 0 <= cy1 <= 63) by (unfold cy1, SSD1306_HEIGHT; lia).
  clearbody cx0 cx1 cy0 cy1.
  assert (Edx : s16 (if cx0 <? cx1 then cx1 - cx0 else cx0 - cx1) = Z.abs (cx1 - cx0))
    by (destruct (Z.ltb_spec cx0 cx1); rewrite s16_small; lia).
  assert (Edy : s16 (if cy0 <? cy1 then cy1 - cy0 else cy0 - cy1) = Z.abs (cy1 - cy0))
    by (destruct (Z.ltb_spec cy0 cy1); rewrite s16_small; lia).
  rewrite Edx, Edy.
  destruct (Z.eqb_spec (Z.abs (cx1 - cx0)) 0) as [E0 | E0]; [lia|].
  destruct (Z.eqb_spec (Z.abs (cy1 - cy0)) 0) as [E1 | E1]; [lia|].
  reflexivity.
Qed.

(** A slanted or straight line that returns has drawn both of its clamped
    end points, and only pixels of its colour. *)
Lemma drawLine_ends (fuel : nat) (x0 y0 x1 y1 : Z)
    (color : SSD1306_color_t) (s : driver) :
  length (SSD1306_Buffer s) = Z.to_nat SSD1306_BUFFER_SIZE ->
  is_color color ->
  0 <= x0 -> 0 <= y0 -> 0 <= x1 -> 0 <= y1 -> (191 <= fuel)%nat ->
  let cx0 := Z.min x0 (SSD1306_WIDTH - 1) in
  let cx1 := Z.min x1 (SSD1306_WIDTH - 1) in
  let cy0 := Z.min y0 (SSD1306_HEIGHT - 1) in
  let cy1 := Z.min y1 (SSD1306_HEIGHT - 1) in
  Z.abs (cx1 - cx0) <> 1 \/ Z.abs (cy1 - cy0) <> 1 ->
  exists s',
    SSD1306_drawLine fuel x0 y0 x1 y1 color s = Some (LCD_OK, s')
    /\ tints color s s'
    /\ get_pixel s' cx0 cy0 = (effective_color color s =? SSD1306_COLOR_WHITE)
    /\ get_pixel s' cx1 cy1 = (effective_color color s =? SSD1306_COLOR_WHITE).
Proof.
  intros Hlen Hc Hx0 Hy0 Hx1 Hy1 Hfuel cx0 cx1 cy0 cy1 Hdiag.
  destruct (drawLine_returns fuel x0 y0 x1 y1 color s Hx0 Hy0 Hx1 Hy1 Hfuel Hdiag)
    as [s' Hs'].
  exists s'. split; [exact Hs'|]. split.
  { apply (drawLine_tints color Hc s fuel x0 y0 x1 y1 s (LCD_OK, s'));
      auto using tints_refl. }
  assert (P0 : in_panel cx0 cy0)
    by (unfold in_panel, cx0, cy0, SSD1306_WIDTH, SSD1306_HEIGHT; lia).
  assert (P1 : in_panel cx1 cy1)
    by (unfold in_panel, cx1, cy1, SSD1306_WIDTH, SSD1306_HEIGHT; lia).
  destruct (Z.eq_dec cx0 cx1) as [Ex | Nx];
    [|destruct (Z.eq_dec cy0 cy1) as [Ey | Ny]].
  - destruct (drawLine_axis fuel x0 y0 x1 y1 color s Hlen Hx0 Hy0 Hx1 Hy1 Hc
                (or_introl Ex)) as (s2 & E2 & _ & _ & _ & Hpix).
    rewrite E2 in Hs'. injection Hs' as <-. fold cx0 cx1 cy0 cy1 in Hpix.
    rewrite (Hpix cx0 cy0 P0), (Hpix cx1 cy1 P1).
    split; (destruct (_ && _) eqn:E; [reflexivity|]); exfalso; revert E;
      rewrite !andb_false_iff, !Z.leb_gt; lia.
  - destruct (drawLine_axis fuel x0 y0 x1 y1 color s Hlen Hx0 Hy0 Hx1 Hy1 Hc
                (or_intror Ey)) as (s2 & E2 & _ & _ & _ & Hpix).
    rewrite E2 in Hs'. injection Hs' as <-. fold cx0 cx1 cy0 cy1 in Hpix.
    rewrite (Hpix cx0 cy0 P0), (Hpix cx1 cy1 P1).
    split; (destruct (_ && _) eqn:E; [reflexivity|]); exfalso; revert E;
      rewrite !andb_false_iff, !Z.leb_gt; lia.
  - rewrite (drawLine_slanted fuel x0 y0 x1 y1 color s) in Hs' by assumption.
    fold cx0 cx1 cy0 cy1 in Hs'.
    apply bind_Some in Hs' as [s2 [H2 [= <-]]].
    split.
    + eapply drawLine_loop_start; eassumption.
    + refine (drawLine_loop_end color Hc fuel _ _ _ _ _ _ _ _ _ s s2 Hlen _ _ P1 H2);
        destruct P0; lia.
Qed.

(** X12.  [SSD1306_drawLine] joins its end points.  For [uint16_t]
    arguments whose clamped end points are not diagonal neighbours, the
    routine returns [LCD_OK] within 191 passes of its loop; afterwards both
    clamped end points have the colour that [SSD1306_drawPixel] commits for
    [color], every other pixel is as before or has that colour, and nothing
    but the frame buffer changed. *)
Theorem drawLine_joins_end_points (fuel : nat) (x0 y0 x1 y1 : Z)
    (color : SSD1306_color_t) (s : driver) :
  length (SSD1306_Buffer s) = Z.to_nat SSD1306_BUFFER_SIZE ->
  is_color color ->
  0 <= x0 -> 0 <= y0 -> 0 <= x1 -> 0 <= y1 -> (191 <= fuel)%nat ->
  let cx0 := Z.min x0 (SSD1306_WIDTH - 1) in
  let cx1 := Z.min x1 (SSD1306_WIDTH - 1) in
  let cy0 := Z.min y0 (SSD1306_HEIGHT - 1) in
  let cy1 := Z.min y1 (SSD1306_HEIGHT - 1) in
  Z.abs (cx1 - cx0) <> 1 \/ Z.abs (cy1 - cy0) <> 1 ->
  exists s',
    SSD1306_drawLine fuel x0 y0 x1 y1 color s = Some (LCD_OK, s')
    /\ tints color s s'
    /\ get_pixel s' cx0 cy0 = (effective_color color s =? SSD1306_COLOR_WHITE)
    /\ get_pixel s' cx1 cy1 = (effective_color color s =? SSD1306_COLOR_WHITE).
Proof. apply drawLine_ends. Qed.

Lemma drawLine_joins_end_points_witness :
  exists s',
    SSD1306_drawLine 191 3 60 200 5 SSD1306_COLOR_WHITE power_on = Some (LCD_OK, s')
    /\ tints SSD1306_COLOR_WHITE power_on s'
    /\ get_pixel s' 3 60 = true /\ get_pixel s' 127 5 = true.
Proof.
  apply (drawLine_joins_end_points 191 3 60 200 5 SSD1306_COLOR_WHITE power_on).
  - reflexivity.
  - right. reflexivity.
  - lia.
  - lia.
  - lia.
  - lia.
  - lia.
  - left. vm_compute. discriminate.
Defined.

(** ** Lines between diagonal neighbours *)

Section Neighbours.
Variables x1 y1 sx sy : Z.
Hypothesis Hsx : sx = 1 \/ sx = -1.
Hypothesis Hsy : sy = 1 \/ sy = -1.

(** With [dx = dy = 1] and [err = 0] both coordinates step on every pass,
    so the distance to the end point along one axis stays one step ahead of
    the distance along the other, also across [uint16_t] wrap-around. *)
Lemma drawLine_loop_neighbours fuel color :
  forall x y s,
    (65536 | (y - y1 - sy) - sy * sx * (x - x1)) ->
    drawLine_loop fuel x y x1 y1 1 1 sx sy 0 color s = None.
Proof using Hsx Hsy.
  induction fuel as [|fuel IH]; intros x y s Hd; [reflexivity|].
  cbn [drawLine_loop].
  assert (E : ((x =? x1) && (y =? y1)) = false).
  { apply andb_false_iff.
    destruct (Z.eqb_spec x x1) as [->|]; [right | left; reflexivity].
    apply Z.eqb_neq. intros ->. destruct Hd as [k Hk].
    destruct Hsy as [-> | ->]; lia. }
  rewrite E.
  change (0 >? - (1)) with true. change (0 <? 1) with true. cbv iota beta.
  change (s16 (0 - 1)) with (-1). change (s16 (-1 + 1)) with 0.
  apply IH. unfold u16. change (2 ^ 16) with 65536.
  pose proof (Z.div_mod (x + sx) 65536 ltac:(lia)) as Ex.
  pose proof (Z.div_mod (y + sy) 65536 ltac:(lia)) as Ey.
  destruct Hd as [k Hk].
  destruct Hsx as [-> | ->]; destruct Hsy as [-> | ->].
  - exists (k - (y + 1) / 65536 + (x + 1) / 65536). lia.
  - exists (k - (y + -1) / 65536 - (x + 1) / 65536). lia.
  - exists (k - (y + 1) / 65536 - (x + -1) / 65536). lia.
  - exists (k - (y + -1) / 65536 + (x + -1) / 65536). lia.
Qed.

End Neighbours.

Lemma drawLine_neighbours_none (fuel : nat) (x0 y0 x1 y1 : Z)
    (color : SSD1306_color_t) (s : driver) :
  0 <= x0 -> 0 <= y0 -> 0 <= x1 -> 0 <= y1 ->
  Z.abs (Z.min x1 (SSD1306_WIDTH - 1) - Z.min x0 (SSD1306_WIDTH - 1)) = 1 ->
  Z.abs (Z.min y1 (SSD1306_HEIGHT - 1) - Z.min y0 (SSD1306_HEIGHT - 1)) = 1 ->
  SSD1306_drawLine fuel x0 y0 x1 y1 color s = None.
Proof.
  intros Hx0 Hy0 Hx1 Hy1 Dx Dy.
  rewrite drawLine_slanted by lia. cbv zeta.
  rewrite Dx, Dy. change (1 >? 1) with false. cbv iota.
  change (s16 (Z.shiftr (- (1)) 1)) with (-1).
  set (cx0 := Z.min x0 (SSD1306_WIDTH - 1)) in *.
  set (cx1 := Z.min x1 (SSD1306_WIDTH - 1)) in *.
  set (cy0 := Z.min y0 (SSD1306_HEIGHT - 1)) in *.
  set (cy1 := Z.min y1 (SSD1306_HEIGHT - 1)) in *.
  assert (By0 : 0 <= cy0 <= 63) by (unfold cy0, SSD1306_HEIGHT; lia).
  assert (By1 : 0 <= cy1 <= 63) by (unfold cy1, SSD1306_HEIGHT; lia).
  clearbody cx0 cx1 cy0 cy1.
  set (sx := if cx0 <? cx1 then 1 else -1).
  set (sy := if cy0 <? cy1 then 1 else -1).
  assert (Hsx : (sx = 1 \/ sx = -1) /\ cx1 = cx0 + sx)
    by (unfold sx; destruct (Z.ltb_spec cx0 cx1); lia).
  assert (Hsy : (sy = 1 \/ sy = -1) /\ cy1 = cy0 + sy)
    by (unfold sy; destruct (Z.ltb_spec cy0 cy1); lia).
  destruct Hsx as [Hsx Ex]. destruct Hsy as [Hsy Ey]. clearbody sx sy.
  destruct fuel as [|fuel]; [reflexivity|].
  cbn [drawLine_loop].
  assert (E : ((cx0 =? cx1) && (cy0 =? cy1)) = false)
    by (apply andb_false_iff; left; apply Z.eqb_neq; lia).
  rewrite E.
  change (-1 >? - (1)) with false. change (-1 <? 1) with true. cbv iota beta.
  change (s16 (-1 + 1)) with 0.
  rewrite (drawLine_loop_neighbours cx1 cy1 sx sy Hsx Hsy); [reflexivity|].
  rewrite u16_small by lia. exists 0.
  destruct Hsx as [-> | ->]; destruct Hsy as [-> | ->]; lia.
Qed.

(** X13.  [SSD1306_drawLine] never returns when its clamped end points are
    diagonal neighbours.  The start value of [err] is [(-1) >> 1 = -1], the
    first pass moves along [y] alone, and from then on both coordinates
    step on every pass, so that the test [x0 == x1 && y0 == y1] fails for
    good: the loop is still running after any number of passes. *)
Theorem drawLine_neighbours_hang (fuel : nat) (x0 y0 x1 y1 : Z)
    (color : SSD1306_color_t) (s : driver) :
  0 <= x0 -> 0 <= y0 -> 0 <= x1 -> 0 <= y1 ->
  Z.abs (Z.min x1 (SSD1306_WIDTH - 1) - Z.min x0 (SSD1306_WIDTH - 1)) = 1 ->
  Z.abs (Z.min y1 (SSD1306_HEIGHT - 1) - Z.min y0 (SSD1306_HEIGHT - 1)) = 1 ->
  SSD1306_drawLine fuel x0 y0 x1 y1 color s = None.
Proof. apply drawLine_neighbours_none. Qed.

Lemma drawLine_neighbours_hang_witness :
  SSD1306_drawLine 1000 10 21 11 20 SSD1306_COLOR_WHITE power_on = None.
Proof.
  apply drawLine_neighbours_hang; try lia; reflexivity.
Defined.

(** ** Filled rectangles *)

(** Rows [lo .. lo + n - 1] of the sweep of [SSD1306_drawFilledRectangle]. *)
Lemma filledRectangle_rows fuel x y X1 color (n : nat) :
  is_color color ->
  0 <= x < SSD1306_WIDTH -> 0 <= y < SSD1306_HEIGHT -> x <= X1 ->
  forall lo s,
    length (SSD1306_Buffer s) = Z.to_nat SSD1306_BUFFER_SIZE ->
    0 <= lo -> lo + Z.of_nat n <= 65 ->
    exists s',
      for_each (seqZ lo (Z.of_nat n))
        (fun i s =>
           r ← SSD1306_drawLine fuel x (u16 (y + i)) X1 (u16 (y + i)) color s;
           Some (snd r)) s = Some s'
      /\ SSD1306 s' = SSD1306 s /\ bus s' = bus s
      /\ length (SSD1306_Buffer s') = length (SSD1306_Buffer s)
      /\ forall px py, in_panel px py ->
           get_pixel s' px py
           = if (x <=? px) && (px <=? Z.min X1 (SSD1306_WIDTH - 1))
                && (Z.min (y + lo) (SSD1306_HEIGHT - 1) <=? py)
                && (py <=? Z.min (y + lo + Z.of_nat n - 1) (SSD1306_HEIGHT - 1))
                && (0 <? Z.of_nat n)
             then effective_color color s =? SSD1306_COLOR_WHITE
             else get_pixel s px py.
Proof.
  intros Hc Hx Hy HX1.
  induction n as [|n IH]; intros lo s Hlen Hlo Hn.
  - exists s. cbn [Z.of_nat seqZ for_each]. do 4 (split; [reflexivity|]).
    intros px py _. rewrite andb_false_r. reflexivity.
  - rewrite seqZ_cons by lia. cbn [for_each].
    replace (Z.pred (Z.of_nat (S n))) with (Z.of_nat n) by lia.
    unfold SSD1306_WIDTH, SSD1306_HEIGHT in Hx, Hy.
    destruct (drawLine_axis fuel x (u16 (y + lo)) X1 (u16 (y + lo)) color s Hlen
                ltac:(lia) (u16_nonneg _) ltac:(lia) (u16_nonneg _) Hc
                (or_intror eq_refl))
      as (s1 & R1 & L1 & U1 & N1 & P1).
    rewrite R1. cbn [mbind option_bind snd].
    destruct (IH (Z.succ lo) s1 ltac:(congruence) ltac:(lia) ltac:(lia))
      as (s2 & R2 & L2 & U2 & N2 & P2).
    exists s2. split; [exact R2|].
    split; [congruence|]. split; [congruence|]. split; [congruence|].
    intros px py Hp. rewrite (P2 px py Hp), (P1 px py Hp).
    rewrite (effective_color_lcd color s s1 L1). rewrite if_chain.
    rewrite (u16_small (y + lo)) by lia.
    rewrite Z.min_id, Z.max_id.
    rewrite (Z.min_l (Z.min x (SSD1306_WIDTH - 1))),
      (Z.max_r (Z.min x (SSD1306_WIDTH - 1)))
      by (unfold SSD1306_WIDTH; lia).
    replace (Z.min x (SSD1306_WIDTH - 1)) with x by (unfold SSD1306_WIDTH; lia).
    match goal with
    | |- (if ?a then _ else _) = (if ?b then _ else _) =>
        replace a with b; [reflexivity|]
    end.
    unfold SSD1306_WIDTH, SSD1306_HEIGHT. bool_to_prop. lia.
Qed.

(** X14.  [SSD1306_drawFilledRectangle] fills the box it is given, cut off
    at the panel edge.  For a corner [(x, y)] inside the panel, exactly the
    pixels with [x <= px <= min (x + w) (SSD1306_WIDTH - 1)] and
    [y <= py <= min (y + h) (SSD1306_HEIGHT - 1)] take the colour that
    [SSD1306_drawPixel] commits, all others keep their value, and the
    routine returns [LCD_OK] whatever the fuel.  For a corner outside the
    panel it returns [INVALID_PARAMS] and draws nothing. *)
Theorem drawFilledRectangle_box (fuel : nat) (x y w h : Z)
    (color : SSD1306_color_t) (s : driver) :
  length (SSD1306_Buffer s) = Z.to_nat SSD1306_BUFFER_SIZE ->
  0 <= x < 2 ^ 16 -> 0 <= y < 2 ^ 16 -> 0 <= w < 2 ^ 16 -> 0 <= h < 2 ^ 16 ->
  is_color color ->
  if (x <? SSD1306_WIDTH) && (y <? SSD1306_HEIGHT) then
    exists s',
      SSD1306_drawFilledRectangle fuel x y w h color s = Some (LCD_OK, s')
      /\ SSD1306 s' = SSD1306 s /\ bus s' = bus s
      /\ length (SSD1306_Buffer s') = length (SSD1306_Buffer s)
      /\ forall px py, in_panel px py ->
           get_pixel s' px py
           = if (x <=? px) && (px <=? Z.min (x + w) (SSD1306_WIDTH - 1))
                && (y <=? py) && (py <=? Z.min (y + h) (SSD1306_HEIGHT - 1))
             then effective_color color s =? SSD1306_COLOR_WHITE
             else get_pixel s px py
  else SSD1306_drawFilledRectangle fuel x y w h color s = Some (INVALID_PARAMS, s).
Proof.
  intros Hlen Hx Hy Hw Hh Hc.
  unfold SSD1306_drawFilledRectangle.
  rewrite (Z.geb_leb x), (Z.geb_leb y).
  destruct (Z.ltb_spec x SSD1306_WIDTH) as [Lx | Lx];
    [destruct (Z.ltb_spec y SSD1306_HEIGHT) as [Ly | Ly]|]; cbn [andb].
  2: { destruct (Z.leb_spec SSD1306_WIDTH x); [lia|].
       destruct (Z.leb_spec SSD1306_HEIGHT y); [reflexivity | lia]. }
  2: { destruct (Z.leb_spec SSD1306_WIDTH x); [reflexivity | lia]. }
  destruct (Z.leb_spec SSD1306_WIDTH x); [lia|].
  destruct (Z.leb_spec SSD1306_HEIGHT y); [lia|].
  cbn [orb]. cbv zeta. unfold SSD1306_WIDTH, SSD1306_HEIGHT in *.
  set (W' := if x + w >=? 128 then u16 (128 - x) else w).
  set (H' := if y + h >=? 64 then u16 (64 - y) else h).
  assert (HW : x + W' = Z.min (x + w) 128).
  { unfold W'. destruct (Z.geb_spec (x + w) 128);
      rewrite ?(u16_small (128 - x)) by lia; lia. }
  assert (HH : y + H' = Z.min (y + h) 64).
  { unfold H'. destruct (Z.geb_spec (y + h) 64);
      rewrite ?(u16_small (64 - y)) by lia; lia. }
  clearbody W' H'.
  rewrite (u16_small (x + W')) by lia.
  destruct (filledRectangle_rows fuel x y (x + W') color (Z.to_nat (H' + 1)) Hc
              ltac:(unfold SSD1306_WIDTH; lia) ltac:(unfold SSD1306_HEIGHT; lia)
              ltac:(lia) 0 s Hlen ltac:(lia) ltac:(lia))
    as (s' & R & L & U & N & P).
  rewrite Z2Nat.id in R, P by lia.
  exists s'. rewrite R. cbn [mbind option_bind].
  do 4 (split; [reflexivity || assumption|]).
  intros px py Hp. rewrite (P px py Hp).
  match goal with
  | |- (if ?a then _ else _) = (if ?b then _ else _) =>
      replace a with b; [reflexivity|]
  end.
  unfold SSD1306_WIDTH, SSD1306_HEIGHT. bool_to_prop. lia.
Qed.

Lemma drawFilledRectangle_box_witness :
  exists s',
    SSD1306_drawFilledRectangle 0 120 60 20 10 SSD1306_COLOR_WHITE power_on
    = Some (LCD_OK, s')
    /\ get_pixel s' 127 63 = true /\ get_pixel s' 125 61 = true
    /\ get_pixel s' 119 61 = false.
Proof.
  pose proof (drawFilledRectangle_box 0 120 60 20 10 SSD1306_COLOR_WHITE power_on
                eq_refl ltac:(lia) ltac:(lia) ltac:(lia) ltac:(lia)
                (or_intror eq_refl)) as H.
  change ((120 <? SSD1306_WIDTH) && (60 <? SSD1306_HEIGHT)) with true in H.
  cbv iota in H. destruct H as (s' & R & _ & _ & _ & P).
  exists s'. split; [exact R|].
  rewrite !P by (unfold in_panel, SSD1306_WIDTH, SSD1306_HEIGHT; lia).
  repeat split.
Defined.

(** ** Circles, outlined and filled *)

(** A line between two points of one row: it returns whatever the fuel, and
    an end point that lies in the panel is drawn. *)
Lemma drawLine_level fuel xa y xb c s :
  is_color c ->
  length (SSD1306_Buffer s) = Z.to_nat SSD1306_BUFFER_SIZE ->
  0 <= xa -> 0 <= y -> 0 <= xb ->
  exists s',
    SSD1306_drawLine fuel xa y xb y c s = Some (LCD_OK, s')
    /\ tints c s s'
    /\ forall px py, in_panel px py -> px = xa \/ px = xb -> py = y ->
         get_pixel s' px py = (effective_color c s =? SSD1306_COLOR_WHITE).
Proof.
  intros Hc Hlen Hxa Hy Hxb.
  destruct (drawLine_axis fuel xa y xb y c s Hlen Hxa Hy Hxb Hy Hc
              (or_intror eq_refl)) as (s' & R & L & U & N & P).
  exists s'. split; [exact R|]. split.
  - unfold tints. do 3 (split; [assumption|]). intros px py Hp.
    rewrite (P px py Hp). destruct (_ && _); auto.
  - intros px py Hp Hpx Hpy. rewrite (P px py Hp).
    destruct (_ && _) eqn:E; [reflexivity|]. exfalso. revert E.
    unfold in_panel, SSD1306_WIDTH, SSD1306_HEIGHT in *.
    rewrite !andb_false_iff, !Z.leb_gt. lia.
Qed.

Section Disc.
Variable c : SSD1306_color_t.
Hypothesis Hc : is_color c.
Variables x0 y0 : Z.

(** Both circle loops make the same passes; on each pass the four chords of
    the filled circle end on the eight points of the outline. *)
Lemma circle_loops_cover lfuel fuel :
  forall f ddF_x ddF_y x y sC sF,
    0 <= x -> y < 32768 -> Z.max 0 (y - x) < Z.of_nat fuel ->
    length (SSD1306_Buffer sC) = Z.to_nat SSD1306_BUFFER_SIZE ->
    length (SSD1306_Buffer sF) = Z.to_nat SSD1306_BUFFER_SIZE ->
    SSD1306 sF = SSD1306 sC ->
    (forall px py, in_panel px py ->
       get_pixel sC px py = (effective_color c sC =? SSD1306_COLOR_WHITE) ->
       get_pixel sF px py = (effective_color c sC =? SSD1306_COLOR_WHITE)) ->
    exists sC' sF',
      drawCircle_loop fuel x0 y0 f ddF_x ddF_y x y c sC = Some sC'
      /\ drawFilledCircle_loop fuel lfuel x0 y0 f ddF_x ddF_y x y c sF = Some sF'
      /\ tints c sC sC' /\ tints c sF sF'
      /\ forall px py, in_panel px py ->
           get_pixel sC' px py = (effective_color c sC =? SSD1306_COLOR_WHITE) ->
           get_pixel sF' px py = (effective_color c sC =? SSD1306_COLOR_WHITE).
Proof using Hc.
  induction fuel as [|fuel IH];
    intros f ddF_x ddF_y x y sC sF Hx Hy Hfuel HlC HlF Hlcd Hcov; [lia|].
  cbn [drawCircle_loop drawFilledCircle_loop].
  destruct (Z.ltb_spec x y) as [Hxy | Hxy].
  2: { exists sC, sF. auto using tints_refl. }
  destruct (circle_step_xy f ddF_x ddF_y x y Hx Hxy Hy)
    as (f' & ddx' & ddy' & y' & E & Hy').
  rewrite E. cbv iota beta. rewrite circle_plot8_plots.
  set (X := x + 1) in *.
  set (sC1 := plot_all (circle_plots x0 y0 (offsets8 X y') c) sC).
  assert (TC : tints c sC sC1)
    by (apply tints_circle_plots; auto using tints_refl).
  assert (HlC1 : length (SSD1306_Buffer sC1) = Z.to_nat SSD1306_BUFFER_SIZE)
    by exact (tints_length c sC sC1 HlC TC).
  assert (HeF : effective_color c sF = effective_color c sC)
    by (apply effective_color_lcd; exact Hlcd).
  destruct (drawLine_level lfuel (u16 (x0 - X)) (u16 (y0 + y')) (u16 (x0 + X)) c sF
              Hc HlF (u16_nonneg _) (u16_nonneg _) (u16_nonneg _))
    as (s1 & R1 & T1 & E1).
  rewrite R1. cbn [mbind option_bind snd].
  assert (Hl1 : length (SSD1306_Buffer s1) = Z.to_nat SSD1306_BUFFER_SIZE)
    by exact (tints_length c sF s1 HlF T1).
  destruct (drawLine_level lfuel (u16 (x0 + X)) (u16 (y0 - y')) (u16 (x0 - X)) c s1
              Hc Hl1 (u16_nonneg _) (u16_nonneg _) (u16_nonneg _))
    as (s2 & R2 & T2 & E2).
  rewrite R2. cbn [mbind option_bind snd].
  assert (Hl2 : length (SSD1306_Buffer s2) = Z.to_nat SSD1306_BUFFER_SIZE)
    by exact (tints_length c s1 s2 Hl1 T2).
  destruct (drawLine_level lfuel (u16 (x0 + y')) (u16 (y0 + X)) (u16 (x0 - y')) c s2
              Hc Hl2 (u16_nonneg _) (u16_nonneg _) (u16_nonneg _))
    as (s3 & R3 & T3 & E3).
  rewrite R3. cbn [mbind option_bind snd].
  assert (Hl3 : length (SSD1306_Buffer s3) = Z.to_nat SSD1306_BUFFER_SIZE)
    by exact (tints_length c s2 s3 Hl2 T3).
  destruct (drawLine_level lfuel (u16 (x0 + y')) (u16 (y0 - X)) (u16 (x0 - y')) c s3
              Hc Hl3 (u16_nonneg _) (u16_nonneg _) (u16_nonneg _))
    as (s4 & R4 & T4 & E4).
  rewrite R4. cbn [mbind option_bind snd].
  assert (Hl4 : length (SSD1306_Buffer s4) = Z.to_nat SSD1306_BUFFER_SIZE)
    by exact (tints_length c s3 s4 Hl3 T4).
  assert (He1 : effective_color c s1 = effective_color c sC)
    by (rewrite <- HeF; apply effective_color_lcd, T1).
  assert (He2 : effective_color c s2 = effective_color c sC)
    by (rewrite <- He1; apply effective_color_lcd, T2).
  assert (He3 : effective_color c s3 = effective_color c sC)
    by (rewrite <- He2; apply effective_color_lcd, T3).
  rewrite ?HeF, ?He1, ?He2, ?He3 in *.
  assert (K2 : forall px py, in_panel px py ->
            get_pixel s1 px py = (effective_color c sC =? SSD1306_COLOR_WHITE) ->
            get_pixel s2 px py = (effective_color c sC =? SSD1306_COLOR_WHITE)).
  { intros px py Hp H. rewrite <- He1 in *. eapply tints_stays; eassumption. }
  assert (K3 : forall px py, in_panel px py ->
            get_pixel s2 px py = (effective_color c sC =? SSD1306_COLOR_WHITE) ->
            get_pixel s3 px py = (effective_color c sC =? SSD1306_COLOR_WHITE)).
  { intros px py Hp H. rewrite <- He2 in *. eapply tints_stays; eassumption. }
  assert (K4 : forall px py, in_panel px py ->
            get_pixel s3 px py = (effective_color c sC =? SSD1306_COLOR_WHITE) ->
            get_pixel s4 px py = (effective_color c sC =? SSD1306_COLOR_WHITE)).
  { intros px py Hp H. rewrite <- He3 in *. eapply tints_stays; eassumption. }
  assert (K1 : forall px py, in_panel px py ->
            get_pixel sF px py = (effective_color c sC =? SSD1306_COLOR_WHITE) ->
            get_pixel s1 px py = (effective_color c sC =? SSD1306_COLOR_WHITE)).
  { intros px py Hp H. rewrite <- HeF in *. eapply tints_stays; eassumption. }
  assert (Hcov1 : forall px py, in_panel px py ->
            get_pixel sC1 px py = (effective_color c sC1 =? SSD1306_COLOR_WHITE) ->
            get_pixel s4 px py = (effective_color c sC1 =? SSD1306_COLOR_WHITE)).
  { rewrite (effective_color_lcd c sC sC1) by apply TC.
    intros px py Hp H.
    destruct (classic_hit (circle_plots x0 y0 (offsets8 X y') c) px py)
      as [(t & Hin & Hx' & Hy'') | Hno].
    - unfold circle_plots, offsets8 in Hin. cbn [map In fst snd] in Hin.
      rewrite <- !Z.sub_opp_r, !Z.opp_involutive, ?Z.sub_opp_r in Hin.
      destruct Hin as [<- | [<- | [<- | [<- | [<- | [<- | [<- | [<- | []]]]]]]]];
        cbn [fst snd] in Hx', Hy''; subst px py.
      + apply K4, K3, K2; try assumption. apply E1; auto.
      + apply K4, K3, K2; try assumption. apply E1; auto.
      + apply K4, K3; try assumption. apply E2; auto.
      + apply K4, K3; try assumption. apply E2; auto.
      + apply K4; try assumption. apply E3; auto.
      + apply K4; try assumption. apply E3; auto.
      + apply E4; auto.
      + apply E4; auto.
    - unfold sC1 in H. rewrite plot_all_frame in H; try assumption.
      + apply K4, K3, K2, K1; try assumption. apply Hcov; assumption.
      + apply List.Forall_forall. intros t Ht. unfold circle_plots in Ht.
        apply in_map_iff in Ht as [d [<- _]]. unfold plot_ok. cbn [fst snd].
        auto using u16_nonneg. }
  destruct (IH f' ddx' ddy' X y' sC1 s4) as (sC' & sF' & RC & RF & TC' & TF' & Hcov');
    try assumption; try (unfold X; lia).
  { transitivity (SSD1306 sC); [|symmetry; apply TC].
    rewrite <- Hlcd. transitivity (SSD1306 s3); [apply T4|].
    transitivity (SSD1306 s2); [apply T3|].
    transitivity (SSD1306 s1); [apply T2 | apply T1]. }
  exists sC', sF'. split; [exact RC|]. split; [exact RF|].
  rewrite (effective_color_lcd c sC sC1) in Hcov' by apply TC.
  split; [eauto using tints_trans|].
  split; [eauto 6 using tints_trans | exact Hcov'].
Qed.

End Disc.

(** X15.  The filled circle contains the outline.  For an [int16_t] radius
    and fuel above it, [SSD1306_drawCircle] and [SSD1306_drawFilledCircle]
    both return [LCD_OK] from any state and for any centre; each leaves
    every pixel as it was or in the colour that [SSD1306_drawPixel] commits;
    and every pixel that has this colour after [SSD1306_drawCircle] has it
    after [SSD1306_drawFilledCircle] too. *)
Theorem drawFilledCircle_covers_outline (fuel : nat) (x0 y0 r : Z)
    (color : SSD1306_color_t) (s : driver) :
  length (SSD1306_Buffer s) = Z.to_nat SSD1306_BUFFER_SIZE ->
  is_color color -> -32768 <= r < 32768 -> (Z.to_nat r < fuel)%nat ->
  exists sC sF,
    SSD1306_drawCircle fuel x0 y0 r color s = Some (LCD_OK, sC)
    /\ SSD1306_drawFilledCircle fuel x0 y0 r color s = Some (LCD_OK, sF)
    /\ tints color s sC /\ tints color s sF
    /\ forall px py, in_panel px py ->
         get_pixel sC px py = (effective_color color s =? SSD1306_COLOR_WHITE) ->
         get_pixel sF px py = (effective_color color s =? SSD1306_COLOR_WHITE).
Proof.
  intros Hlen Hc Hr Hfuel.
  unfold SSD1306_drawCircle, SSD1306_drawFilledCircle. cbv zeta.
  rewrite !circle_plot4_plots.
  set (s0 := plot_all (circle_plots x0 y0 (offsets4 r) color) s).
  assert (T0 : tints color s s0)
    by (apply tints_circle_plots; auto using tints_refl).
  assert (Hl0 : length (SSD1306_Buffer s0) = Z.to_nat SSD1306_BUFFER_SIZE)
    by exact (tints_length color s s0 Hlen T0).
  assert (He0 : effective_color color s0 = effective_color color s)
    by (apply effective_color_lcd, T0).
  destruct (drawLine_level fuel (u16 (x0 - r)) (u16 y0) (u16 (x0 + r)) color s0
              Hc Hl0 (u16_nonneg _) (u16_nonneg _) (u16_nonneg _))
    as (s1 & R1 & T1 & _).
  rewrite R1. cbn [mbind option_bind snd].
  destruct (circle_loops_cover color Hc x0 y0 fuel fuel
              (s16 (1 - r)) 1 (s16 (-2 * r)) 0 r s0 s1)
    as (sC & sF & RC & RF & TC & TF & Hcov); try assumption; try lia.
  - exact (tints_length color s0 s1 Hl0 T1).
  - apply T1.
  - intros px py Hp H. eapply tints_stays; eassumption.
  - exists sC, sF. rewrite RC, RF. cbn [mbind option_bind].
    do 2 (split; [reflexivity|]). rewrite He0 in Hcov.
    split; [eauto using tints_trans|].
    split; [eauto using tints_trans | exact Hcov].
Qed.

Lemma drawFilledCircle_covers_outline_witness :
  exists sC sF,
    SSD1306_drawCircle 11 5 60 10 SSD1306_COLOR_WHITE power_on = Some (LCD_OK, sC)
    /\ SSD1306_drawFilledCircle 11 5 60 10 SSD1306_COLOR_WHITE power_on
       = Some (LCD_OK, sF)
    /\ tints SSD1306_COLOR_WHITE power_on sC
    /\ tints SSD1306_COLOR_WHITE power_on sF
    /\ forall px py, in_panel px py ->
         get_pixel sC px py = true -> get_pixel sF px py = true.
Proof.
  apply (drawFilledCircle_covers_outline 11 5 60 10 SSD1306_COLOR_WHITE power_on).
  - reflexivity.
  - right. reflexivity.
  - lia.
  - vm_compute. lia.
Defined.

(** ** Triangles *)

Lemma diagonal_neighbours_true x0 y0 x1 y1 :
  diagonal_neighbours x0 y0 x1 y1 = true ->
  Z.abs (Z.min x1 (SSD1306_WIDTH - 1) - Z.min x0 (SSD1306_WIDTH - 1)) = 1
  /\ Z.abs (Z.min y1 (SSD1306_HEIGHT - 1) - Z.min y0 (SSD1306_HEIGHT - 1)) = 1.
Proof.
  unfold diagonal_neighbours. rewrite andb_true_iff, !Z.eqb_eq. auto.
Qed.

Lemma diagonal_neighbours_false x0 y0 x1 y1 :
  diagonal_neighbours x0 y0 x1 y1 = false ->
  Z.abs (Z.min x1 (SSD1306_WIDTH - 1) - Z.min x0 (SSD1306_WIDTH - 1)) <> 1
  \/ Z.abs (Z.min y1 (SSD1306_HEIGHT - 1) - Z.min y0 (SSD1306_HEIGHT - 1)) <> 1.
Proof.
  unfold diagonal_neighbours. rewrite andb_false_iff, !Z.eqb_neq. auto.
Qed.

(** X16.  [SSD1306_drawTriangle] returns exactly when none of its edges
    joins diagonal neighbours.  If one does, the routine is caught in the
    loop of [SSD1306_drawLine] for that edge and never returns.  Otherwise
    it returns [LCD_OK] (191 passes per edge are enough), the three clamped
    vertices have the colour that [SSD1306_drawPixel] commits, and every
    other pixel is as before or has that colour. *)
Theorem drawTriangle_outcome (fuel : nat) (x1 y1 x2 y2 x3 y3 : Z)
    (color : SSD1306_color_t) (s : driver) :
  length (SSD1306_Buffer s) = Z.to_nat SSD1306_BUFFER_SIZE ->
  is_color color ->
  0 <= x1 -> 0 <= y1 -> 0 <= x2 -> 0 <= y2 -> 0 <= x3 -> 0 <= y3 ->
  (191 <= fuel)%nat ->
  if diagonal_neighbours x1 y1 x2 y2 || diagonal_neighbours x2 y2 x3 y3
     || diagonal_neighbours x3 y3 x1 y1
  then SSD1306_drawTriangle fuel x1 y1 x2 y2 x3 y3 color s = None
  else
    exists s',
      SSD1306_drawTriangle fuel x1 y1 x2 y2 x3 y3 color s = Some (LCD_OK, s')
      /\ tints color s s'
      /\ (let eff := effective_color color s =? SSD1306_COLOR_WHITE in
          get_pixel s' (Z.min x1 (SSD1306_WIDTH - 1)) (Z.min y1 (SSD1306_HEIGHT - 1))
          = eff
          /\ get_pixel s' (Z.min x2 (SSD1306_WIDTH - 1)) (Z.min y2 (SSD1306_HEIGHT - 1))
             = eff
          /\ get_pixel s' (Z.min x3 (SSD1306_WIDTH - 1)) (Z.min y3 (SSD1306_HEIGHT - 1))
             = eff).
Proof.
  intros Hlen Hc Hx1 Hy1 Hx2 Hy2 Hx3 Hy3 Hfuel.
  unfold SSD1306_drawTriangle.
  destruct (diagonal_neighbours x1 y1 x2 y2) eqn:D1.
  { apply diagonal_neighbours_true in D1 as [Dx Dy]. cbn [orb].
    rewrite drawLine_neighbours_none by assumption. reflexivity. }
  apply diagonal_neighbours_false in D1.
  destruct (drawLine_ends fuel x1 y1 x2 y2 color s Hlen Hc Hx1 Hy1 Hx2 Hy2 Hfuel D1)
    as (s1 & R1 & T1 & A1 & B1).
  rewrite R1. cbn [mbind option_bind snd orb].
  assert (Hl1 : length (SSD1306_Buffer s1) = Z.to_nat SSD1306_BUFFER_SIZE)
    by exact (tints_length color s s1 Hlen T1).
  assert (He1 : effective_color color s1 = effective_color color s)
    by (apply effective_color_lcd, T1).
  destruct (diagonal_neighbours x2 y2 x3 y3) eqn:D2.
  { apply diagonal_neighbours_true in D2 as [Dx Dy]. cbn [orb].
    rewrite drawLine_neighbours_none by assumption. reflexivity. }
  apply diagonal_neighbours_false in D2.
  destruct (drawLine_ends fuel x2 y2 x3 y3 color s1 Hl1 Hc Hx2 Hy2 Hx3 Hy3 Hfuel D2)
    as (s2 & R2 & T2 & A2 & B2).
  rewrite R2. cbn [mbind option_bind snd orb].
  assert (Hl2 : length (SSD1306_Buffer s2) = Z.to_nat SSD1306_BUFFER_SIZE)
    by exact (tints_length color s1 s2 Hl1 T2).
  assert (He2 : effective_color color s2 = effective_color color s)
    by (rewrite <- He1; apply effective_color_lcd, T2).
  destruct (diagonal_neighbours x3 y3 x1 y1) eqn:D3.
  { apply diagonal_neighbours_true in D3 as [Dx Dy].
    rewrite drawLine_neighbours_none by assumption. reflexivity. }
  apply diagonal_neighbours_false in D3.
  destruct (drawLine_ends fuel x3 y3 x1 y1 color s2 Hl2 Hc Hx3 Hy3 Hx1 Hy1 Hfuel D3)
    as (s3 & R3 & T3 & A3 & B3).
  rewrite R3. cbn [mbind option_bind snd].
  exists s3. split; [reflexivity|].
  split; [eauto using tints_trans|].
  cbv zeta. rewrite He2 in A3, B3. rewrite He1 in A2, B2.
  split; [exact B3|]. split; [|exact A3].
  rewrite <- He2. apply (tints_stays color s2 s3); [exact T3 | | rewrite He2; exact A2].
  clear - Hx2 Hy2. unfold in_panel, SSD1306_WIDTH, SSD1306_HEIGHT. lia.
Qed.


Lemma drawTriangle_outcome_witness :
  SSD1306_drawTriangle 200 10 10 40 20 11 11 SSD1306_COLOR_WHITE power_on = None
  /\ exists s',
       SSD1306_drawTriangle 200 10 10 40 20 12 30 SSD1306_COLOR_WHITE power_on
       = Some (LCD_OK, s')
       /\ get_pixel s' 12 30 = true.
Proof.
  split.
  - pose proof (drawTriangle_outcome 200 10 10 40 20 11 11 SSD1306_COLOR_WHITE
                  power_on eq_refl (or_intror eq_refl) ltac:(lia) ltac:(lia)
                  ltac:(lia) ltac:(lia) ltac:(lia) ltac:(lia) ltac:(lia)) as H.
    change (diagonal_neighbours 10 10 40 20 || diagonal_neighbours 40 20 11 11
            || diagonal_neighbours 11 11 10 10) with true in H.
    exact H.
  - pose proof (drawTriangle_outcome 200 10 10 40 20 12 30 SSD1306_COLOR_WHITE
                  power_on eq_refl (or_intror eq_refl) ltac:(lia) ltac:(lia)
                  ltac:(lia) ltac:(lia) ltac:(lia) ltac:(lia) ltac:(lia)) as H.
    change (diagonal_neighbours 10 10 40 20 || diagonal_neighbours 40 20 12 30
            || diagonal_neighbours 12 30 10 10) with false in H.
    cbv iota in H. destruct H as (s' & R & _ & _ & _ & V3).
    exists s'. split; [exact R | exact V3].
Defined.

(** ** Bitmaps *)

Lemma land128 b : (Z.land b 0x80 =? 0) = negb (Z.testbit b 7).
Proof.
  change 0x80 with (2 ^ 7).
  destruct (Z.testbit b 7) eqn:E; cbn [negb].
  - apply Z.eqb_neq. intros H.
    assert (H' : Z.testbit (Z.land b (2 ^ 7)) 7 = false)
      by (rewrite H; apply Z.bits_0).
    rewrite Z.land_spec, E, Z.pow2_bits_true in H' by lia. discriminate.
  - apply Z.eqb_eq. apply Z.bits_inj'. intros n Hn.
    rewrite Z.land_spec, Z.bits_0.
    destruct (Z.eq_dec n 7) as [-> | Hne]; [rewrite E; reflexivity|].
    rewrite Z.pow2_bits_false by lia. apply andb_false_r.
Qed.

Lemma shift_byte_step b k :
  0 <= k -> u8 (Z.shiftl (u8 (Z.shiftl b k)) 1) = u8 (Z.shiftl b (k + 1)).
Proof.
  intros Hk. rewrite !Z.shiftl_mul_pow2 by lia. unfold u8.
  rewrite Z.pow_add_r, Z.mul_assoc by lia.
  rewrite Z.mul_mod_idemp_l by (vm_compute; discriminate). reflexivity.
Qed.

Lemma u16_s16 z : u16 (s16 z) = u16 z.
Proof.
  apply u16_congr. unfold s16. change (2 ^ 16) with 65536. change (2 ^ 15) with 32768.
  pose proof (Z.div_mod (z + 32768) 65536 ltac:(lia)) as H.
  replace ((z + 32768) mod 65536 - 32768 - z)
    with (- ((z + 32768) / 65536) * 65536) by lia.
  apply Z.mod_mul. lia.
Qed.

Lemma u16_succ a b : u16 a = u16 b -> u16 (a + 1) = u16 (b + 1).
Proof.
  unfold u16. intros H.
  rewrite <- (Z.add_mod_idemp_l a), <- (Z.add_mod_idemp_l b), H
    by (vm_compute; discriminate).
  reflexivity.
Qed.

Lemma u16_in_panel_x z px :
  -32768 <= z < 65536 -> 0 <= px < SSD1306_WIDTH -> u16 z = px -> z = px.
Proof.
  unfold SSD1306_WIDTH. intros Hz Hp H.
  destruct (Z_lt_dec z 0) as [Hneg | Hpos].
  - assert (E : u16 z = z + 65536).
    { rewrite <- (u16_small (z + 65536)) by lia. apply u16_congr.
      replace (z - (z + 65536)) with (-1 * 65536) by lia. apply Z.mod_mul. lia. }
    lia.
  - rewrite u16_small in H by lia. exact H.
Qed.

Lemma for_range_nat {A : Type} lo n (body : Z -> A -> A) a :
  for_range lo n body a = for_range lo (Z.of_nat (Z.to_nat n)) body a.
Proof. unfold for_range, seqZ. rewrite Nat2Z.id. reflexivity. Qed.

Lemma seqZ_nat lo n : seqZ lo n = seqZ lo (Z.of_nat (Z.to_nat n)).
Proof. unfold seqZ. rewrite Nat2Z.id. reflexivity. Qed.

(** The columns of one row: the shift register holds the byte of the
    current column, shifted so that the bit of the column is bit 7. *)
Lemma drawBitmap_cols x yy bitmap w j color (n : nat) b0 s :
  for_range 0 (Z.of_nat n)
    (drawBitmap_col x yy bitmap (s16 (Z.shiftr (w + 7) 3)) j color) (b0, s)
  = (if 0 <? Z.of_nat n
     then u8 (Z.shiftl (u8 (bitmap (j * s16 (Z.shiftr (w + 7) 3)
                                    + (Z.of_nat n - 1) / 8)))
                       ((Z.of_nat n - 1) mod 8))
     else b0,
     plot_all
       (flat_map (fun i => if bitmap_bit bitmap w j i
                           then [(u16 (x + i), u16 yy, color)] else [])
                 (seqZ 0 (Z.of_nat n))) s).
Proof.
  induction n as [|n IH]; [reflexivity|].
  rewrite for_range_snoc, IH. rewrite seqZ_S, flat_map_app, plot_all_app.
  cbn [flat_map]. rewrite app_nil_r, !Z.add_0_l.
  set (bw := s16 (Z.shiftr (w + 7) 3)).
  set (sn := plot_all _ s).
  replace (Z.of_nat (S n) - 1) with (Z.of_nat n) by lia.
  destruct (Z.ltb_spec 0 (Z.of_nat (S n))) as [_|]; [|lia].
  unfold drawBitmap_col. rewrite land7.
  rewrite Z.quot_div_nonneg by lia.
  set (B := u8 (bitmap (j * bw + Z.of_nat n / 8))).
  assert (Hm : 0 <= Z.of_nat n mod 8 < 8) by (apply Z.mod_pos_bound; lia).
  assert (Hbyte :
    (if Z.of_nat n mod 8 =? 0 then B
     else u8 (Z.shiftl
                (if 0 <? Z.of_nat n
                 then u8 (Z.shiftl (u8 (bitmap (j * bw + (Z.of_nat n - 1) / 8)))
                                   ((Z.of_nat n - 1) mod 8))
                 else b0) 1))
    = u8 (Z.shiftl B (Z.of_nat n mod 8))).
  { destruct (Z.eqb_spec (Z.of_nat n mod 8) 0) as [E0 | E0].
    - rewrite E0, Z.shiftl_0_r. unfold B, u8.
      rewrite Z.mod_mod by (vm_compute; discriminate). reflexivity.
    - assert (Hn : 0 < Z.of_nat n)
        by (destruct n; [exfalso; apply E0; reflexivity | lia]).
      destruct (Z.ltb_spec 0 (Z.of_nat n)) as [_|]; [|lia].
      pose proof (Z.div_mod (Z.of_nat n) 8 ltac:(lia)) as Hd.
      assert (Hq : (Z.of_nat n - 1) / 8 = Z.of_nat n / 8).
      { symmetry. apply (Z.div_unique _ 8 _ (Z.of_nat n mod 8 - 1)); lia. }
      assert (Hr : (Z.of_nat n - 1) mod 8 = Z.of_nat n mod 8 - 1).
      { symmetry. apply (Z.mod_unique _ 8 (Z.of_nat n / 8)); lia. }
      rewrite Hq, Hr. fold B. rewrite shift_byte_step by lia.
      f_equal. f_equal. lia. }
  rewrite Hbyte. rewrite land128.
  assert (Hbit : Z.testbit (u8 (Z.shiftl B (Z.of_nat n mod 8))) 7
                 = bitmap_bit bitmap w j (Z.of_nat n)).
  { rewrite testbit_u8 by lia. rewrite Z.shiftl_spec by lia.
    unfold bitmap_bit. fold bw. fold B. reflexivity. }
  rewrite Hbit.
  destruct (bitmap_bit bitmap w j (Z.of_nat n)); cbn [negb]; reflexivity.
Qed.

Lemma drawBitmap_rows x y bitmap w color (m : nat) s :
  exists yj byte,
    for_range 0 (Z.of_nat m)
      (drawBitmap_row x bitmap (s16 (Z.shiftr (w + 7) 3)) w color) (y, 0, s)
    = (yj, byte,
       plot_all (bitmap_plots x y bitmap w (Z.of_nat m) color) s)
    /\ u16 yj = u16 (y + Z.of_nat m).
Proof.
  induction m as [|m (yj & byte & IH & Hy)].
  - exists y, 0. rewrite Z.add_0_r. split; reflexivity.
  - rewrite for_range_snoc, IH. unfold drawBitmap_row.
    rewrite (for_range_nat 0 w), drawBitmap_cols.
    eexists _, _. split.
    + f_equal. unfold bitmap_plots.
      rewrite seqZ_S, flat_map_app, plot_all_app. cbn [flat_map].
      rewrite app_nil_r, !Z.add_0_l. unfold bitmap_row_plots.
      rewrite Hy, <- seqZ_nat. reflexivity.
    + rewrite u16_s16. rewrite Nat2Z.inj_succ, <- Z.add_1_r, Z.add_assoc.
      apply u16_succ, Hy.
Qed.

Lemma in_bitmap_plots x y bitmap w h color t :
  In t (bitmap_plots x y bitmap w h color)
  <-> exists i j, 0 <= i < w /\ 0 <= j < h /\ bitmap_bit bitmap w j i = true
                  /\ t = (u16 (x + i), u16 (y + j), color).
Proof.
  unfold bitmap_plots, bitmap_row_plots. rewrite in_flat_map. split.
  - intros (j & Hj & Ht). apply in_flat_map in Ht as (i & Hi & Ht).
    apply list_elem_of_In, elem_of_seqZ in Hj, Hi.
    destruct (bitmap_bit bitmap w j i) eqn:E; [|destruct Ht].
    destruct Ht as [<- | []]. exists i, j. repeat split; try lia. exact E.
  - intros (i & j & Hi & Hj & E & ->). exists j. split.
    + apply list_elem_of_In, elem_of_seqZ. lia.
    + apply in_flat_map. exists i. split.
      * apply list_elem_of_In, elem_of_seqZ. lia.
      * rewrite E. left. reflexivity.
Qed.

(** X17.  [SSD1306_drawBitmap] draws the set bits of the bitmap and leaves
    the rest of the panel alone.  For [int16_t] arguments, the pixel at
    [(px, py)] takes the colour that [SSD1306_drawPixel] commits exactly
    when it lies in the rectangle of the bitmap, [x <= px < x + w] and
    [y <= py < y + h], and bit [7 - (px - x) mod 8] of byte
    [(py - y) * ((w + 7) >> 3) + (px - x) / 8] of the array is set; every
    other pixel keeps its value, clear bits being transparent.  Parts of the
    bitmap that fall outside the panel are dropped, and the routine returns
    [LCD_OK] without touching the cursor, the flags or the bus. *)
Theorem drawBitmap_pixels (x y : Z) (bitmap : Z -> Z) (w h : Z)
    (color : SSD1306_color_t) (s : driver) :
  length (SSD1306_Buffer s) = Z.to_nat SSD1306_BUFFER_SIZE ->
  is_color color ->
  -32768 <= x < 32768 -> -32768 <= y < 32768 -> w < 32768 -> h < 32768 ->
  let r := SSD1306_drawBitmap x y bitmap w h color s in
  fst r = LCD_OK /\ SSD1306 (snd r) = SSD1306 s /\ bus (snd r) = bus s
  /\ forall px py, in_panel px py ->
       get_pixel (snd r) px py
       = if (x <=? px) && (px <? x + w) && (y <=? py) && (py <? y + h)
            && bitmap_bit bitmap w (py - y) (px - x)
         then effective_color color s =? SSD1306_COLOR_WHITE
         else get_pixel s px py.
Proof.
  intros Hlen Hc Hx Hy Hw Hh r.
  assert (Er : r = (LCD_OK, plot_all (bitmap_plots x y bitmap w h color) s)).
  { unfold r, SSD1306_drawBitmap. cbv zeta. rewrite (for_range_nat 0 h).
    destruct (drawBitmap_rows x y bitmap w color (Z.to_nat h) s)
      as (yj & byte & E & _).
    rewrite E. unfold bitmap_plots. rewrite <- seqZ_nat. reflexivity. }
  rewrite Er. cbn [fst snd]. rewrite plot_all_lcd, plot_all_bus.
  do 3 (split; [reflexivity|]). intros px py Hp.
  assert (Hok : Forall plot_ok (bitmap_plots x y bitmap w h color)).
  { apply List.Forall_forall. intros t Ht.
    apply in_bitmap_plots in Ht as (i & j & _ & _ & _ & ->).
    unfold plot_ok. cbn [fst snd]. auto using u16_nonneg. }
  destruct (classic_hit (bitmap_plots x y bitmap w h color) px py)
    as [(t & Hin & Hhx & Hhy) | Hno].
  - rewrite (plot_all_hit _ s px py color); try assumption.
    + apply in_bitmap_plots in Hin as (i & j & Hi & Hj & E & ->).
      cbn [fst snd] in Hhx, Hhy. destruct Hp as [Hpx Hpy].
      apply u16_in_panel_x in Hhx; [|lia|assumption].
      apply (u16_in_panel_x (y + j) py) in Hhy;
        [|lia|unfold SSD1306_WIDTH, SSD1306_HEIGHT in *; lia].
      replace (py - y) with j by lia. replace (px - x) with i by lia. rewrite E.
      destruct (Z.leb_spec x px); [|lia]. destruct (Z.ltb_spec px (x + w)); [|lia].
      destruct (Z.leb_spec y py); [|lia]. destruct (Z.ltb_spec py (y + h)); [|lia].
      reflexivity.
    + exists t. split; [assumption | split; assumption].
    + intros t' Ht' _. apply in_bitmap_plots in Ht' as (i & j & _ & _ & _ & ->).
      reflexivity.
  - rewrite plot_all_frame by assumption.
    destruct (_ && _) eqn:E; [|reflexivity]. exfalso.
    repeat (apply andb_prop in E as [E ?]).
    apply Z.leb_le in E.
    repeat match goal with
      | H : (_ <=? _) = true |- _ => apply Z.leb_le in H
      | H : (_ <? _) = true |- _ => apply Z.ltb_lt in H
      end.
    apply (Hno (u16 (x + (px - x)), u16 (y + (py - y)), color)).
    + apply in_bitmap_plots. exists (px - x), (py - y).
      repeat split; try lia. assumption.
    + destruct Hp as [Hpx Hpy]. unfold SSD1306_WIDTH, SSD1306_HEIGHT in *.
      split; cbn [fst snd]; rewrite u16_small; lia.
Qed.

Lemma drawBitmap_pixels_witness :
  let s' := snd (SSD1306_drawBitmap (-3) 60 (fun _ => 0xA5) 12 8
                   SSD1306_COLOR_WHITE power_on) in
  get_pixel s' 0 60 = false /\ get_pixel s' 2 63 = true
  /\ get_pixel s' 5 61 = true /\ get_pixel s' 6 61 = false.
Proof.
  pose proof (drawBitmap_pixels (-3) 60 (fun _ => 0xA5) 12 8 SSD1306_COLOR_WHITE
                power_on eq_refl (or_intror eq_refl)
                ltac:(lia) ltac:(lia) ltac:(lia) ltac:(lia)) as H.
  cbv zeta in H. destruct H as (_ & _ & _ & P). cbv zeta.
  rewrite !P by (unfold in_panel, SSD1306_WIDTH, SSD1306_HEIGHT; lia).
  repeat split.
Defined.

(** ** Filled triangles *)

Lemma sweep_minor_steps den numadd k m num :
  0 <= numadd <= den -> 0 <= k <= den -> 0 < den -> 0 <= m -> 0 <= num ->
  m * den + num = den / 2 + k * numadd -> m <= numadd.
Proof.
  intros Hden Hk Hd Hm Hnum E.
  assert (Hh : 0 <= den / 2 < den)
    by (split; [apply Z.div_pos | apply Z.div_lt_upper_bound]; lia).
  assert (Hlt : m * den < (numadd + 1) * den) by nia.
  apply Z.mul_lt_mono_pos_r in Hlt; lia.
Qed.

Lemma sweep_last den numadd m num :
  0 <= numadd <= den -> 0 <= m <= den -> 0 <= num -> num < den \/ den = 0 ->
  m * den + num = den / 2 + den * numadd -> m = numadd.
Proof.
  intros Hden Hm Hnum Hlt E.
  destruct (Z.eq_dec den 0) as [E0 | N0]; [lia|].
  assert (Hh : 0 <= den / 2 < den)
    by (split; [apply Z.div_pos | apply Z.div_lt_upper_bound]; lia).
  assert (H1 : m * den < (numadd + 1) * den) by nia.
  assert (H2 : (numadd - 1) * den < m * den) by nia.
  apply Z.mul_lt_mono_pos_r in H1, H2; lia.
Qed.

Section Sweep.
Variable c : SSD1306_color_t.
Hypothesis Hc : is_color c.
Variable lfuel : nat.
Hypothesis Hlfuel : (191 <= lfuel)%nat.
Variables x1 y1 x3 y3 : Z.
Hypothesis Hx3 : 0 <= x3.
Hypothesis Hy3 : 0 <= y3.
Variables xinc1 xinc2 yinc1 yinc2 den numadd : Z.
Hypothesis Hxinc1 : -1 <= xinc1 <= 1.
Hypothesis Hxinc2 : -1 <= xinc2 <= 1.
Hypothesis Hyinc1 : -1 <= yinc1 <= 1.
Hypothesis Hyinc2 : -1 <= yinc2 <= 1.
Hypothesis Hden : 0 <= numadd <= den /\ den <= 127.

(** The sweep stays where no line to the third vertex can hang: after [k]
    passes, [m] of which stepped along the minor axis, the position is in
    the panel and not a diagonal neighbour of the third vertex. *)
Hypothesis Hsafe :
  forall k m, 0 <= k <= den -> 0 <= m <= numadd ->
    let X := x1 + xinc1 * m + xinc2 * k in
    let Y := y1 + yinc1 * m + yinc2 * k in
    (0 <= X <= 127 /\ 0 <= Y <= 63)
    /\ (Z.abs (Z.min x3 (SSD1306_WIDTH - 1) - Z.min X (SSD1306_WIDTH - 1)) <> 1
        \/ Z.abs (Z.min y3 (SSD1306_HEIGHT - 1) - Z.min Y (SSD1306_HEIGHT - 1)) <> 1).

Lemma drawFilledTriangle_loop_far (n : nat) :
  forall fuel k m x y num s,
    Z.of_nat n = den - k -> (n + 2 <= fuel)%nat ->
    0 <= k -> 0 <= m <= k ->
    x = x1 + xinc1 * m + xinc2 * k -> y = y1 + yinc1 * m + yinc2 * k ->
    m * den + num = den / 2 + k * numadd -> 0 <= num -> num < den \/ den = 0 ->
    length (SSD1306_Buffer s) = Z.to_nat SSD1306_BUFFER_SIZE ->
    exists s',
      drawFilledTriangle_loop fuel lfuel k den x y x3 y3
        xinc1 xinc2 yinc1 yinc2 den num numadd c s = Some s'
      /\ tints c s s'
      /\ (let eff := effective_color c s =? SSD1306_COLOR_WHITE in
          get_pixel s' x y = eff
          /\ get_pixel s' (Z.min x3 (SSD1306_WIDTH - 1)) (Z.min y3 (SSD1306_HEIGHT - 1))
             = eff
          /\ get_pixel s' (x1 + xinc1 * numadd + xinc2 * den)
                          (y1 + yinc1 * numadd + yinc2 * den) = eff).
Proof using Hc Hlfuel Hx3 Hy3 Hxinc1 Hxinc2 Hyinc1 Hyinc2 Hden Hsafe.
  induction n as [|n IH];
    intros fuel k m x y num s Hn Hfuel Hk Hm Ex Ey Enum Hnum Hlt Hlen.
  - (* the last pass *)
    assert (Ek : k = den) by lia. subst k.
    assert (Em : m = numadd)
      by (apply (sweep_last den numadd m num); try assumption; lia).
    subst m.
    destruct (Hsafe den numadd ltac:(lia) ltac:(lia)) as [[HX HY] Hfar].
    cbv zeta in HX, HY, Hfar. rewrite <- Ex in HX, Hfar. rewrite <- Ey in HY, Hfar.
    destruct fuel as [|[|fuel]]; try lia.
    cbn [drawFilledTriangle_loop].
    destruct (Z.leb_spec den den) as [_|]; [|lia].
    rewrite (u16_small x), (u16_small y) by lia.
    destruct (drawLine_ends lfuel x y x3 y3 c s Hlen Hc
                ltac:(lia) ltac:(lia) Hx3 Hy3 Hlfuel Hfar)
      as (s1 & R1 & T1 & A1 & B1).
    clear Hfar. rewrite R1. cbn [mbind option_bind snd].
    rewrite (s16_small (den + 1)) by lia.
    assert (Eexit : (den + 1 <=? den) = false) by (apply Z.leb_gt; lia).
    destruct (s16 (num + numadd) >=? den); rewrite Eexit;
      (exists s1; split; [reflexivity|]; split; [exact T1|]; cbv zeta;
       rewrite (Z.min_l x), (Z.min_l y) in A1
         by (unfold SSD1306_WIDTH, SSD1306_HEIGHT; lia);
       split; [exact A1|]; split; [exact B1|]; rewrite <- Ex, <- Ey; exact A1).
  - (* a pass that is followed by another *)
    assert (Hkd : k < den) by lia.
    assert (Hnd : num < den) by lia.
    assert (Hmn : m <= numadd)
      by (apply (sweep_minor_steps den numadd k m num); lia).
    destruct (Hsafe k m ltac:(lia) ltac:(lia)) as [[HX HY] Hfar].
    cbv zeta in HX, HY, Hfar. rewrite <- Ex in HX, Hfar. rewrite <- Ey in HY, Hfar.
    destruct fuel as [|fuel]; [lia|].
    cbn [drawFilledTriangle_loop].
    destruct (Z.leb_spec k den) as [_|]; [|lia].
    rewrite (u16_small x), (u16_small y) by lia.
    destruct (drawLine_ends lfuel x y x3 y3 c s Hlen Hc
                ltac:(lia) ltac:(lia) Hx3 Hy3 Hlfuel Hfar)
      as (s1 & R1 & T1 & A1 & B1).
    clear Hfar. rewrite R1. cbn [mbind option_bind snd].
    rewrite (Z.min_l x), (Z.min_l y) in A1
      by (unfold SSD1306_WIDTH, SSD1306_HEIGHT; lia).
    assert (Hl1 : length (SSD1306_Buffer s1) = Z.to_nat SSD1306_BUFFER_SIZE)
      by exact (tints_length c s s1 Hlen T1).
    assert (He1 : effective_color c s1 = effective_color c s)
      by (apply effective_color_lcd, T1).
    assert (Hp : in_panel x y)
      by (unfold in_panel, SSD1306_WIDTH, SSD1306_HEIGHT; lia).
    rewrite (s16_small (k + 1)), (s16_small (num + numadd)) by lia.
    destruct (Z.geb_spec (num + numadd) den) as [Hge | Hge].
    + rewrite (s16_small (num + numadd - den)) by lia.
      rewrite (s16_small (x + xinc1)), (s16_small (y + yinc1)) by lia.
      rewrite (s16_small (x + xinc1 + xinc2)), (s16_small (y + yinc1 + yinc2)) by lia.
      destruct (IH fuel (k + 1) (m + 1) (x + xinc1 + xinc2) (y + yinc1 + yinc2)
                  (num + numadd - den) s1)
        as (s' & R & T & A & B & F); try lia; try assumption.
      exists s'. split; [exact R|]. split; [eauto using tints_trans|].
      cbv zeta in *. rewrite He1 in A, B, F. split; [|split; assumption].
      rewrite <- He1. apply (tints_stays c s1 s'); try assumption.
      rewrite He1. exact A1.
    + rewrite (s16_small (x + xinc2)), (s16_small (y + yinc2)) by lia.
      destruct (IH fuel (k + 1) m (x + xinc2) (y + yinc2) (num + numadd) s1)
        as (s' & R & T & A & B & F); try lia; try assumption.
      exists s'. split; [exact R|]. split; [eauto using tints_trans|].
      cbv zeta in *. rewrite He1 in A, B, F. split; [|split; assumption].
      rewrite <- He1. apply (tints_stays c s1 s'); try assumption.
      rewrite He1. exact A1.
Qed.

End Sweep.

(** X18.  [SSD1306_drawFilledTriangle] is safe when the third vertex keeps
    its distance.  With the first two vertices in the panel and the clamped
    third vertex at least two columns or two rows outside their bounding
    box, the sweep along the first edge never meets a diagonal neighbour of
    the third vertex: the routine returns [LCD_OK] (191 passes are enough
    for the sweep and for each line), all three vertices have the colour
    that [SSD1306_drawPixel] commits, and every other pixel is as before or
    has that colour. *)
Theorem drawFilledTriangle_far_vertex (fuel : nat) (x1 y1 x2 y2 x3 y3 : Z)
    (color : SSD1306_color_t) (s : driver) :
  length (SSD1306_Buffer s) = Z.to_nat SSD1306_BUFFER_SIZE ->
  is_color color ->
  0 <= x1 < SSD1306_WIDTH -> 0 <= y1 < SSD1306_HEIGHT ->
  0 <= x2 < SSD1306_WIDTH -> 0 <= y2 < SSD1306_HEIGHT ->
  0 <= x3 -> 0 <= y3 -> (191 <= fuel)%nat ->
  let x3c := Z.min x3 (SSD1306_WIDTH - 1) in
  let y3c := Z.min y3 (SSD1306_HEIGHT - 1) in
  x3c + 2 <= Z.min x1 x2 \/ Z.max x1 x2 + 2 <= x3c
  \/ y3c + 2 <= Z.min y1 y2 \/ Z.max y1 y2 + 2 <= y3c ->
  exists s',
    SSD1306_drawFilledTriangle fuel x1 y1 x2 y2 x3 y3 color s = Some (LCD_OK, s')
    /\ tints color s s'
    /\ (let eff := effective_color color s =? SSD1306_COLOR_WHITE in
        get_pixel s' x1 y1 = eff /\ get_pixel s' x2 y2 = eff
        /\ get_pixel s' x3c y3c = eff).
Proof.
  intros Hlen Hc Hx1 Hy1 Hx2 Hy2 Hx3 Hy3 Hfuel x3c y3c Hfar.
  unfold SSD1306_WIDTH, SSD1306_HEIGHT in Hx1, Hy1, Hx2, Hy2.
  assert (Bx3 : 0 <= x3c <= 127) by (unfold x3c, SSD1306_WIDTH; lia).
  assert (By3 : 0 <= y3c <= 63) by (unfold y3c, SSD1306_HEIGHT; lia).
  unfold SSD1306_drawFilledTriangle. cbv zeta.
  assert (Edx : s16 (ABS (x2 - x1)) = Z.abs (x2 - x1))
    by (unfold ABS; destruct (Z.gtb_spec (x2 - x1) 0); rewrite s16_small; lia).
  assert (Edy : s16 (ABS (y2 - y1)) = Z.abs (y2 - y1))
    by (unfold ABS; destruct (Z.gtb_spec (y2 - y1) 0); rewrite s16_small; lia).
  rewrite Edx, Edy, (s16_small x1), (s16_small y1) by lia.
  set (dx := Z.abs (x2 - x1)) in *. set (dy := Z.abs (y2 - y1)) in *.
  assert (Hq : forall d, 0 <= d <= 127 -> s16 (Z.quot d 2) = d / 2).
  { intros d Hd. rewrite Z.quot_div_nonneg by lia.
    assert (0 <= d / 2 <= d)
      by (split; [apply Z.div_pos | apply Z.div_le_upper_bound]; lia).
    apply s16_small. lia. }
  rewrite (Hq dx), (Hq dy) by (unfold dx, dy; lia).
  assert (Hsweep :
    forall xinc1 xinc2 yinc1 yinc2 den numadd,
      -1 <= xinc1 <= 1 -> -1 <= xinc2 <= 1 -> -1 <= yinc1 <= 1 -> -1 <= yinc2 <= 1 ->
      0 <= numadd <= den /\ den <= 127 ->
      x1 + xinc1 * numadd + xinc2 * den = x2 ->
      y1 + yinc1 * numadd + yinc2 * den = y2 ->
      (forall k m, 0 <= k <= den -> 0 <= m <= numadd ->
         Z.min x1 x2 <= x1 + xinc1 * m + xinc2 * k <= Z.max x1 x2
         /\ Z.min y1 y2 <= y1 + yinc1 * m + yinc2 * k <= Z.max y1 y2) ->
      exists s',
        (s' ← drawFilledTriangle_loop fuel fuel 0 den x1 y1 x3 y3
                 xinc1 xinc2 yinc1 yinc2 den (den / 2) numadd color s;
         Some (LCD_OK, s')) = Some (LCD_OK, s')
        /\ tints color s s'
        /\ (let eff := effective_color color s =? SSD1306_COLOR_WHITE in
            get_pixel s' x1 y1 = eff /\ get_pixel s' x2 y2 = eff
            /\ get_pixel s' x3c y3c = eff)).
  { intros xinc1 xinc2 yinc1 yinc2 den numadd H1 H2 H3 H4 Hden Ex2 Ey2 Hbox.
    destruct (drawFilledTriangle_loop_far color Hc fuel Hfuel x1 y1 x3 y3 Hx3 Hy3
                xinc1 xinc2 yinc1 yinc2 den numadd H1 H2 H3 H4 Hden)
      with (n := Z.to_nat den) (fuel := fuel) (k := 0) (m := 0)
           (x := x1) (y := y1) (num := den / 2) (s := s)
      as (s' & R & T & A & B & F); try lia; try assumption.
    - intros k m Hk Hm. cbv zeta.
      destruct (Hbox k m Hk Hm) as [HbX HbY].
      fold x3c y3c. unfold SSD1306_WIDTH, SSD1306_HEIGHT.
      clearbody x3c y3c. clear - HbX HbY Hfar Hx1 Hx2 Hy1 Hy2 Bx3 By3.
      split; lia.
    - apply Z.div_pos; lia.
    - destruct (Z.eq_dec den 0) as [Hd0 | Hd0]; [right; exact Hd0 | left].
      apply Z.div_lt_upper_bound; lia.
    - exists s'. rewrite R. cbn [mbind option_bind].
      split; [reflexivity|]. split; [exact T|]. cbv zeta in *.
      rewrite Ex2, Ey2 in F. auto. }
  assert (Ddx : 0 <= dx <= 127) by (unfold dx; lia).
  assert (Ddy : 0 <= dy <= 127) by (unfold dy; lia).
  destruct (Z.geb_spec x2 x1) as [Gx | Gx];
    destruct (Z.geb_spec y2 y1) as [Gy | Gy];
    destruct (Z.geb_spec dx dy) as [Gd | Gd]; cbv iota beta;
    apply Hsweep; try lia; unfold dx, dy in *; intros; lia.
Qed.

Lemma drawFilledTriangle_far_vertex_witness :
  exists s',
    SSD1306_drawFilledTriangle 191 10 10 50 30 30 40 SSD1306_COLOR_WHITE power_on
    = Some (LCD_OK, s')
    /\ get_pixel s' 10 10 = true /\ get_pixel s' 50 30 = true
    /\ get_pixel s' 30 40 = true.
Proof.
  destruct (drawFilledTriangle_far_vertex 191 10 10 50 30 30 40 SSD1306_COLOR_WHITE
              power_on eq_refl (or_intror eq_refl))
    as (s' & R & _ & V); unfold SSD1306_WIDTH, SSD1306_HEIGHT; try lia.
  exists s'. split; [exact R | exact V].
Defined.

(** ** Initialisation and hardware inversion *)

Lemma data_bytes_commands (cmds : list Z) :
  flat_map data_bytes (map command_event cmds) = [].
Proof. induction cmds as [|c cmds IH]; [reflexivity | exact IH]. Qed.

(** X19.  A successful [SSD1306_init] keeps the picture.  When the device
    answers the probe, [SSD1306_init] returns [LCD_OK] from any state with
    the cursor at the origin and [initialized] set, after the probe, the
    delay and 29 command writes.  Its call of [SSD1306_clear] comes before
    [initialized] is set and so does nothing: the frame buffer and the
    [inverted] flag are those of the state before, and no byte of frame
    data goes to the panel. *)
Theorem init_keeps_frame_buffer (i2c : Z) (s : driver) :
  let r := SSD1306_init i2c HAL_OK s in
  fst r = LCD_OK
  /\ SSD1306_Buffer (snd r) = SSD1306_Buffer s
  /\ SSD1306 (snd r) = mkSSD1306 i2c 0 0 (inverted (SSD1306 s)) 1
  /\ bus (snd r)
     = bus s ++ IsDeviceReady SSD1306_I2C_ADDR 10 SSD1306_I2C_TIMEOUT
             :: Delay 10
             :: map command_event (init_commands ++ [SSD1306_DEACTIVATE_SCROLL])
  /\ flat_map data_bytes (bus (snd r)) = flat_map data_bytes (bus s)
  /\ (forall x y, get_pixel (snd r) x y = get_pixel s x y)
  /\ (forall color, effective_color color (snd r) = effective_color color s).
Proof.
  cbv zeta. rewrite init_ok_state. cbn [fst snd SSD1306_Buffer SSD1306 bus].
  do 4 (split; [reflexivity|]). split; [|split; reflexivity].
  rewrite flat_map_app. cbn [flat_map data_bytes].
  rewrite data_bytes_commands, !app_nil_r. reflexivity.
Qed.

(** X20.  [SSD1306_invertDisplay] is a matter of the panel alone.  Once the
    driver is initialised it sends one command, [A6] for a zero argument
    and [A7] otherwise, and changes neither the frame buffer nor the
    [inverted] flag of the driver; before that it returns [NO_INIT] and
    sends nothing.  It therefore commutes with [SSD1306_toggleInvert], the
    inversion done in software. *)
Theorem invertDisplay_panel_only (is_inverted : Z) (s : driver) :
  (if initialized (SSD1306 s) =? 0
   then SSD1306_invertDisplay is_inverted s = (NO_INIT, s)
   else fst (SSD1306_invertDisplay is_inverted s) = LCD_OK
        /\ sends_commands [if is_inverted =? 0 then 0xA6 else 0xA7] s
             (snd (SSD1306_invertDisplay is_inverted s)))
  /\ snd (SSD1306_toggleInvert (snd (SSD1306_invertDisplay is_inverted s)))
     = snd (SSD1306_invertDisplay is_inverted (snd (SSD1306_toggleInvert s))).
Proof.
  unfold SSD1306_invertDisplay, SSD1306_toggleInvert.
  destruct (initialized (SSD1306 s) =? 0) eqn:E.
  - split; [reflexivity|]. cbn [snd]. rewrite E. reflexivity.
  - split.
    + destruct (is_inverted =? 0); cbn [fst snd];
        (split; [reflexivity|]);
        apply (write_commands_sends [_]); repeat constructor;
        unfold SSD1306_NORMALDISPLAY, SSD1306_INVERTDISPLAY; lia.
    + cbv zeta.
      destruct (is_inverted =? 0);
        cbn [snd SSD1306_WRITECOMMAND SSD1306_I2C_Write emit set_buffer set_lcd
               SSD1306 SSD1306_Buffer bus set_inverted initialized];
        unfold SSD1306_WRITECOMMAND, SSD1306_I2C_Write, emit;
        cbn [SSD1306 SSD1306_Buffer bus initialized]; rewrite E;
        cbn [snd set_buffer set_lcd SSD1306 SSD1306_Buffer bus set_inverted
               initialized]; rewrite ?E; reflexivity.
Qed.

(** ** Slanted lines are straight *)

Lemma line_table :
  forallb (fun dx =>
    forallb (fun dy => (dx =? 1) && (dy =? 1) || line_ok dx dy)
            (seqZ 1 (SSD1306_HEIGHT - 1)))
    (seqZ 1 (SSD1306_WIDTH - 1)) = true.
Proof. vm_compute. reflexivity. Qed.

Lemma line_ok_all dx dy :
  1 <= dx <= 127 -> 1 <= dy <= 63 -> dx <> 1 \/ dy <> 1 -> line_ok dx dy = true.
Proof.
  intros Hx Hy Hne.
  assert (Hin1 : In dx (seqZ 1 (SSD1306_WIDTH - 1)))
    by (apply list_elem_of_In, elem_of_seqZ; unfold SSD1306_WIDTH; lia).
  assert (Hin2 : In dy (seqZ 1 (SSD1306_HEIGHT - 1)))
    by (apply list_elem_of_In, elem_of_seqZ; unfold SSD1306_HEIGHT; lia).
  pose proof (proj1 (forallb_forall _ _)
                (proj1 (forallb_forall _ _) line_table dx Hin1) dy Hin2) as H.
  cbv beta in H.
  apply orb_true_iff in H as [H | H]; [|exact H].
  apply andb_prop in H as [H1 H2]. apply Z.eqb_eq in H1, H2. lia.
Qed.

Lemma bres_path_S fuel dx dy a b err :
  bres_path (S fuel) dx dy a b err
  = (a, b) ::
    if (a =? dx) && (b =? dy) then []
    else bres_path fuel dx dy
           (if err >? - dx then a + 1 else a) (if err <? dy then b + 1 else b)
           (if err <? dy
            then (if err >? - dx then err - dy else err) + dx
            else if err >? - dx then err - dy else err).
Proof.
  cbn [bres_path]. destruct ((a =? dx) && (b =? dy)); [reflexivity|].
  destruct (err >? - dx); destruct (err <? dy); reflexivity.
Qed.

Lemma bres_path_more fuel :
  forall dx dy a b err,
    bres_steps fuel dx dy a b err = true ->
    bres_path (S fuel) dx dy a b err = bres_path fuel dx dy a b err.
Proof.
  induction fuel as [|fuel IH]; intros dx dy a b err H; [discriminate|].
  rewrite (bres_path_S (S fuel)), (bres_path_S fuel dx dy a b err).
  cbn [bres_steps] in H.
  destruct ((a =? dx) && (b =? dy)); [reflexivity|].
  f_equal.
  destruct (err >? - dx); destruct (err <? dy);
    apply andb_prop in H as [_ H2]; apply IH in H2; exact H2.
Qed.

Lemma bres_path_mono fuel fuel' dx dy a b err :
  (fuel <= fuel')%nat ->
  bres_steps fuel dx dy a b err = true ->
  bres_path fuel' dx dy a b err = bres_path fuel dx dy a b err.
Proof.
  induction 1 as [|n Hle IH]; [reflexivity|]. intros H.
  rewrite bres_path_more; [apply IH, H|].
  apply (bres_steps_mono fuel); assumption.
Qed.

Section Path.
Variables X0 Y0 dx dy sx sy : Z.
Hypothesis Hsx : sx = 1 \/ sx = -1.
Hypothesis Hsy : sy = 1 \/ sy = -1.
Hypothesis HX0 : 0 <= X0 < 65536.
Hypothesis HX1 : 0 <= X0 + sx * dx < 65536.
Hypothesis HY0 : 0 <= Y0 < 65536.
Hypothesis HY1 : 0 <= Y0 + sy * dy < 65536.

(** The calls of [SSD1306_drawPixel] of an accepted run. *)
Lemma drawLine_loop_path fuel color :
  forall a b err s,
    0 <= a <= dx -> 0 <= b <= dy ->
    bres_steps fuel dx dy a b err = true ->
    drawLine_loop fuel (X0 + sx * a) (Y0 + sy * b) (X0 + sx * dx) (Y0 + sy * dy)
      dx dy sx sy err color s
    = Some (plot_all
              (map (fun q => (X0 + sx * fst q, Y0 + sy * snd q, color))
                   (bres_path fuel dx dy a b err)) s).
Proof using Hsx Hsy HX0 HX1 HY0 HY1.
  induction fuel as [|fuel IH]; intros a b err s Ha Hb H; [discriminate|].
  cbn [bres_steps] in H. cbn [drawLine_loop bres_path map]. rewrite plot_all_cons.
  cbn [fst snd].
  rewrite (stepper_at_end X0 Y0 dx dy sx sy Hsx Hsy).
  destruct ((a =? dx) && (b =? dy)); [reflexivity|].
  destruct (err >? - dx); destruct (err <? dy);
    repeat match type of H with
      | _ && _ = true => apply andb_prop in H as [H ?]
      end;
    repeat match goal with
      | H : (_ <=? _) = true |- _ => apply Z.leb_le in H
      | H : (_ <? _) = true |- _ => apply Z.ltb_lt in H
      | H : (_ && _) = true |- _ => apply andb_prop in H as [? ?]
      end.
  - rewrite (s16_small (err - dy)) by lia.
    rewrite (s16_small (err - dy + dx)) by lia.
    rewrite (stepper_x X0 dx sx Hsx HX0 HX1), (stepper_y Y0 dy sy Hsy HY0 HY1) by lia.
    apply IH; [lia | lia | assumption].
  - rewrite (s16_small (err - dy)) by lia.
    rewrite (stepper_x X0 dx sx Hsx HX0 HX1) by lia.
    apply IH; [lia | lia | assumption].
  - rewrite (s16_small (err + dx)) by lia.
    rewrite (stepper_y Y0 dy sy Hsy HY0 HY1) by lia.
    apply IH; [lia | lia | assumption].
  - apply IH; [lia | lia | assumption].
Qed.

End Path.

(** X21.  A slanted line is straight and has no gaps.  When the clamped
    end points differ in both coordinates and are not diagonal neighbours,
    [SSD1306_drawLine] returns [LCD_OK] having drawn a run of pixels from
    the first end point to the second and nothing else.  The run stays
    between the end points, every pixel of it is less than one pixel away
    from the straight segment (measured along the shorter side of the
    bounding box), and it has exactly one pixel for each column of a flat
    line, for each row of a steep one. *)
Theorem drawLine_straight (fuel : nat) (x0 y0 x1 y1 : Z)
    (color : SSD1306_color_t) (s : driver) :
  length (SSD1306_Buffer s) = Z.to_nat SSD1306_BUFFER_SIZE ->
  is_color color ->
  0 <= x0 -> 0 <= y0 -> 0 <= x1 -> 0 <= y1 -> (191 <= fuel)%nat ->
  let cx0 := Z.min x0 (SSD1306_WIDTH - 1) in
  let cx1 := Z.min x1 (SSD1306_WIDTH - 1) in
  let cy0 := Z.min y0 (SSD1306_HEIGHT - 1) in
  let cy1 := Z.min y1 (SSD1306_HEIGHT - 1) in
  let dx := Z.abs (cx1 - cx0) in
  let dy := Z.abs (cy1 - cy0) in
  let sx := if cx0 <? cx1 then 1 else -1 in
  let sy := if cy0 <? cy1 then 1 else -1 in
  0 < dx -> 0 < dy -> dx <> 1 \/ dy <> 1 ->
  exists s' run,
    SSD1306_drawLine fuel x0 y0 x1 y1 color s = Some (LCD_OK, s')
    /\ Forall (fun q => 0 <= fst q <= dx /\ 0 <= snd q <= dy
                        /\ Z.abs (dy * fst q - dx * snd q) < Z.max dx dy) run
    /\ (if dy <=? dx then map fst run = seqZ 0 (dx + 1)
        else map snd run = seqZ 0 (dy + 1))
    /\ forall px py, in_panel px py ->
         get_pixel s' px py
         = if existsb (fun q => (px =? cx0 + sx * fst q) && (py =? cy0 + sy * snd q))
                      run
           then effective_color color s =? SSD1306_COLOR_WHITE
           else get_pixel s px py.
Proof.
  intros Hlen Hc Hx0 Hy0 Hx1 Hy1 Hfuel cx0 cx1 cy0 cy1 dx dy sx sy Hdx Hdy Hne.
  assert (Bx0 : 0 <= cx0 <= 127) by (unfold cx0, SSD1306_WIDTH; lia).
  assert (Bx1 : 0 <= cx1 <= 127) by (unfold cx1, SSD1306_WIDTH; lia).
  assert (By0 : 0 <= cy0 <= 63) by (unfold cy0, SSD1306_HEIGHT; lia).
  assert (By1 : 0 <= cy1 <= 63) by (unfold cy1, SSD1306_HEIGHT; lia).
  rewrite drawLine_slanted by (fold cx0 cx1 cy0 cy1; unfold dx, dy in *; lia).
  cbv zeta. fold cx0 cx1 cy0 cy1. fold dx dy sx sy.
  change (s16 (Z.shiftr (if dx >? dy then dx else - dy) 1)) with (bres_err0 dx dy).
  assert (Hsx : (sx = 1 \/ sx = -1) /\ cx1 = cx0 + sx * dx)
    by (unfold sx, dx; destruct (Z.ltb_spec cx0 cx1); lia).
  assert (Hsy : (sy = 1 \/ sy = -1) /\ cy1 = cy0 + sy * dy)
    by (unfold sy, dy; destruct (Z.ltb_spec cy0 cy1); lia).
  destruct Hsx as [Hsx Ex1]. destruct Hsy as [Hsy Ey1].
  assert (Ddx : 1 <= dx <= 127) by (unfold dx in *; lia).
  assert (Ddy : 1 <= dy <= 63) by (unfold dy in *; lia).
  clearbody dx dy sx sy cx0 cx1 cy0 cy1.
  assert (H191 : bres_steps 191 dx dy 0 0 (bres_err0 dx dy) = true)
    by (apply bres_steps_ok; assumption).
  assert (Hrun : bres_steps fuel dx dy 0 0 (bres_err0 dx dy) = true)
    by (apply (bres_steps_mono 191); assumption).
  pose proof (drawLine_loop_path cx0 cy0 dx dy sx sy Hsx Hsy
                ltac:(lia) ltac:(lia) ltac:(lia) ltac:(lia) fuel color
                0 0 (bres_err0 dx dy) s ltac:(lia) ltac:(lia) Hrun) as Hloop.
  rewrite !Z.mul_0_r, !Z.add_0_r, <- Ex1, <- Ey1 in Hloop.
  rewrite (bres_path_mono 191 fuel) in Hloop by assumption.
  rewrite Hloop. cbn [mbind option_bind].
  pose proof (line_ok_all dx dy Ddx Ddy Hne) as Hok. unfold line_ok in Hok.
  cbv zeta in Hok. apply andb_prop in Hok as [Hseg Hmajor].
  set (run := bres_path 191 dx dy 0 0 (bres_err0 dx dy)) in *. clearbody run.
  assert (Hrunp : Forall (fun q => 0 <= fst q <= dx /\ 0 <= snd q <= dy
                    /\ Z.abs (dy * fst q - dx * snd q) < Z.max dx dy) run).
  { apply List.Forall_forall. intros q Hq.
    pose proof (proj1 (forallb_forall _ _) Hseg q Hq) as Hb.
    unfold on_segment in Hb.
    rewrite !andb_true_iff, !Z.leb_le, Z.ltb_lt in Hb. lia. }
  eexists _, run. split; [reflexivity|]. split; [exact Hrunp|]. split.
  { destruct (dy <=? dx); apply bool_decide_eq_true in Hmajor; exact Hmajor. }
  intros px py Hp.
  set (L := map (fun q => (cx0 + sx * fst q, cy0 + sy * snd q, color)) run).
  assert (HL : Forall plot_ok L).
  { apply List.Forall_forall. intros t Ht. unfold L in Ht.
    apply in_map_iff in Ht as [q [<- Hq]].
    pose proof (proj1 (List.Forall_forall _ _) Hrunp q Hq) as (Ha & Hb & _).
    unfold plot_ok. cbn [fst snd]. split; [nia|]. split; [nia | exact Hc]. }
  destruct (existsb _ run) eqn:E.
  - apply existsb_exists in E as [q [Hq Hh]].
    apply andb_prop in Hh as [Hhx Hhy]. apply Z.eqb_eq in Hhx, Hhy.
    apply (plot_all_hit L s px py color); try assumption.
    + exists (cx0 + sx * fst q, cy0 + sy * snd q, color). split.
      * unfold L. apply in_map_iff. exists q. split; [reflexivity | exact Hq].
      * split; cbn [fst snd]; congruence.
    + intros t Ht _. unfold L in Ht. apply in_map_iff in Ht as [q' [<- _]].
      reflexivity.
  - apply plot_all_frame; try assumption.
    intros t Ht [Hhx Hhy]. unfold L in Ht. apply in_map_iff in Ht as [q [<- Hq]].
    cbn [fst snd] in Hhx, Hhy.
    assert (Et : existsb (fun q => (px =? cx0 + sx * fst q)
                                   && (py =? cy0 + sy * snd q)) run = true).
    { apply existsb_exists. exists q. split; [exact Hq|].
      rewrite <- Hhx, <- Hhy, !Z.eqb_refl. reflexivity. }
    congruence.
Qed.

Lemma drawLine_straight_witness :
  exists (s' : driver) (run : list (Z * Z)),
    SSD1306_drawLine 191 0 0 5 2 SSD1306_COLOR_WHITE power_on = Some (LCD_OK, s')
    /\ map fst run = [0; 1; 2; 3; 4; 5].
Proof.
  destruct (drawLine_straight 191 0 0 5 2 SSD1306_COLOR_WHITE power_on
              eq_refl (or_intror eq_refl) ltac:(lia) ltac:(lia) ltac:(lia)
              ltac:(lia) ltac:(lia) ltac:(vm_compute; reflexivity)
              ltac:(vm_compute; reflexivity)
              ltac:(left; vm_compute; discriminate))
    as (s' & run & R & _ & M & _).
  exists s', run. split; [exact R|].
  change (Z.abs (Z.min 2 (SSD1306_HEIGHT - 1) - Z.min 0 (SSD1306_HEIGHT - 1))
          <=? Z.abs (Z.min 5 (SSD1306_WIDTH - 1) - Z.min 0 (SSD1306_WIDTH - 1)))
    with true in M.
  exact M.
Defined.

(** ** A filled circle across the left edge *)

(** X23.  A filled circle that reaches past the left edge of the panel is
    drawn towards the right edge.  With [0 <= x0 < r] the left end of the
    centre chord, [x0 - r], is negative; as the [uint16_t] argument of
    [SSD1306_drawLine] it is a large number, which is clamped to column
    [SSD1306_WIDTH - 1].  The chord then runs from the right end of the
    disc, [x0 + r], to the last column: all these pixels of row [y0] have
    the colour that [SSD1306_drawPixel] commits when
    [SSD1306_drawFilledCircle] returns, although all but the first are
    farther than [r] from the centre. *)
Theorem drawFilledCircle_left_edge (fuel : nat) (x0 y0 r : Z)
    (color : SSD1306_color_t) (s : driver) :
  length (SSD1306_Buffer s) = Z.to_nat SSD1306_BUFFER_SIZE ->
  is_color color ->
  0 <= x0 < r -> r < 32768 -> x0 + r < SSD1306_WIDTH -> 0 <= y0 < SSD1306_HEIGHT ->
  (Z.to_nat r < fuel)%nat ->
  exists s',
    SSD1306_drawFilledCircle fuel x0 y0 r color s = Some (LCD_OK, s')
    /\ forall px, x0 + r <= px < SSD1306_WIDTH ->
         get_pixel s' px y0 = (effective_color color s =? SSD1306_COLOR_WHITE).
Proof.
  intros Hlen Hc Hx0 Hr Hxr Hy0 Hfuel.
  unfold SSD1306_WIDTH, SSD1306_HEIGHT in Hxr, Hy0.
  unfold SSD1306_drawFilledCircle. cbv zeta. rewrite circle_plot4_plots.
  set (s0 := plot_all (circle_plots x0 y0 (offsets4 r) color) s).
  assert (T0 : tints color s s0)
    by (apply tints_circle_plots; auto using tints_refl).
  assert (Hl0 : length (SSD1306_Buffer s0) = Z.to_nat SSD1306_BUFFER_SIZE)
    by exact (tints_length color s s0 Hlen T0).
  assert (He0 : effective_color color s0 = effective_color color s)
    by (apply effective_color_lcd, T0).
  destruct (drawLine_axis fuel (u16 (x0 - r)) (u16 y0) (u16 (x0 + r)) (u16 y0)
              color s0 Hl0 (u16_nonneg _) (u16_nonneg _) (u16_nonneg _)
              (u16_nonneg _) Hc (or_intror eq_refl))
    as (s1 & R1 & L1 & U1 & N1 & P1).
  assert (T1 : tints color s0 s1).
  { apply (drawLine_tints color Hc s0 fuel (u16 (x0 - r)) (u16 y0)
             (u16 (x0 + r)) (u16 y0) s0 (LCD_OK, s1));
      auto using tints_refl, u16_nonneg. }
  rewrite R1. cbn [mbind option_bind snd].
  destruct (circle_loops_cover color Hc x0 y0 fuel fuel
              (s16 (1 - r)) 1 (s16 (-2 * r)) 0 r s0 s1)
    as (sC & sF & _ & RF & _ & TF & _); try assumption; try lia.
  - intros px py Hp H. eapply tints_stays; eassumption.
  - exists sF. rewrite RF. cbn [mbind option_bind]. split; [reflexivity|].
    intros px Hpx. unfold SSD1306_WIDTH in Hpx.
    assert (Hp : in_panel px y0)
      by (unfold in_panel, SSD1306_WIDTH, SSD1306_HEIGHT; lia).
    rewrite <- He0, <- (effective_color_lcd color s0 s1 L1).
    apply (tints_stays color s1 sF); [exact TF | exact Hp |].
    rewrite (effective_color_lcd color s0 s1 L1). rewrite (P1 px y0 Hp).
    assert (Eleft : u16 (x0 - r) = x0 - r + 65536).
    { rewrite <- (u16_small (x0 - r + 65536)) by lia. apply u16_congr.
      replace (x0 - r - (x0 - r + 65536)) with (-1 * 65536) by lia.
      apply Z.mod_mul. lia. }
    rewrite Eleft, (u16_small (x0 + r)), (u16_small y0) by lia.
    destruct (_ && _) eqn:E; [reflexivity|]. exfalso. revert E.
    unfold SSD1306_WIDTH, SSD1306_HEIGHT.
    rewrite !andb_false_iff, !Z.leb_gt. lia.
Qed.

Lemma drawFilledCircle_left_edge_witness :
  exists s',
    SSD1306_drawFilledCircle 11 5 30 10 SSD1306_COLOR_WHITE power_on
    = Some (LCD_OK, s')
    /\ get_pixel s' 127 30 = true.
Proof.
  destruct (drawFilledCircle_left_edge 11 5 30 10 SSD1306_COLOR_WHITE power_on
              eq_refl (or_intror eq_refl))
    as (s' & R & P); unfold SSD1306_WIDTH, SSD1306_HEIGHT; try lia.
  exists s'. split; [exact R|].
  apply (P 127). unfold SSD1306_WIDTH. lia.
Defined.
